(** * err-githubhook: webhook relay plugin and provider handlers

    A shallow embedding of [githubhook.py] (the errbot plugin: routing
    configuration, chat commands, the [/github] webhook) and of
    [providers.py] (signature validation and per-provider message
    builders), followed by the properties established about them.

    Conventions.
    - Python [str] and [bytes] are [string] (a sequence of 8-bit characters;
      header values are the latin-1 decoding WSGI hands to the application).
    - A parsed JSON document is a [json] value; Python subscripting,
      truthiness and [len] on such values are written out with the
      exceptions they raise.
    - A Python call that may raise returns [result A].
    - A [dict] whose iteration order is observable is an insertion-ordered
      association list ([odict]).
    - Lists stored in the plugin configuration are objects in a heap and the
      configuration holds references to them, so that sharing between the
      default event list and a route is visible.
    - The code is read as Python 3 (errbot's language since version 4).
      JSON numbers are integers.  [save_config] hands the configuration to
      errbot's storage and changes nothing the plugin reads back, so it
      does not appear. *)

From Stdlib Require Import String Ascii List ZArith Lia Bool Arith.
Import ListNotations.
Open Scope string_scope.
Set Warnings "-register-all".

(* ================================================================== *)
(** ** Python values and exceptions *)
(* ================================================================== *)

Module Py.

Inductive exn :=
| KeyError
| TypeError
| ValueError
| AttributeError
| IndexError
| RoomError
| TransportFailure
| HTTPError (status : nat).

Inductive result (A : Type) :=
| Ok (a : A)
| Raise (e : exn).
Arguments Ok {A} a.
Arguments Raise {A} e.

Definition bind {A B} (m : result A) (k : A -> result B) : result B :=
  match m with
  | Ok a => k a
  | Raise e => Raise e
  end.

Definition is_ok {A} (m : result A) : bool :=
  match m with Ok _ => true | Raise _ => false end.

Inductive json :=
| JNull
| JBool (b : bool)
| JNum (n : Z)
| JStr (s : string)
| JArr (l : list json)
| JObj (o : list (string * json)).

(** [d.get(k)] on a dict with string keys (first binding wins; the
    constructors below never create a second one). *)
Fixpoint lookup {V} (k : string) (d : list (string * V)) : option V :=
  match d with
  | [] => None
  | (k', v) :: d' => if String.eqb k k' then Some v else lookup k d'
  end.

(** [v[k]] for a string key [k]: only a dict can be subscripted by a
    string; a missing key is a KeyError, any other receiver a TypeError. *)
Definition getitem (v : json) (k : string) : result json :=
  match v with
  | JObj o => match lookup k o with
              | Some x => Ok x
              | None => Raise KeyError
              end
  | _ => Raise TypeError
  end.

(** [k in v] for a dict [v]. *)
Definition has_key (v : json) (k : string) : bool :=
  match v with
  | JObj o => match lookup k o with Some _ => true | None => false end
  | _ => false
  end.

(** Python truthiness of a JSON value. *)
Definition truthy (v : json) : bool :=
  match v with
  | JNull => false
  | JBool b => b
  | JNum n => negb (Z.eqb n 0)
  | JStr s => negb (String.eqb s "")
  | JArr l => match l with [] => false | _ => true end
  | JObj o => match o with [] => false | _ => true end
  end.

(** [v == 'literal']. *)
Definition eq_str (v : json) (s : string) : bool :=
  match v with
  | JStr s' => String.eqb s' s
  | _ => false
  end.

Definition is_none (v : json) : bool :=
  match v with JNull => true | _ => false end.

(** [isinstance(v, dict)]. *)
Definition is_dict (v : json) : bool :=
  match v with JObj _ => true | _ => false end.

(** [len(v)]. *)
Definition len (v : json) : result Z :=
  match v with
  | JStr s => Ok (Z.of_nat (String.length s))
  | JArr l => Ok (Z.of_nat (List.length l))
  | JObj o => Ok (Z.of_nat (List.length o))
  | _ => Raise TypeError
  end.

(** [x in l] for a list of strings. *)
Fixpoint mem (x : string) (l : list string) : bool :=
  match l with
  | [] => false
  | y :: l' => String.eqb x y || mem x l'
  end.

(** [l.remove(x)]: drops the first occurrence (the callers only remove
    elements that are present). *)
Fixpoint remove_first (x : string) (l : list string) : list string :=
  match l with
  | [] => []
  | y :: l' => if String.eqb x y then l' else y :: remove_first x l'
  end.

(** [sep.join(l)]. *)
Fixpoint join (sep : string) (l : list string) : string :=
  match l with
  | [] => ""
  | [x] => x
  | x :: l' => x ++ sep ++ join sep l'
  end.

(** [s.split(sep)] for a one-character separator: always at least one
    field, one more than the number of separators. *)
Fixpoint split (sep : ascii) (s : string) : list string :=
  match s with
  | EmptyString => [""]
  | String c s' =>
      if Ascii.eqb c sep then "" :: split sep s'
      else match split sep s' with
           | [] => [String c ""]
           | f :: fs => String c f :: fs
           end
  end.

(** [str.lower()] on a latin-1 string: A-Z, and U+00C0..U+00DE except the
    multiplication sign U+00D7, move up by 32. *)
Definition lower_char (c : ascii) : ascii :=
  let n := nat_of_ascii c in
  if (((65 <=? n) && (n <=? 90))
      || ((192 <=? n) && (n <=? 222) && negb (n =? 215)))%nat
  then ascii_of_nat (n + 32) else c.

Fixpoint lower (s : string) : string :=
  match s with
  | EmptyString => EmptyString
  | String c s' => String (lower_char c) (lower s')
  end.

Definition is_ascii_char (c : ascii) : bool := (nat_of_ascii c <? 128)%nat.

Fixpoint is_ascii (s : string) : bool :=
  match s with
  | EmptyString => true
  | String c s' => is_ascii_char c && is_ascii s'
  end.

(** Insertion-ordered dict with string keys. *)
Definition odict (V : Type) := list (string * V).

Definition keys {V} (d : odict V) : list string := map fst d.

(** [d[k] = v]: an existing key keeps its position. *)
Fixpoint set {V} (k : string) (v : V) (d : odict V) : odict V :=
  match d with
  | [] => [(k, v)]
  | (k', v') :: d' =>
      if String.eqb k k' then (k', v) :: d' else (k', v') :: set k v d'
  end.

(** [d.pop(k)] for a key that is present. *)
Fixpoint pop {V} (k : string) (d : odict V) : odict V :=
  match d with
  | [] => []
  | (k', v') :: d' => if String.eqb k k' then d' else (k', v') :: pop k d'
  end.

End Py.

Import Py.

Declare Scope py_scope.
Delimit Scope py_scope with py.
Notation "x <- m ;; k" := (bind m (fun x => k))
  (at level 61, m at next level, right associativity) : py_scope.
Notation "v .[ k ]" := (getitem v k) (at level 1, left associativity) : py_scope.
Open Scope py_scope.

(** [v[k1][k2]] and [v[k1][k2][k3]]. *)
Definition getitem2 (v : json) (k1 k2 : string) : result json :=
  x <- v.[k1] ;; x.[k2].
Definition getitem3 (v : json) (k1 k2 k3 : string) : result json :=
  x <- getitem2 v k1 k2 ;; x.[k3].

(* ================================================================== *)
(** ** hashlib.sha1 and hmac (Python standard library)

    The digest the handlers compare against, following FIPS 180-1 and
    RFC 2104 as [hashlib] and [hmac] implement them. *)
(* ================================================================== *)

Module Hashlib.

Open Scope Z_scope.
Open Scope list_scope.

Definition w32 (x : Z) : Z := x mod 2 ^ 32.

Definition rotl (n x : Z) : Z :=
  w32 (Z.lor (Z.shiftl x n) (Z.shiftr x (32 - n))).

Definition bytes_of_string (s : string) : list Z :=
  map (fun c => Z.of_nat (nat_of_ascii c)) (list_ascii_of_string s).

(** Big-endian encoding of [x] on [n] bytes. *)
Fixpoint be_bytes (n : nat) (x : Z) : list Z :=
  match n with
  | O => []
  | S n' => (Z.shiftr x (8 * Z.of_nat n')) mod 256 :: be_bytes n' x
  end.

Fixpoint be_word (bs : list Z) (acc : Z) : Z :=
  match bs with
  | [] => acc
  | b :: bs' => be_word bs' (acc * 256 + b)
  end.

(** Padding: a 1 bit, zeros up to 56 mod 64, the bit length on 8 bytes. *)
Definition pad (msg : list Z) : list Z :=
  let l := Z.of_nat (List.length msg) in
  let k := (55 - l) mod 64 in
  msg ++ [128] ++ repeat 0 (Z.to_nat k) ++ be_bytes 8 (8 * l).

Fixpoint chunks (fuel : nat) (n : nat) (l : list Z) : list (list Z) :=
  match fuel with
  | O => []
  | S fuel' =>
      match l with
      | [] => []
      | _ => firstn n l :: chunks fuel' n (skipn n l)
      end
  end.

Definition words_of_block (b : list Z) : list Z :=
  map (fun c => be_word c 0) (chunks 16 4 b).

Definition f_round (t : nat) (b c d : Z) : Z :=
  if (t <? 20)%nat then Z.lor (Z.land b c) (Z.land (Z.lxor b 4294967295) d)
  else if (t <? 40)%nat then Z.lxor (Z.lxor b c) d
  else if (t <? 60)%nat then
    Z.lor (Z.lor (Z.land b c) (Z.land b d)) (Z.land c d)
  else Z.lxor (Z.lxor b c) d.

Definition k_round (t : nat) : Z :=
  if (t <? 20)%nat then 1518500249
  else if (t <? 40)%nat then 1859775393
  else if (t <? 60)%nat then 2400959708
  else 3395469782.

Record regs := mkRegs { ra : Z; rb : Z; rc : Z; rd : Z; re : Z }.

(** Rounds [t .. t + n - 1]; [ws] is the window W[t .. t+15] of the
    message schedule. *)
Fixpoint rounds (n t : nat) (ws : list Z) (r : regs) : regs :=
  match n with
  | O => r
  | S n' =>
      let w := nth 0 ws 0 in
      let nw := rotl 1 (Z.lxor (Z.lxor (Z.lxor (nth 13 ws 0) (nth 8 ws 0))
                                       (nth 2 ws 0)) w) in
      let tmp := w32 (rotl 5 (ra r) + f_round t (rb r) (rc r) (rd r)
                      + re r + k_round t + w) in
      rounds n' (S t) (tl ws ++ [nw])
             (mkRegs tmp (ra r) (rotl 30 (rb r)) (rc r) (rd r))
  end.

Definition compress (h : regs) (block : list Z) : regs :=
  let r := rounds 80 0 (words_of_block block) h in
  mkRegs (w32 (ra h + ra r)) (w32 (rb h + rb r)) (w32 (rc h + rc r))
         (w32 (rd h + rd r)) (w32 (re h + re r)).

Definition h_init : regs :=
  mkRegs 1732584193 4023233417 2562383102 271733878 3285377520.

Definition sha1 (msg : list Z) : list Z :=
  let p := pad msg in
  let h := fold_left compress (chunks (List.length p) 64 p) h_init in
  be_bytes 4 (ra h) ++ be_bytes 4 (rb h) ++ be_bytes 4 (rc h)
  ++ be_bytes 4 (rd h) ++ be_bytes 4 (re h).

(** [hmac.new(key, msg, hashlib.sha1).digest()]. *)
Definition hmac_sha1 (key msg : list Z) : list Z :=
  let k0 := if (64 <? List.length key)%nat then sha1 key else key in
  let k := k0 ++ repeat 0 (64 - List.length k0)%nat in
  let ipad := map (fun b => Z.lxor b 54) k in
  let opad := map (fun b => Z.lxor b 92) k in
  sha1 (opad ++ sha1 (ipad ++ msg)).

Definition hex_digit (n : Z) : ascii :=
  if n <? 10 then ascii_of_nat (Z.to_nat (48 + n))
  else ascii_of_nat (Z.to_nat (87 + n)).

Fixpoint hex (bs : list Z) : string :=
  match bs with
  | [] => EmptyString
  | b :: bs' => String (hex_digit (b / 16)) (String (hex_digit (b mod 16)) (hex bs'))
  end.

(** [hmac.new(key, msg=msg, digestmod=hashlib.sha1).hexdigest()]. *)
Definition hmac_sha1_hexdigest (key msg : string) : string :=
  hex (hmac_sha1 (bytes_of_string key) (bytes_of_string msg)).

Definition sha1_hexdigest (msg : string) : string :=
  hex (sha1 (bytes_of_string msg)).

End Hashlib.

(* ================================================================== *)
(** ** Requests, templates *)
(* ================================================================== *)

(** What the handlers read of a bottle request.  [headers] is keyed by the
    header names the code asks for (the server canonicalises case);
    [body] is the raw payload ([request.body.read()]); [json] is the value
    of the [request.json] property: the parsed body, [Ok JNull] when bottle
    returns [None], [Raise ValueError] when the body does not parse. *)
Record request := mkRequest {
  content_type : string;
  headers : list (string * string);
  body : string;
  json_body : result json
}.

Definition get_header (r : request) (name : string) : option string :=
  lookup name (headers r).

(** A call of the template engine: [tenv().get_template(template).render(context)].
    Rendering itself is outside the repository. *)
Record render_call := mkRender {
  template : string;
  context : list (string * json)
}.

(* ================================================================== *)
(** ** providers.py *)
(* ================================================================== *)

Module Providers.

Definition GITHUB_EVENTS : list string :=
  ["commit_comment"; "create"; "delete"; "deployment";
   "deployment_status"; "fork"; "gollum"; "issue_comment";
   "issues"; "member"; "page_build"; "public";
   "pull_request_review_comment"; "pull_request"; "push";
   "release"; "status"; "team_add"; "watch"; "*"].

Definition GITLAB_EVENTS : list string :=
  ["push_hook"; "tag_push_hook"; "issue_hook"; "note_hook"; "merge_request_hook"].

Definition SUPPORTED_EVENTS : list string :=
  (GITHUB_EVENTS ++ GITLAB_EVENTS)%list.

(** [str.encode()]: UTF-8 of a string of code points below 256. *)
Fixpoint encode (s : string) : string :=
  match s with
  | EmptyString => EmptyString
  | String c s' =>
      let n := nat_of_ascii c in
      if (n <? 128)%nat then String c (encode s')
      else String (ascii_of_nat (192 + n / 64))
                  (String (ascii_of_nat (128 + n mod 64)) (encode s'))
  end.

(** [hmac.compare_digest(a, b)] on two [str]: a TypeError ("comparing
    strings with non-ASCII characters is not supported") unless both are
    ASCII, otherwise equality of contents. *)
Definition compare_digest (a b : string) : result bool :=
  if is_ascii a && is_ascii b then Ok (String.eqb a b) else Raise TypeError.

(** A handler class seen through [hasattr]/[getattr]: the two-argument
    call [getattr(self, name)(body, repo)] of each attribute it has. *)
Definition handler := json -> json -> result (option render_call).
Definition method_table := string -> option handler.

(** [CommonGitWebProvider.render_template]: [repo_name] is never among the
    keyword arguments the handlers pass, so it is the provider's [name]. *)
Definition render_template (name : string) (template : string)
    (kwargs : list (string * json)) : render_call :=
  mkRender (template ++ ".html") (kwargs ++ [("repo_name", JStr name)])%list.

(** ['msg_{0}'.format(event_type)]; [None] formats as ['None']. *)
Definition message_function (event_type : option string) : string :=
  "msg_" ++ match event_type with Some e => e | None => "None" end.

Definition py_opt_str (o : option string) : json :=
  match o with Some s => JStr s | None => JNull end.

Definition msg_generic (name : string) (body repo : json)
    (event_type : option string) : result (option render_call) :=
  Ok (Some (render_template name "generic"
              [("body", body); ("repo", repo);
               ("event_type", py_opt_str event_type)])).

(** [CommonGitWebProvider.create_message] for a class with attributes
    [methods] and provider name [name]. *)
Definition create_message (methods : method_table) (name : string)
    (body : json) (event_type : option string) (repo : json)
    : result (option render_call) :=
  match methods (message_function event_type) with
  | Some m => m body repo
  | None => msg_generic name body repo event_type
  end.

(** [x if c else y] on the action field: ['commented' if body['action'] == 'created' else body['action']]. *)
Definition commented_if_created (body : json) : result json :=
  a <- body.["action"] ;;
  if eq_str a "created" then Ok (JStr "commented") else body.["action"].

(** [v.split('/')] as a method call on a JSON value: only [str] has it. *)
Definition str_split (sep : ascii) (v : json) : result (list string) :=
  match v with
  | JStr s => Ok (split sep s)
  | _ => Raise AttributeError
  end.

Module GithubHandlers.

Definition name := "Github".

Definition valid_message (request : request) (token : string) : result bool :=
  match get_header request "X-Hub-Signature" with
  | None => Ok false
  | Some signature =>
      match split "=" signature with
      | [alg; sig] =>
          if negb (String.eqb alg "sha1") then Ok false
          else
            let message := body request in
            let mac := Hashlib.hmac_sha1_hexdigest (encode token) message in
            compare_digest mac sig
      | _ => Ok false
      end
  end.

Definition get_repo (body : json) : result json :=
  getitem2 body "repository" "full_name".

Definition msg_issues (body repo : json) : result (option render_call) :=
  action <- body.["action"] ;;
  number <- getitem2 body "issue" "number" ;;
  title <- getitem2 body "issue" "title" ;;
  user <- getitem3 body "issue" "user" "login" ;;
  url <- getitem2 body "issue" "url" ;;
  is_assigned <- getitem2 body "issue" "assignee" ;;
  a <- getitem2 body "issue" "assignee" ;;
  assignee <- (if truthy a then getitem3 body "issue" "assignee" "login"
               else Ok JNull) ;;
  Ok (Some (render_template name "issues"
    [("body", body); ("repo", repo); ("action", action); ("number", number);
     ("title", title); ("user", user); ("url", url);
     ("is_assigned", is_assigned); ("assignee", assignee)])).

Definition msg_pull_request (body repo : json) : result (option render_call) :=
  action <- body.["action"] ;;
  user <- getitem3 body "pull_request" "user" "login" ;;
  au <- (if eq_str action "closed" then
           m <- getitem2 body "pull_request" "merged" ;;
           if truthy m then
             u <- getitem3 body "pull_request" "merged_by" "login" ;;
             Ok (JStr "merged", u)
           else Ok (action, user)
         else Ok (action, user)) ;;
  let '(action, user) := au in
  let action := if eq_str action "synchronize" then JStr "updated" else action in
  number <- getitem2 body "pull_request" "number" ;;
  url <- getitem2 body "pull_request" "html_url" ;;
  merged <- getitem2 body "pull_request" "merged" ;;
  Ok (Some (render_template name "pull_request"
    [("body", body); ("repo", repo); ("action", action); ("user", user);
     ("number", number); ("url", url); ("merged", merged)])).

Definition msg_pull_request_review_comment (body repo : json)
    : result (option render_call) :=
  action <- commented_if_created body ;;
  user <- getitem3 body "comment" "user" "login" ;;
  line <- getitem2 body "comment" "position" ;;
  l_url <- getitem2 body "comment" "html_url" ;;
  pr <- getitem2 body "pull_request" "number" ;;
  url <- getitem2 body "pull_request" "html_url" ;;
  Ok (Some (render_template name "pull_request_review_comment"
    [("body", body); ("repo", repo); ("action", action); ("user", user);
     ("line", line); ("l_url", l_url); ("pr", pr); ("url", url)])).

Definition msg_push (body repo : json) : result (option render_call) :=
  user <- getitem2 body "pusher" "name" ;;
  cs <- body.["commits"] ;;
  commits <- len cs ;;
  ref <- body.["ref"] ;;
  parts <- str_split "/" ref ;;
  let branch := last parts "" in
  url <- body.["compare"] ;;
  Ok (Some (render_template name "push"
    [("body", body); ("repo", repo); ("user", user); ("commits", JNum commits);
     ("branch", JStr branch); ("url", url)])).

Definition msg_status (body repo : json) : result (option render_call) :=
  Ok None.

Definition msg_issue_comment (body repo : json) : result (option render_call) :=
  action <- commented_if_created body ;;
  user <- getitem3 body "comment" "user" "login" ;;
  number <- getitem2 body "issue" "number" ;;
  title <- getitem2 body "issue" "title" ;;
  url <- getitem2 body "issue" "html_url" ;;
  Ok (Some (render_template name "issue_comment"
    [("body", body); ("repo", repo); ("action", action); ("user", user);
     ("number", number); ("title", title); ("url", url)])).

Definition msg_commit_comment (body repo : json) : result (option render_call) :=
  user <- getitem3 body "comment" "user" "login" ;;
  url <- getitem2 body "comment" "html_url" ;;
  line <- getitem2 body "comment" "line" ;;
  sha <- getitem2 body "comment" "commit_id" ;;
  Ok (Some (render_template name "commit_comment"
    [("body", body); ("repo", repo); ("user", user); ("url", url);
     ("line", line); ("sha", sha)])).

(** The [msg_*] attributes of a [GithubHandlers] instance.  [msg_generic]
    takes a third argument, so the two-argument call raises. *)
Definition methods : method_table := fun attr =>
  if String.eqb attr "msg_issues" then Some msg_issues
  else if String.eqb attr "msg_pull_request" then Some msg_pull_request
  else if String.eqb attr "msg_pull_request_review_comment"
       then Some msg_pull_request_review_comment
  else if String.eqb attr "msg_push" then Some msg_push
  else if String.eqb attr "msg_status" then Some msg_status
  else if String.eqb attr "msg_issue_comment" then Some msg_issue_comment
  else if String.eqb attr "msg_commit_comment" then Some msg_commit_comment
  else if String.eqb attr "msg_generic" then Some (fun _ _ => Raise TypeError)
  else None.

Definition create_message := Providers.create_message methods name.

End GithubHandlers.

(** [for c in v]: lists yield their items, strings their characters,
    dicts their keys; nothing else is iterable. *)
Definition iter (v : json) : result (list json) :=
  match v with
  | JArr l => Ok l
  | JStr s => Ok (map (fun c => JStr (String c "")) (list_ascii_of_string s))
  | JObj o => Ok (map (fun kv => JStr (fst kv)) o)
  | _ => Raise TypeError
  end.

Fixpoint prefix (n : nat) (s : string) : string :=
  match n, s with
  | S n', String c s' => String c (prefix n' s')
  | _, _ => EmptyString
  end.

(** [v[:n]]: strings and lists can be sliced. *)
Definition slice_to (n : nat) (v : json) : result json :=
  match v with
  | JStr s => Ok (JStr (prefix n s))
  | JArr l => Ok (JArr (firstn n l))
  | _ => Raise TypeError
  end.

Fixpoint last_char (s : string) : option ascii :=
  match s with
  | EmptyString => None
  | String c EmptyString => Some c
  | String _ s' => last_char s'
  end.

(** [v[-1]]. *)
Definition index_last (v : json) : result json :=
  match v with
  | JArr l => match l with
              | [] => Raise IndexError
              | x :: l' => Ok (last l' x)
              end
  | JStr s => match last_char s with
              | Some c => Ok (JStr (String c ""))
              | None => Raise IndexError
              end
  | JObj _ => Raise KeyError
  | _ => Raise TypeError
  end.

(** [[f(c) for c in l]], stopping at the first exception. *)
Fixpoint map_result {A B} (f : A -> result B) (l : list A) : result (list B) :=
  match l with
  | [] => Ok []
  | x :: l' => y <- f x ;; ys <- map_result f l' ;; Ok (y :: ys)
  end.

Module GitLabHandlers.

Definition name := "GitLab".

Definition valid_message (request : request) (token : string) : result bool :=
  let signature := get_header request "X-Gitlab-Token" in
  Ok true.

Definition get_repo (body : json) : result json :=
  getitem2 body "project" "name".

Definition map_event_type (event_type : string) : option string :=
  lookup event_type
    [("push_hook", "push"); ("issue_hook", "issue"); ("note_hook", "comment")].

(** One entry of [commit_messages]. *)
Definition commit_message (c : json) : result json :=
  m <- c.["message"] ;;
  m80 <- slice_to 80 m ;;
  lines <- str_split "010" m80 ;;
  i <- c.["id"] ;;
  h <- slice_to 8 i ;;
  u <- c.["url"] ;;
  Ok (JObj [("msg", JStr (hd "" lines)); ("hash", h); ("url", u)]).

Definition msg_push (body repo : json) : result (option render_call) :=
  cs <- body.["commits"] ;;
  lc <- (if truthy cs then
           c <- index_last cs ;;
           last_commit_url <- c.["url"] ;;
           items <- iter cs ;;
           commit_messages <- map_result commit_message items ;;
           Ok (last_commit_url, commit_messages)
         else
           last_commit_url <- getitem2 body "project" "web_url" ;;
           Ok (last_commit_url, [])) ;;
  let '(last_commit_url, commit_messages) := lc in
  user <- body.["user_name"] ;;
  commits <- len cs ;;
  ref <- body.["ref"] ;;
  parts <- str_split "/" ref ;;
  Ok (Some (render_template name "push"
    [("body", body); ("repo", repo); ("user", user); ("commits", JNum commits);
     ("branch", JStr (join "/" (skipn 2 parts))); ("url", last_commit_url);
     ("commit_messages", JArr commit_messages)])).

(** [{'reopen': .., 'close': .., 'open': ..}.get(k)] for an arbitrary JSON
    key: lists and dicts are unhashable. *)
Definition issue_action (k : json) : result (option string) :=
  match k with
  | JStr s => Ok (lookup s [("reopen", "reopened"); ("close", "closed");
                            ("open", "opened")])
  | JArr _ | JObj _ => Raise TypeError
  | _ => Ok None
  end.

Definition msg_issue (body repo : json) : result (option render_call) :=
  k <- getitem2 body "object_attributes" "action" ;;
  action <- issue_action k ;;
  match action with
  | Some a =>
      title <- getitem2 body "object_attributes" "title" ;;
      user <- getitem2 body "user" "name" ;;
      url <- getitem2 body "object_attributes" "url" ;;
      Ok (Some (render_template name "issues"
        [("body", body); ("repo", repo); ("action", JStr a); ("title", title);
         ("user", user); ("url", url)]))
  | None => Ok None
  end.

Definition msg_comment (body repo : json) : result (option render_call) :=
  nt <- getitem2 body "object_attributes" "noteable_type" ;;
  match nt with
  | JStr s =>
      let noteable := lower s in
      if String.eqb noteable "issue" then
        user <- getitem2 body "user" "name" ;;
        url <- getitem2 body "object_attributes" "url" ;;
        title <- getitem2 body "issue" "title" ;;
        Ok (Some (render_template name "issue_comment"
          [("body", body); ("repo", repo); ("user", user); ("url", url);
           ("action", JStr "commented"); ("title", title)]))
      else if String.eqb noteable "commit" then
        user <- getitem2 body "user" "name" ;;
        url <- getitem2 body "object_attributes" "url" ;;
        Ok (Some (render_template name "commit_comment"
          [("body", body); ("repo", repo); ("user", user); ("url", url);
           ("line", JNull)]))
      else if String.eqb noteable "mergerequest" then
        user <- getitem2 body "user" "name" ;;
        url <- getitem2 body "object_attributes" "url" ;;
        Ok (Some (render_template name "merge_request_comment"
          [("body", body); ("repo", repo); ("user", user); ("url", url)]))
      else Ok None
  | _ => Raise AttributeError
  end.

Definition methods : method_table := fun attr =>
  if String.eqb attr "msg_push" then Some msg_push
  else if String.eqb attr "msg_issue" then Some msg_issue
  else if String.eqb attr "msg_comment" then Some msg_comment
  else if String.eqb attr "msg_generic" then Some (fun _ _ => Raise TypeError)
  else None.

(** The override: map the event name, then the inherited dispatch. *)
Definition create_message (body : json) (event_type : string) (repo : json)
    : result (option render_call) :=
  let mapped_event_type := map_event_type event_type in
  Providers.create_message methods name body mapped_event_type repo.

End GitLabHandlers.

End Providers.

(* ================================================================== *)
(** ** githubhook.py *)
(* ================================================================== *)

Module GithubHook.

Definition GITHUB_EVENTS : list string :=
  ["commit_comment"; "create"; "delete"; "deployment";
   "deployment_status"; "fork"; "gollum"; "issue_comment";
   "issues"; "member"; "page_build"; "public";
   "pull_request_review_comment"; "pull_request"; "push";
   "release"; "status"; "team_add"; "watch"; "*"].

Definition DEFAULT_EVENTS : list string :=
  ["commit_comment"; "issue_comment"; "issues";
   "pull_request_review_comment"; "pull_request"; "push"].

Definition REQUIRED_HEADERS : list string := ["X-Github-Event"].

Definition HELP_MSG : string :=
  "Please see the output of `!github help` for usage and configuration instructions.".

Definition REPO_UNKNOWN (repo : string) : string :=
  "The repository " ++ repo ++ " is unknown to me.".

Definition EVENT_UNKNOWN (event : string) : string :=
  "Unknown event " ++ event ++ ", skipping.".

(** *** Plugin state

    Event lists held by the configuration are heap objects; [ref] is the
    identity of such a list.  A route is the dict [{}] or
    [{'events': <list>}]; a repository is [{'routes': {room: route}}].
    [global_route] is the instance attribute of that name: [None] while it
    has never been assigned, [Some None] when it holds Python's [None]. *)

Definition ref := nat.

Record route_cfg := mkRoute { events : option ref }.

Record repo_cfg := mkRepo { routes : odict route_cfg }.

Record config := mkConfig {
  default_events : ref;
  repositories : odict repo_cfg
}.

Record plugin := mkPlugin {
  heap : list (list string);
  cfg : config;
  global_route : option (option string)
}.

Definition deref (st : plugin) (r : ref) : list string := nth r (heap st) [].

(** A list object enters the heap when the configuration first refers to
    it. *)
Definition alloc (l : list string) (st : plugin) : ref * plugin :=
  (List.length (heap st),
   mkPlugin (heap st ++ [l])%list (cfg st) (global_route st)).

Definition with_cfg (st : plugin) (c : config) : plugin :=
  mkPlugin (heap st) c (global_route st).

(** [d.get(k)] where the key is an arbitrary JSON value and the dict has
    string keys: lists and dicts are unhashable, other non-strings are
    simply absent. *)
Definition dict_get {V} (d : odict V) (k : json) : result (option V) :=
  match k with
  | JStr s => Ok (lookup s d)
  | JArr _ | JObj _ => Raise TypeError
  | _ => Ok None
  end.

(** *** Convenience methods *)

Definition get_repo (st : plugin) (repo : json) : result (option repo_cfg) :=
  dict_get (repositories (cfg st)) repo.

Definition has_repo (st : plugin) (repo : json) : result bool :=
  r <- get_repo st repo ;;
  Ok (match r with None => false | Some _ => true end).

(** [.get(repo, {}).get('routes', {})]. *)
Definition routes_of (st : plugin) (repo : json) : result (odict route_cfg) :=
  r <- dict_get (repositories (cfg st)) repo ;;
  Ok (match r with Some rc => routes rc | None => [] end).

Definition get_route (st : plugin) (repo : json) (room : string)
    : result (option route_cfg) :=
  rs <- routes_of st repo ;; Ok (lookup room rs).

Definition has_route (st : plugin) (repo : json) (room : string) : result bool :=
  r <- get_route st repo room ;;
  Ok (match r with None => false | Some _ => true end).

Definition get_defaults (st : plugin) : ref := default_events (cfg st).

(** [None] when the route or its ['events'] entry is missing. *)
Definition get_events (st : plugin) (repo : json) (room : string)
    : result (option ref) :=
  rs <- routes_of st repo ;;
  Ok (match lookup room rs with
      | Some rt => events rt
      | None => None
      end).

Definition get_repos (st : plugin) : list string := keys (repositories (cfg st)).

Definition get_routes (st : plugin) (repo : json) : result (list string) :=
  rs <- routes_of st repo ;; Ok (keys rs).

Definition set_defaults (st : plugin) (defaults : ref) : plugin :=
  with_cfg st (mkConfig defaults (repositories (cfg st))).

(** [self.config['repositories'][repo]['routes'][room]['events'] = events];
    a missing repository or route is a KeyError. *)
Definition set_events (st : plugin) (repo room : string) (evs : ref)
    : result plugin :=
  match lookup repo (repositories (cfg st)) with
  | None => Raise KeyError
  | Some rc =>
      match lookup room (routes rc) with
      | None => Raise KeyError
      | Some _ =>
          Ok (with_cfg st
                (mkConfig (default_events (cfg st))
                   (set repo (mkRepo (set room (mkRoute (Some evs)) (routes rc)))
                        (repositories (cfg st)))))
      end
  end.

Definition set_route (st : plugin) (repo room : string) : plugin :=
  let repos :=
    match lookup repo (repositories (cfg st)) with
    | None => set repo (mkRepo []) (repositories (cfg st))
    | Some _ => repositories (cfg st)
    end in
  let rc := match lookup repo repos with Some rc => rc | None => mkRepo [] end in
  with_cfg st
    (mkConfig (default_events (cfg st))
       (set repo (mkRepo (set room (mkRoute None) (routes rc))) repos)).

Definition clear_repo (st : plugin) (repo : string) : plugin :=
  match lookup repo (repositories (cfg st)) with
  | Some _ =>
      with_cfg st (mkConfig (default_events (cfg st))
                     (pop repo (repositories (cfg st))))
  | None => st
  end.

Definition clear_route (st : plugin) (repo room : string) : plugin :=
  match lookup repo (repositories (cfg st)) with
  | Some rc =>
      match lookup room (routes rc) with
      | Some _ =>
          with_cfg st (mkConfig (default_events (cfg st))
                         (set repo (mkRepo (pop room (routes rc)))
                              (repositories (cfg st))))
      | None => st
      end
  | None => st
  end.

(** *** Commands

    A command is a generator; errbot drains it, so a command is its list
    of replies together with the state it leaves. *)

(** The loop of [github_defaults]: known events are appended to the new
    list, unknown ones are reported. *)
Fixpoint defaults_loop (args : list string) (evs : list string)
    (out : list string) : list string * list string :=
  match args with
  | [] => (evs, out)
  | event :: args' =>
      if mem event GITHUB_EVENTS
      then defaults_loop args' (evs ++ [event])%list out
      else defaults_loop args' evs (out ++ [EVENT_UNKNOWN event])%list
  end.

Definition github_defaults (st : plugin) (args : list string)
    : list string * plugin :=
  match args with
  | _ :: _ =>
      let '(evs, out) := defaults_loop args [] [] in
      let '(r, st1) := alloc evs st in
      let st2 := set_defaults st1 r in
      let done := "Done. Newly created routes will default to receiving: "
                  ++ join " " evs ++ "." in
      ((out ++ [done])%list, st2)
  | [] =>
      (["Events routed by default: " ++ join " " (deref st (get_defaults st))
        ++ "."], st)
  end.

(** The loop of [github_route]: it walks a copy of the event list and
    removes each unknown event from the list itself. *)
Fixpoint route_loop (copy : list string) (evs : list string)
    (out : list string) : list string * list string :=
  match copy with
  | [] => (evs, out)
  | event :: copy' =>
      if negb (mem event GITHUB_EVENTS)
      then route_loop copy' (remove_first event evs)
                      (out ++ [EVENT_UNKNOWN event])%list
      else route_loop copy' evs out
  end.

Definition github_route (st : plugin) (args : list string)
    : result (list string * plugin) :=
  match args with
  | repo :: room :: evs =>
      h <- has_route st (JStr repo) room ;;
      let st1 := if negb h then set_route st repo room else st in
      let '(r, out, st2) :=
        match evs with
        | _ :: _ =>
            let '(evs', out) := route_loop evs evs [] in
            let '(r, st2) := alloc evs' st1 in
            (r, out, st2)
        | [] => (get_defaults st1, [], st1)
        end in
      st3 <- set_events st2 repo room r ;;
      let done := "Done. Relaying messages from " ++ repo ++ " to " ++ room
                  ++ " for events: " ++ join " " (deref st3 r) in
      Ok ((out ++ [done])%list, st3)
  | _ => Ok ([HELP_MSG], st)
  end.

Definition github_remove (st : plugin) (args : list string)
    : result (list string * plugin) :=
  match args with
  | [repo] =>
      Ok (["Removed all configuration for " ++ repo ++ "."], clear_repo st repo)
  | [repo; room] =>
      let st1 := clear_route st repo room in
      rs <- get_routes st1 (JStr repo) ;;
      match rs with
      | [] =>
          Ok (["Removed route for " ++ repo ++ " to " ++ room ++ ".";
               "No more routes for " ++ repo
               ++ ", removing remaining configuration."],
              clear_repo st1 repo)
      | _ => Ok (["Removed route for " ++ repo ++ " to " ++ room ++ "."], st1)
      end
  | _ => Ok ([HELP_MSG], st)
  end.

Definition github_global (st : plugin) (args : list string)
    : list string * plugin :=
  match args with
  | [_] => (["Removed global route."], mkPlugin (heap st) (cfg st) (Some None))
  | [_; room] =>
      (["Set global route to " ++ room ++ "."],
       mkPlugin (heap st) (cfg st) (Some (Some room)))
  | _ => ([HELP_MSG], st)
  end.

(** *** Chat transport and effects

    The backend is outside the repository: [chat] says, for each room name
    handed to it ([None] is Python's [None]), whether [query_room],
    [room.join] and [send] return or raise.  What [receive] does to the
    outside world is the trace of its effects. *)

Record chat := mkChat {
  query_room : option string -> result unit;
  room_join : option string -> result unit;
  send : option string -> string -> result unit
}.

Inductive effect :=
| LogInfo
| Joined (room : option string)
| Sent (room : option string) (message : string).

Definition io (A : Type) : Type := list effect * result A.

Definition ret {A} (a : A) : io A := ([], Ok a).
Definition lift {A} (r : result A) : io A := ([], r).
Definition emit (e : effect) : io unit := ([e], Ok tt).
Definition throw {A} (e : exn) : io A := ([], Raise e).

Definition iobind {A B} (m : io A) (k : A -> io B) : io B :=
  match m with
  | (t, Ok a) => let '(t', r) := k a in ((t ++ t')%list, r)
  | (t, Raise e) => (t, Raise e)
  end.

Notation "x <~ m ;; k" := (iobind m (fun x => k))
  (at level 61, m at next level, right associativity) : py_scope.

Definition trace {A} (m : io A) : list effect := fst m.
Definition outcome {A} (m : io A) : result A := snd m.

(** The rooms a run sent the message to, in order. *)
Fixpoint sent_rooms (t : list effect) : list (option string) :=
  match t with
  | [] => []
  | Sent room _ :: t' => room :: sent_rooms t'
  | _ :: t' => sent_rooms t'
  end.

(** The status bottle answers with: [abort(c)] gives [c], a return gives
    the status the handler set, any other exception a server error. *)
Definition http_status (r : result nat) : nat :=
  match r with
  | Ok s => s
  | Raise (HTTPError c) => c
  | Raise _ => 500
  end.

Definition join_and_send (c : chat) (room_name : option string)
    (message : string) : io unit :=
  _ <~ lift (query_room c room_name) ;;
  _ <~ match room_join c room_name with
       | Ok _ => emit (Joined room_name)
       | Raise RoomError => emit LogInfo
       | Raise e => throw e
       end ;;
  _ <~ lift (send c room_name message) ;;
  emit (Sent room_name message).

Definition is_global_event (event_type : string) (repo body : json) : bool :=
  mem event_type ["repository"; "membership"; "member"; "team_add"; "fork"].

Definition validate_incoming (request : request) : result bool :=
  if negb (String.eqb (content_type request) "application/json") then Ok false
  else if existsb (fun header =>
                     match get_header request header with
                     | None => true
                     | Some _ => false
                     end) REQUIRED_HEADERS
  then Ok false
  else
    match json_body request with
    | Raise ValueError => Ok false
    | Raise e => Raise e
    | Ok body => if negb (is_dict body) then Ok false else Ok true
    end.

Section Webhook.

(** The template engine ([tenv().get_template(t).render(ctx)]) and
    Python's [str.format] of one value are taken as given. *)
Variable tenv : render_call -> string.
Variable py_str : json -> string.

Definition message := option string.

Definition render (template : string) (locals : list (string * json))
    : result message :=
  Ok (Some (tenv (mkRender template locals))).

Definition msg_generic (body repo : json) (event_type : string)
    : result message :=
  render "generic.html"
    [("body", body); ("repo", repo); ("event_type", JStr event_type)].

Definition msg_issues (body repo : json) : result message :=
  action <- body.["action"] ;;
  number <- getitem2 body "issue" "number" ;;
  title <- getitem2 body "issue" "title" ;;
  user <- getitem3 body "issue" "user" "login" ;;
  url <- getitem2 body "issue" "url" ;;
  is_assigned <- getitem2 body "issue" "assignee" ;;
  body <- getitem2 body "issue" "body" ;;
  if negb (is_none is_assigned) then
    assignee <- getitem3 body "issue" "assignee" "login" ;;
    render "issues.html"
      [("body", body); ("repo", repo); ("action", action); ("number", number);
       ("title", title); ("user", user); ("url", url);
       ("is_assigned", is_assigned); ("assignee", assignee)]
  else
    render "issues.html"
      [("body", body); ("repo", repo); ("action", action); ("number", number);
       ("title", title); ("user", user); ("url", url);
       ("is_assigned", is_assigned)].

Definition msg_pull_request (body repo : json) : result message :=
  action <- body.["action"] ;;
  number <- getitem2 body "pull_request" "number" ;;
  user <- getitem3 body "pull_request" "user" "login" ;;
  url <- getitem2 body "pull_request" "html_url" ;;
  merged <- getitem2 body "pull_request" "merged" ;;
  body <- getitem2 body "pull_request" "body" ;;
  au <- (if eq_str action "closed" && truthy merged then
           user <- getitem3 body "pull_request" "merged_by" "login" ;;
           Ok (JStr "merged", user)
         else Ok (action, user)) ;;
  let '(action, user) := au in
  let action := if eq_str action "synchronize" then JStr "updated" else action in
  render "pull_request.html"
    [("body", body); ("repo", repo); ("action", action); ("number", number);
     ("user", user); ("url", url); ("merged", merged)].

Definition msg_pull_request_review_comment (body repo : json) : result message :=
  action <- body.["action"] ;;
  user <- getitem3 body "comment" "user" "login" ;;
  line <- getitem2 body "comment" "position" ;;
  l_url <- getitem2 body "comment" "html_url" ;;
  pr <- getitem2 body "pull_request" "number" ;;
  url <- getitem2 body "pull_request" "html_url" ;;
  let action := if eq_str action "created" then JStr "commented" else action in
  render "pull_request_review_comment.html"
    [("body", body); ("repo", repo); ("action", action); ("user", user);
     ("line", line); ("l_url", l_url); ("pr", pr); ("url", url)].

Definition msg_push (body repo : json) : result message :=
  user <- getitem2 body "pusher" "name" ;;
  cs <- body.["commits"] ;;
  commits <- len cs ;;
  ref <- body.["ref"] ;;
  parts <- Providers.str_split "/" ref ;;
  let branch := last parts "" in
  url <- body.["compare"] ;;
  cs5 <- Providers.slice_to 5 cs ;;
  items <- Providers.iter cs5 ;;
  messages <- Providers.map_result (fun c => c.["message"]) items ;;
  render "push.html"
    [("body", body); ("repo", repo); ("user", user); ("commits", JNum commits);
     ("branch", JStr branch); ("url", url); ("messages", JArr messages)].

Definition msg_status (body repo : json) : result message := Ok None.

Definition msg_issue_comment (body repo : json) : result message :=
  action <- body.["action"] ;;
  user <- getitem3 body "comment" "user" "login" ;;
  number <- getitem2 body "issue" "number" ;;
  title <- getitem2 body "issue" "title" ;;
  url <- getitem2 body "issue" "html_url" ;;
  let action := if eq_str action "created" then JStr "commented" else action in
  body <- getitem2 body "comment" "body" ;;
  render "issue_comment.html"
    [("body", body); ("repo", repo); ("action", action); ("user", user);
     ("number", number); ("title", title); ("url", url)].

Definition msg_commit_comment (body repo : json) : result message :=
  user <- getitem3 body "comment" "user" "login" ;;
  url <- getitem2 body "comment" "html_url" ;;
  line <- getitem2 body "comment" "line" ;;
  sha <- getitem2 body "comment" "commit_id" ;;
  body <- getitem2 body "comment" "body" ;;
  render "commit_comment.html"
    [("body", body); ("repo", repo); ("user", user); ("url", url);
     ("line", line); ("sha", sha)].

Definition msg_repository (body repo : json) : result message :=
  action <- body.["action"] ;;
  user <- getitem2 body "sender" "login" ;;
  url <- getitem2 body "repository" "html_url" ;;
  render "repository.html"
    [("body", body); ("repo", repo); ("action", action); ("user", user);
     ("url", url)].

Definition msg_membership (body repo : json) : result message :=
  a <- body.["action"] ;;
  a' <- body.["action"] ;;
  let action := py_str a ++ " " ++ (if eq_str a' "added" then "to" else "from") in
  user <- getitem2 body "member" "login" ;;
  team <- getitem2 body "team" "name" ;;
  render "membership.html"
    [("body", body); ("repo", repo); ("action", JStr action); ("user", user);
     ("team", team)].

Definition msg_member (body repo : json) : result message :=
  user <- getitem2 body "member" "login" ;;
  url <- getitem2 body "repository" "html_url" ;;
  render "member.html"
    [("body", body); ("repo", repo); ("user", user); ("url", url)].

Definition msg_team_add (body repo : json) : result message :=
  team <- getitem2 body "team" "name" ;;
  url <- getitem2 body "repository" "html_url" ;;
  render "team_add.html"
    [("body", body); ("repo", repo); ("team", team); ("url", url)].

Definition msg_fork (body repo : json) : result message :=
  fork_name <- getitem2 body "forkee" "full_name" ;;
  url <- getitem2 body "forkee" "html_url" ;;
  render "fork.html"
    [("body", body); ("repo", repo); ("fork_name", fork_name); ("url", url)].

(** [hasattr(self, name)] / [getattr(self, name)(body, repo)] for the
    [msg_*] attributes of the plugin.  [msg_generic] wants a third
    argument, so this two-argument call of it raises. *)
Definition methods (attr : string) : option (json -> json -> result message) :=
  if String.eqb attr "msg_generic" then Some (fun _ _ => Raise TypeError)
  else if String.eqb attr "msg_issues" then Some msg_issues
  else if String.eqb attr "msg_pull_request" then Some msg_pull_request
  else if String.eqb attr "msg_pull_request_review_comment"
       then Some msg_pull_request_review_comment
  else if String.eqb attr "msg_push" then Some msg_push
  else if String.eqb attr "msg_status" then Some msg_status
  else if String.eqb attr "msg_issue_comment" then Some msg_issue_comment
  else if String.eqb attr "msg_commit_comment" then Some msg_commit_comment
  else if String.eqb attr "msg_repository" then Some msg_repository
  else if String.eqb attr "msg_membership" then Some msg_membership
  else if String.eqb attr "msg_member" then Some msg_member
  else if String.eqb attr "msg_team_add" then Some msg_team_add
  else if String.eqb attr "msg_fork" then Some msg_fork
  else None.

(** [if message and message is not None]. *)
Definition message_truthy (m : message) : option string :=
  match m with
  | Some s => if String.eqb s "" then None else Some s
  | None => None
  end.

(** [event_type in events or '*' in events]; [events] is [None] when the
    route has no event list. *)
Definition wants (st : plugin) (evs : option ref) (event_type : string)
    : result bool :=
  match evs with
  | None => Raise TypeError
  | Some r => Ok (mem event_type (deref st r) || mem "*" (deref st r))
  end.

(** The loop over [self.get_routes(repo)]. *)
Fixpoint deliver (c : chat) (st : plugin) (repo : json) (event_type : string)
    (msg : string) (rooms : list string) : io unit :=
  match rooms with
  | [] => ret tt
  | room_name :: rooms' =>
      evs <~ lift (get_events st repo room_name) ;;
      w <~ lift (wants st evs event_type) ;;
      _ <~ (if w then join_and_send c (Some room_name) msg else ret tt) ;;
      deliver c st repo event_type msg rooms'
  end.

Definition receive (c : chat) (st : plugin) (request : request) : io nat :=
  v <~ lift (validate_incoming request) ;;
  if negb v then throw (HTTPError 400)
  else
    h <~ lift (match get_header request "X-Github-Event" with
               | Some h => Ok h
               | None => Raise AttributeError
               end) ;;
    let event_type := lower h in
    body <~ lift (json_body request) ;;
    if String.eqb event_type "ping" then
      _ <~ lift (getitem2 body "hook" "url") ;;
      _ <~ emit LogInfo ;;
      ret 204
    else
      repo <~ lift (if has_key body "repository"
                    then getitem2 body "repository" "full_name"
                    else Ok JNull) ;;
      let global_event := is_global_event event_type repo body in
      r <~ lift (get_repo st repo) ;;
      if match r with None => true | Some _ => false end && negb global_event
      then
        _ <~ emit LogInfo ;;
        ret 204
      else
        m <~ lift (match methods ("msg_" ++ event_type) with
                   | Some f => f body repo
                   | None => msg_generic body repo event_type
                   end) ;;
        _ <~ match message_truthy m with
             | Some msg =>
                 rooms <~ lift (get_routes st repo) ;;
                 _ <~ deliver c st repo event_type msg rooms ;;
                 if global_event then
                   g <~ lift (match global_route st with
                              | Some g => Ok g
                              | None => Raise AttributeError
                              end) ;;
                   join_and_send c g msg
                 else ret tt
             | None => ret tt
             end ;;
        ret 204.

End Webhook.

(** *** The configuration object

    [self.config] is a reference to a dict, and [DEFAULT_CONFIG] is one
    module-level dict.  [configure(None)] and [github_reset] make
    [self.config] that very dict ([configure] hands it to errbot's
    [BotPlugin.configure], which stores the object it is given); from then
    on every assignment into [self.config] is an assignment into
    [DEFAULT_CONFIG].  [own_config] is [Some c] while [self.config] is a
    dict of its own with contents [c] (a stored configuration), and [None]
    while it is [DEFAULT_CONFIG]. *)

Record process := mkProcess {
  DEFAULT_CONFIG : config;
  own_config : option config;
  objects : list (list string);
  self_global_route : option (option string)
}.

(** The module as imported: [DEFAULT_CONFIG] holds [DEFAULT_EVENTS] and no
    repository. *)
Definition imported : process :=
  mkProcess (mkConfig 0 []) None [DEFAULT_EVENTS] None.

(** What the plugin reads as [self.config]. *)
Definition self_config (p : process) : config :=
  match own_config p with
  | Some c => c
  | None => DEFAULT_CONFIG p
  end.

Definition plugin_of (p : process) : plugin :=
  mkPlugin (objects p) (self_config p) (self_global_route p).

(** The state a method leaves: its changes of the configuration are made
    in the dict [self.config] designates. *)
Definition store (p : process) (st : plugin) : process :=
  match own_config p with
  | Some _ =>
      mkProcess (DEFAULT_CONFIG p) (Some (cfg st)) (heap st) (global_route st)
  | None => mkProcess (cfg st) None (heap st) (global_route st)
  end.

Definition configure (p : process) (configuration : option config) : process :=
  mkProcess (DEFAULT_CONFIG p) configuration (objects p) (self_global_route p).

Definition github_reset (p : process) : list string * process :=
  (["Done. All configuration has been expunged."],
   mkProcess (DEFAULT_CONFIG p) None (objects p) (self_global_route p)).

End GithubHook.

(* ================================================================== *)
(** * Properties *)
(* ================================================================== *)

Import GithubHook.

(** ** Vocabulary of the statements *)

Definition known (event : string) : bool := mem event GITHUB_EVENTS.
Definition unknown (event : string) : bool := negb (mem event GITHUB_EVENTS).

Definition done_route (repo room : string) (evs : list string) : string :=
  "Done. Relaying messages from " ++ repo ++ " to " ++ room
  ++ " for events: " ++ join " " evs.

(** The state in which [github_route] stores the events: the route entry
    exists, whether it was there or has just been created. *)
Definition ensure_route (st : plugin) (repo room : string) : plugin :=
  match has_route st (JStr repo) room with
  | Ok true => st
  | _ => set_route st repo room
  end.

(** References held by the configuration designate allocated lists. *)
Definition defaults_allocated (st : plugin) : Prop :=
  default_events (cfg st) < List.length (heap st).

(** A later change of the default event set: a direct [set_defaults] call
    or the [defaults] command. *)
Inductive defaults_step : plugin -> plugin -> Prop :=
| step_set_defaults (st : plugin) (r : ref) :
    defaults_step st (set_defaults st r)
| step_github_defaults (st : plugin) (args : list string) :
    defaults_step st (snd (github_defaults st args)).

Inductive later_defaults : plugin -> plugin -> Prop :=
| later_now (st : plugin) : later_defaults st st
| later_step (st st1 st2 : plugin) :
    defaults_step st st1 -> later_defaults st1 st2 -> later_defaults st st2.

(** The plugin as [configure(None)] leaves it: [DEFAULT_CONFIG], and no
    [global_route] attribute yet. *)
Definition fresh_plugin : plugin :=
  mkPlugin [DEFAULT_EVENTS] (mkConfig 0 []) None.

(** GitHub sends the text of an issue or pull request as a string or
    [null]. *)
Definition text_or_null (v : json) : Prop :=
  v = JNull \/ exists s, v = JStr s.

(** An [issues] payload carrying every field [msg_issues] reads. *)
Definition well_formed_issues (body : json) : Prop :=
  (exists v, body.["action"] = Ok v)
  /\ (exists v, getitem2 body "issue" "number" = Ok v)
  /\ (exists v, getitem2 body "issue" "title" = Ok v)
  /\ (exists v, getitem3 body "issue" "user" "login" = Ok v)
  /\ (exists v, getitem2 body "issue" "url" = Ok v)
  /\ (exists v, getitem2 body "issue" "assignee" = Ok v)
  /\ (exists v, getitem2 body "issue" "body" = Ok v /\ text_or_null v).

Definition issues_payload (assignee : json) : json :=
  JObj [("action", JStr "opened");
        ("issue", JObj [("number", JNum 7); ("title", JStr "Crash on start");
                        ("user", JObj [("login", JStr "alice")]);
                        ("url", JStr "https://api.github.com/repos/octo/widgets/issues/7");
                        ("assignee", assignee);
                        ("body", JStr "It crashes.")])].

(** A pull request closed by merging. *)
Definition merged_pull_request : json :=
  JObj [("action", JStr "closed");
        ("pull_request",
         JObj [("number", JNum 12);
               ("user", JObj [("login", JStr "alice")]);
               ("html_url", JStr "https://github.com/octo/widgets/pull/12");
               ("merged", JBool true);
               ("body", JStr "Fixes the crash.");
               ("merged_by", JObj [("login", JStr "bob")])])].

(** A template engine for the examples: the name of the template. *)
Definition tenv_name (rc : render_call) : string := template rc.

Definition py_str_plain (v : json) : string :=
  match v with JStr s => s | _ => "None" end.

(** A signature header whose digest field is the single latin-1 character
    U+00E9. *)
Definition non_ascii_signature : string := "sha1=" ++ String "233"%char "".

Definition signed_request (signature body : string) : request :=
  mkRequest "application/json"
    [("X-Github-Event", "push"); ("X-Hub-Signature", signature)]
    body (Raise ValueError).

Definition is_byte (b : Z) : Prop := (0 <= b < 256)%Z.

(** A transport on which nothing fails. *)
Definition chat_ok : chat :=
  mkChat (fun _ => Ok tt) (fun _ => Ok tt) (fun _ _ => Ok tt).

(** The part of [receive] before any delivery: validation, ping, the
    repository, the message.  [Ok None] is an accepted request that is
    discarded (ping, unknown repository). *)
Definition prepare (tenv : render_call -> string) (py_str : json -> string)
    (st : plugin) (request : request)
    : result (option (json * string * message)) :=
  v <- validate_incoming request ;;
  if negb v then Raise (HTTPError 400)
  else
    h <- match get_header request "X-Github-Event" with
         | Some h => Ok h
         | None => Raise AttributeError
         end ;;
    let event_type := lower h in
    body <- json_body request ;;
    if String.eqb event_type "ping" then
      _ <- getitem2 body "hook" "url" ;;
      Ok None
    else
      repo <- (if has_key body "repository"
               then getitem2 body "repository" "full_name"
               else Ok JNull) ;;
      r <- get_repo st repo ;;
      if match r with None => true | Some _ => false end
         && negb (is_global_event event_type repo body)
      then Ok None
      else
        m <- match methods tenv py_str ("msg_" ++ event_type) with
             | Some f => f body repo
             | None => msg_generic tenv body repo event_type
             end ;;
        Ok (Some (repo, event_type, m)).

(** The delivery part of [receive]: the loop over the routes of the
    repository, then the global route. *)
Definition dispatch (c : chat) (st : plugin) (repo : json)
    (event_type : string) (m : message) : io unit :=
  match message_truthy m with
  | Some msg =>
      rooms <~ lift (get_routes st repo) ;;
      _ <~ deliver c st repo event_type msg rooms ;;
      if is_global_event event_type repo JNull then
        g <~ lift (match global_route st with
                   | Some g => Ok g
                   | None => Raise AttributeError
                   end) ;;
        join_and_send c g msg
      else ret tt
  | None => ret tt
  end.

(** The rooms of each repository are distinct keys of its [routes] dict. *)
Definition routes_distinct (st : plugin) : Prop :=
  forall repo rc,
    lookup repo (repositories (cfg st)) = Some rc -> NoDup (keys (routes rc)).

Definition room_eq_dec (a b : option string) : {a = b} + {a <> b}.
Proof. decide equality. apply string_dec. Defined.

(** How often a run sent the message to [room]. *)
Definition times_sent {A} (run : io A) (room : string) : nat :=
  count_occ room_eq_dec (sent_rooms (trace run)) (Some room).

Definition event_type_of (request : request) : string :=
  match get_header request "X-Github-Event" with
  | Some h => lower h
  | None => ""
  end.

(** [room] is the global route and the event of the request is global. *)
Definition is_global_target (st : plugin) (request : request) (room : string)
    : bool :=
  is_global_event (event_type_of request) JNull JNull
  && match global_route st with
     | Some (Some g) => String.eqb g room
     | _ => false
     end.

(** A transport on which the only thing that may fail is a room's [join],
    and only with a [RoomError]. *)
Definition only_join_fails (c : chat) : Prop :=
  (forall room, query_room c room = Ok tt)
  /\ (forall room, room_join c room = Ok tt \/ room_join c room = Raise RoomError)
  /\ (forall room msg, send c room msg = Ok tt).

(** [request] with the signature header set to [signature]. *)
Definition with_signature (signature : string) (r : request) : request :=
  mkRequest (content_type r) (("X-Hub-Signature", signature) :: headers r)
    (body r) (json_body r).

(** A [fork] event for [octo/widgets], sent without any signature. *)
Definition fork_payload : json :=
  JObj [("forkee", JObj [("full_name", JStr "mallory/widgets");
                         ("html_url", JStr "https://github.com/mallory/widgets")]);
        ("repository", JObj [("full_name", JStr "octo/widgets")])].

Definition fork_request : request :=
  mkRequest "application/json" [("X-Github-Event", "fork")]
    "{}" (Ok fork_payload).

(** [!github route octo/widgets #dev fork] on a fresh plugin. *)
Definition routed_plugin : plugin :=
  mkPlugin [DEFAULT_EVENTS; ["fork"]]
    (mkConfig 0 [("octo/widgets", mkRepo [("#dev", mkRoute (Some 1))])])
    None.

(** ... followed by [!github global route #dev]. *)
Definition routed_global_plugin : plugin :=
  mkPlugin (heap routed_plugin) (cfg routed_plugin) (Some (Some "#dev")).

(** Two rooms that both take [fork] events, and a global route. *)
Definition two_rooms_plugin : plugin :=
  mkPlugin [DEFAULT_EVENTS; ["fork"]]
    (mkConfig 0 [("octo/widgets",
                  mkRepo [("#a", mkRoute (Some 1)); ("#b", mkRoute (Some 1))])])
    (Some (Some "#ops")).

(** Sending to [#a] fails; everything else works. *)
Definition chat_send_fails : chat :=
  mkChat (fun _ => Ok tt) (fun _ => Ok tt)
    (fun room _ => match room with
                   | Some r => if String.eqb r "#a" then Raise TransportFailure
                               else Ok tt
                   | None => Ok tt
                   end).

(** Joining [#a] fails with a [RoomError]; everything else works. *)
Definition chat_join_fails : chat :=
  mkChat (fun _ => Ok tt)
    (fun room => match room with
                 | Some r => if String.eqb r "#a" then Raise RoomError
                             else Ok tt
                 | None => Ok tt
                 end)
    (fun _ _ => Ok tt).

(** Two runs that sent the message to the same rooms in the same order
    and ended the same way. *)
Definition same_delivery {A} (m m' : io A) : Prop :=
  sent_rooms (trace m) = sent_rooms (trace m') /\ outcome m = outcome m'.

(** A [push] event for [octo/widgets], sent without any signature. *)
Definition push_payload : json :=
  JObj [("ref", JStr "refs/heads/main");
        ("compare", JStr "https://github.com/octo/widgets/compare/a...b");
        ("pusher", JObj [("name", JStr "alice")]);
        ("commits", JArr [JObj [("message", JStr "Fix crash")];
                          JObj [("message", JStr "Add test")]]);
        ("repository", JObj [("full_name", JStr "octo/widgets")])].

Definition push_request : request :=
  mkRequest "application/json" [("X-Github-Event", "push")]
    "{}" (Ok push_payload).

(** [!github route octo/widgets #dev] on a fresh plugin. *)
Definition default_routed_plugin : plugin :=
  mkPlugin [DEFAULT_EVENTS]
    (mkConfig 0 [("octo/widgets", mkRepo [("#dev", mkRoute (Some 0))])])
    None.

(** The characters of [hexdigest()]: decimal digits and [a]-[f]. *)
Definition is_hex_char (c : ascii) : bool :=
  let n := nat_of_ascii c in
  (((48 <=? n) && (n <=? 57)) || ((97 <=? n) && (n <=? 102)))%nat.

Fixpoint all_chars (p : ascii -> bool) (s : string) : bool :=
  match s with
  | EmptyString => true
  | String c s' => p c && all_chars p s'
  end.

(** [body['repository']['full_name'] if 'repository' in body else None]. *)
Definition payload_repo (body : json) : result json :=
  if has_key body "repository"
  then getitem2 body "repository" "full_name"
  else Ok JNull.

(** A request that [validate_incoming] lets through: JSON content type,
    event header [h], body parsed to the dict [body]. *)
Definition accepted_request (request : request) (h : string) (body : json)
    : Prop :=
  content_type request = "application/json"
  /\ get_header request "X-Github-Event" = Some h
  /\ json_body request = Ok body
  /\ is_dict body = true.

Definition json_request (event : string) (body : json) : request :=
  mkRequest "application/json" [("X-Github-Event", event)] "{}" (Ok body).

(** [!github global route #ops] on a fresh plugin: no repository at all. *)
Definition global_only_plugin : plugin :=
  mkPlugin [DEFAULT_EVENTS] (mkConfig 0 []) (Some (Some "#ops")).

(** The entry of the route [repo] -> [room], if there is one. *)
Definition route_entry (st : plugin) (repo room : string) : option route_cfg :=
  match lookup repo (repositories (cfg st)) with
  | Some rc => lookup room (routes rc)
  | None => None
  end.

(** Every route has an event list. *)
Definition routes_complete (st : plugin) : Prop :=
  forall repo room rt,
    route_entry st repo room = Some rt -> exists r, events rt = Some r.

(** The rooms of [repo] whose route takes [event_type]: the event is in
    the route's list, or the list has the wildcard.  In the order of the
    [routes] dict. *)
Definition resolve (st : plugin) (repo event_type : string) : list string :=
  filter (fun room =>
            match route_entry st repo room with
            | Some (mkRoute (Some r)) =>
                mem event_type (deref st r) || mem "*" (deref st r)
            | _ => false
            end)
         (match lookup repo (repositories (cfg st)) with
          | Some rc => keys (routes rc)
          | None => []
          end).

(** Three routes of one repository: [#dev] takes pushes, [#all] has the
    wildcard, [#issues] takes issues. *)
Definition three_rooms_plugin : plugin :=
  mkPlugin [DEFAULT_EVENTS; ["push"]; ["*"]; ["issues"]]
    (mkConfig 0 [("octo/widgets",
                  mkRepo [("#dev", mkRoute (Some 1)); ("#all", mkRoute (Some 2));
                          ("#issues", mkRoute (Some 3))])])
    None.

(** The chat commands that change the configuration. *)
Inductive command :=
| CmdRoute (args : list string)
| CmdDefaults (args : list string)
| CmdGlobal (args : list string)
| CmdRemove (args : list string).

Definition run (st : plugin) (cmd : command) : result (list string * plugin) :=
  match cmd with
  | CmdRoute args => github_route st args
  | CmdDefaults args => Ok (github_defaults st args)
  | CmdGlobal args => Ok (github_global st args)
  | CmdRemove args => github_remove st args
  end.

(** The states a fresh plugin can be brought to by commands. *)
Inductive reachable : plugin -> Prop :=
| reach_fresh : reachable fresh_plugin
| reach_run (st st' : plugin) (cmd : command) (out : list string) :
    reachable st -> run st cmd = Ok (out, st') -> reachable st'.

(** The shape of the configuration: repositories and rooms are distinct
    keys, a repository has at least one route, every route has an
    allocated event list, the default list is allocated, and the stored
    lists hold known event names only. *)
Definition well_formed (st : plugin) : Prop :=
  NoDup (keys (repositories (cfg st)))
  /\ routes_distinct st
  /\ (forall repo rc,
        lookup repo (repositories (cfg st)) = Some rc -> routes rc <> [])
  /\ (forall repo room rt,
        route_entry st repo room = Some rt ->
        exists r, events rt = Some r /\ r < List.length (heap st))
  /\ defaults_allocated st
  /\ Forall (Forall (fun e => In e GITHUB_EVENTS)) (heap st).

Definition done_defaults (evs : list string) : string :=
  "Done. Newly created routes will default to receiving: "
  ++ join " " evs ++ ".".

(** A command run by the plugin of a process. *)
Definition process_run (p : process) (cmd : command)
    : result (list string * process) :=
  r <- run (plugin_of p) cmd ;;
  Ok (fst r, store p (snd r)).

(** A sequence of commands, the replies dropped. *)
Fixpoint process_runs (p : process) (cmds : list command) : result process :=
  match cmds with
  | [] => Ok p
  | cmd :: cmds' =>
      r <- process_run p cmd ;; process_runs (snd r) cmds'
  end.

(** A plugin started on a stored (empty) configuration and reset once. *)
Definition once_reset : process :=
  snd (github_reset (configure imported (Some (mkConfig 0 [])))).

(** ... after [!github route octo/widgets #dev push] and
    [!github global route #ops]. *)
Definition routed_after_reset : process :=
  mkProcess
    (mkConfig 0 [("octo/widgets", mkRepo [("#dev", mkRoute (Some 1))])])
    None [DEFAULT_EVENTS; ["push"]] (Some (Some "#ops")).

(** The plugin after [!github defaults push]: the defaults are no longer
    the built-in list. *)
Definition defaults_push_plugin : plugin :=
  snd (github_defaults fresh_plugin ["push"]).

Definition newline : ascii := "010"%char.

(** ** Ordered dicts and lists *)

Section Containers.

Context {V : Type}.

Lemma lookup_set_same (k : string) (v : V) (d : odict V) :
  lookup k (set k v d) = Some v.
Proof.
  induction d as [|[k' v'] d IH]; simpl.
  - now rewrite String.eqb_refl.
  - destruct (String.eqb k k') eqn:E; simpl; rewrite E; auto.
Qed.

Lemma lookup_set_other (k k0 : string) (v : V) (d : odict V) :
  k0 <> k -> lookup k0 (set k v d) = lookup k0 d.
Proof.
  intros Hne. induction d as [|[k' v'] d IH]; simpl.
  - destruct (String.eqb_spec k0 k); congruence.
  - destruct (String.eqb_spec k k'); simpl.
    + subst k'. destruct (String.eqb_spec k0 k); congruence.
    + destruct (String.eqb k0 k'); auto.
Qed.

Lemma keys_set_present (k : string) (v v0 : V) (d : odict V) :
  lookup k d = Some v0 -> keys (set k v d) = keys d.
Proof.
  induction d as [|[k' v'] d IH]; simpl; [discriminate|].
  destruct (String.eqb k k') eqn:E; simpl; intros H; auto.
  unfold keys in *. now rewrite IH.
Qed.

Lemma keys_set_absent (k : string) (v : V) (d : odict V) :
  lookup k d = None -> keys (set k v d) = (keys d ++ [k])%list.
Proof.
  induction d as [|[k' v'] d IH]; simpl; auto.
  destruct (String.eqb k k') eqn:E; simpl; [discriminate|].
  intros H. unfold keys in *. now rewrite IH.
Qed.

Lemma lookup_none_not_in (k : string) (d : odict V) :
  lookup k d = None -> ~ In k (keys d).
Proof.
  induction d as [|[k' v'] d IH]; simpl; auto.
  destruct (String.eqb_spec k k'); [discriminate|].
  intros H [E|HIn]; [congruence | now apply IH].
Qed.

(** Assignment keeps the keys distinct. *)
Lemma NoDup_keys_set (k : string) (v : V) (d : odict V) :
  NoDup (keys d) -> NoDup (keys (set k v d)).
Proof.
  intros Hd. destruct (lookup k d) eqn:E.
  - now rewrite (keys_set_present _ _ _ _ E).
  - rewrite (keys_set_absent _ _ _ E).
    apply NoDup_app; [assumption | repeat constructor; simpl; tauto | ].
    intros a Ha [<-|[]]. now apply (lookup_none_not_in _ _ E).
Qed.

End Containers.

Lemma mem_In (x : string) (l : list string) : mem x l = true <-> In x l.
Proof.
  induction l as [|y l IH]; simpl; [intuition discriminate|].
  rewrite orb_true_iff, IH. destruct (String.eqb_spec x y); intuition congruence.
Qed.

Lemma mem_false_of_known (x : string) (pre known : list string) :
  forallb (fun e => mem e known) pre = true ->
  mem x known = false -> mem x pre = false.
Proof.
  induction pre as [|y pre IH]; simpl; auto.
  rewrite andb_true_iff. intros [Hy Hpre] Hx.
  destruct (String.eqb_spec x y); [congruence | now apply IH].
Qed.

Lemma remove_first_skip (x : string) (pre l : list string) :
  mem x pre = false -> remove_first x (pre ++ x :: l) = (pre ++ l)%list.
Proof.
  induction pre as [|y pre IH]; simpl.
  - now rewrite String.eqb_refl.
  - rewrite orb_false_iff. intros [-> Hpre]. now rewrite IH.
Qed.

(** ** The loops of the commands *)

(** Walking the copy while removing from the list leaves exactly the known
    events, in order, and reports each unknown one. *)
Lemma route_loop_filter (copy pre out : list string) :
  forallb known pre = true ->
  route_loop copy (pre ++ copy) out
  = ((pre ++ filter known copy)%list,
     (out ++ map EVENT_UNKNOWN (filter unknown copy))%list).
Proof.
  revert pre out. induction copy as [|e copy IH]; intros pre out Hpre.
  - cbn [route_loop filter map]. now rewrite !app_nil_r.
  - cbn [route_loop filter]. unfold unknown at 1. fold (known e).
    destruct (known e) eqn:E; cbn [negb map].
    + replace (pre ++ e :: copy)%list with ((pre ++ [e]) ++ copy)%list
        by now rewrite <- app_assoc.
      rewrite IH.
      * now rewrite <- app_assoc.
      * rewrite forallb_app, Hpre. cbn [forallb]. now rewrite E.
    + rewrite remove_first_skip by (eapply mem_false_of_known; eauto).
      rewrite IH by assumption. now rewrite <- app_assoc.
Qed.

Lemma route_loop_spec (evs : list string) :
  route_loop evs evs []
  = (filter known evs, map EVENT_UNKNOWN (filter unknown evs)).
Proof. exact (route_loop_filter evs [] [] eq_refl). Qed.

Lemma defaults_loop_filter (args evs out : list string) :
  defaults_loop args evs out
  = ((evs ++ filter known args)%list,
     (out ++ map EVENT_UNKNOWN (filter unknown args))%list).
Proof.
  revert evs out. induction args as [|e args IH]; intros evs out.
  - cbn [defaults_loop filter map]. now rewrite !app_nil_r.
  - cbn [defaults_loop filter]. unfold unknown at 1. fold (known e).
    destruct (known e); cbn [negb map]; rewrite IH, <- app_assoc; reflexivity.
Qed.

Lemma filter_all_unknown (evs : list string) :
  Forall (fun e => ~ In e GITHUB_EVENTS) evs ->
  filter known evs = [] /\ filter unknown evs = evs.
Proof.
  induction 1 as [|e evs He _ [IH1 IH2]]; [split; reflexivity|].
  cbn [filter]. unfold unknown at 1. fold (known e).
  destruct (known e) eqn:E.
  - apply mem_In in E. contradiction.
  - cbn [negb]. now rewrite IH1, IH2.
Qed.

(** ** Creating a route *)

(** Storing the event list succeeds once the route entry exists, and the
    route then holds exactly that reference. *)
Lemma set_events_present (st : plugin) (repo room : string) (r : ref)
    (rc : repo_cfg) (rt : route_cfg) :
  lookup repo (repositories (cfg st)) = Some rc ->
  lookup room (routes rc) = Some rt ->
  exists st',
    set_events st repo room r = Ok st'
    /\ heap st' = heap st
    /\ default_events (cfg st') = default_events (cfg st)
    /\ global_route st' = global_route st
    /\ get_events st' (JStr repo) room = Ok (Some r).
Proof.
  intros Hrepo Hroom. unfold set_events. rewrite Hrepo, Hroom.
  eexists; split; [reflexivity|].
  repeat split.
  unfold get_events, routes_of, dict_get, with_cfg. cbn.
  now rewrite !lookup_set_same; cbn; rewrite lookup_set_same.
Qed.

Lemma ensure_route_present (st : plugin) (repo room : string) :
  heap (ensure_route st repo room) = heap st
  /\ default_events (cfg (ensure_route st repo room)) = default_events (cfg st)
  /\ global_route (ensure_route st repo room) = global_route st
  /\ exists rc rt,
       lookup repo (repositories (cfg (ensure_route st repo room))) = Some rc
       /\ lookup room (routes rc) = Some rt.
Proof.
  unfold ensure_route, has_route, get_route, routes_of, dict_get. cbn [bind].
  destruct (lookup repo (repositories (cfg st))) as [rc|] eqn:Erepo.
  - destruct (lookup room (routes rc)) as [rt|] eqn:Eroom.
    + repeat split; eauto.
    + repeat split. unfold set_route. rewrite Erepo. cbn. rewrite Erepo.
      rewrite lookup_set_same. do 2 eexists. split; [reflexivity|].
      cbn. apply lookup_set_same.
  - cbn. repeat split. unfold set_route. rewrite Erepo. cbn.
    rewrite !lookup_set_same. do 2 eexists. split; [reflexivity|].
    cbn. now rewrite String.eqb_refl.
Qed.

Lemma github_route_unfold (st : plugin) (repo room : string) (evs : list string) :
  github_route st (repo :: room :: evs)
  = let st1 := ensure_route st repo room in
    let '(r, out, st2) :=
      match evs with
      | _ :: _ =>
          let '(evs', out) := route_loop evs evs [] in
          let '(r, st2) := alloc evs' st1 in
          (r, out, st2)
      | [] => (get_defaults st1, [], st1)
      end in
    st3 <- set_events st2 repo room r ;;
    Ok ((out ++ [done_route repo room (deref st3 r)])%list, st3).
Proof.
  unfold github_route, ensure_route, has_route, get_route, routes_of, dict_get.
  cbn [bind].
  destruct (lookup repo (repositories (cfg st))) as [rc|]; cbn [routes lookup negb];
    [destruct (lookup room (routes rc))|]; reflexivity.
Qed.

(** Without an event list the route refers to the list that is the
    default at that moment; nothing is allocated. *)
Lemma github_route_default (st : plugin) (repo room : string) :
  exists st',
    github_route st [repo; room]
    = Ok ([done_route repo room (deref st (default_events (cfg st)))], st')
    /\ heap st' = heap st
    /\ default_events (cfg st') = default_events (cfg st)
    /\ global_route st' = global_route st
    /\ get_events st' (JStr repo) room = Ok (Some (default_events (cfg st))).
Proof.
  rewrite github_route_unfold. cbv zeta.
  destruct (ensure_route_present st repo room) as (Hh & Hd & Hg & rc & rt & Hrepo & Hroom).
  destruct (set_events_present _ repo room
              (get_defaults (ensure_route st repo room)) _ _ Hrepo Hroom)
    as (st' & Hset & Hh' & Hd' & Hg' & Hev).
  exists st'. rewrite Hset. cbn [bind]. unfold get_defaults in *.
  rewrite Hd in *. unfold deref. rewrite Hh', Hh.
  repeat split; congruence.
Qed.

(** With an event list the route refers to a fresh list holding the known
    events; each unknown one is reported. *)
Lemma github_route_explicit (st : plugin) (repo room e : string)
    (evs : list string) :
  exists st',
    github_route st (repo :: room :: e :: evs)
    = Ok ((map EVENT_UNKNOWN (filter unknown (e :: evs))
           ++ [done_route repo room (filter known (e :: evs))])%list, st')
    /\ heap st' = (heap st ++ [filter known (e :: evs)])%list
    /\ default_events (cfg st') = default_events (cfg st)
    /\ global_route st' = global_route st
    /\ get_events st' (JStr repo) room = Ok (Some (List.length (heap st))).
Proof.
  rewrite github_route_unfold. cbv zeta.
  rewrite route_loop_spec. unfold alloc.
  destruct (ensure_route_present st repo room) as (Hh & Hd & Hg & rc & rt & Hrepo & Hroom).
  set (st2 := mkPlugin _ _ _).
  destruct (set_events_present st2 repo room
              (List.length (heap (ensure_route st repo room))) rc rt Hrepo Hroom)
    as (st' & Hset & Hh' & Hd' & Hg' & Hev).
  exists st'. rewrite Hset. cbn [bind]. unfold deref. rewrite Hh'.
  subst st2. cbn [heap cfg global_route] in *.
  rewrite nth_middle, Hh in *.
  split; [reflexivity|]. split; [reflexivity|].
  split; [congruence|]. split; [congruence|assumption].
Qed.

(** ** Default events are a snapshot *)

Lemma get_events_repositories (a b : plugin) (repo : json) (room : string) :
  repositories (cfg a) = repositories (cfg b) ->
  get_events a repo room = get_events b repo room.
Proof. intros H. unfold get_events, routes_of. now rewrite H. Qed.

(** Changing the defaults rebinds [default_events] and may allocate; it
    touches neither the routes nor any list already in the heap. *)
Lemma defaults_step_frame (st st1 : plugin) :
  defaults_step st st1 ->
  repositories (cfg st1) = repositories (cfg st)
  /\ exists ext, heap st1 = (heap st ++ ext)%list.
Proof.
  destruct 1 as [st r | st args].
  - split; [reflexivity|]. exists []. cbn. now rewrite app_nil_r.
  - unfold github_defaults. destruct args as [|a args].
    + split; [reflexivity|]. exists []. cbn. now rewrite app_nil_r.
    + destruct (defaults_loop (a :: args) [] []) as [evs out]. cbn.
      split; [reflexivity|]. now exists [evs].
Qed.

Lemma later_defaults_frame (st st2 : plugin) :
  later_defaults st st2 ->
  repositories (cfg st2) = repositories (cfg st)
  /\ exists ext, heap st2 = (heap st ++ ext)%list.
Proof.
  induction 1 as [st | st st1 st2 Hstep _ [IHr [ext2 IHh]]].
  - split; [reflexivity|]. exists []. now rewrite app_nil_r.
  - destruct (defaults_step_frame _ _ Hstep) as [Hr [ext1 Hh]].
    split; [congruence|]. exists (ext1 ++ ext2)%list.
    now rewrite IHh, Hh, app_assoc.
Qed.

Lemma deref_extend (a b : plugin) (ext : list (list string)) (r : ref) :
  heap b = (heap a ++ ext)%list -> r < List.length (heap a) ->
  deref b r = deref a r.
Proof. intros H Hr. unfold deref. rewrite H. now apply app_nth1. Qed.

(** C8. A route created without an event list stores the list that
    [config['default_events']] holds at that moment, with the contents it
    has then, and no later change of the defaults ([set_defaults] or the
    [defaults] command, any number of times) changes what the route
    stores. *)
Theorem C8_default_events_snapshot (st : plugin) (repo room : string) :
  defaults_allocated st ->
  exists st',
    github_route st [repo; room]
    = Ok ([done_route repo room (deref st (default_events (cfg st)))], st')
    /\ get_events st' (JStr repo) room = Ok (Some (default_events (cfg st)))
    /\ deref st' (default_events (cfg st)) = deref st (default_events (cfg st))
    /\ forall st'', later_defaults st' st'' ->
         get_events st'' (JStr repo) room
         = Ok (Some (default_events (cfg st)))
         /\ deref st'' (default_events (cfg st))
            = deref st (default_events (cfg st)).
Proof.
  intros Halloc.
  destruct (github_route_default st repo room)
    as (st' & Hrun & Hheap & Hdef & _ & Hev).
  exists st'.
  assert (Hsame : deref st' (default_events (cfg st))
                  = deref st (default_events (cfg st)))
    by (unfold deref; now rewrite Hheap).
  repeat (split; [assumption|]).
  intros st'' Hlater.
  destruct (later_defaults_frame _ _ Hlater) as [Hrepos [ext Hext]].
  split.
  - now rewrite (get_events_repositories st'' st') by assumption.
  - rewrite <- Hsame. apply (deref_extend st' st'' ext); [assumption|].
    unfold defaults_allocated in Halloc. now rewrite Hheap.
Qed.

(** ** Routes given only unknown events *)

(** C9. When every supplied event kind is unknown, each one is reported,
    the command still completes, the route exists and stores an empty
    list, and the route then matches no event: the delivery loop sends
    nothing to it. *)
Theorem C9_all_unknown_events_empty_route (st : plugin) (repo room e : string)
    (evs : list string) :
  Forall (fun x => ~ In x GITHUB_EVENTS) (e :: evs) ->
  exists st' r,
    github_route st (repo :: room :: e :: evs)
    = Ok ((map EVENT_UNKNOWN (e :: evs) ++ [done_route repo room []])%list, st')
    /\ get_events st' (JStr repo) room = Ok (Some r)
    /\ deref st' r = []
    /\ (forall event_type, wants st' (Some r) event_type = Ok false)
    /\ (forall c event_type msg,
          deliver c st' (JStr repo) event_type msg [room] = ([], Ok tt)).
Proof.
  intros Hall. destruct (filter_all_unknown _ Hall) as [Hk Hu].
  destruct (github_route_explicit st repo room e evs)
    as (st' & Hrun & Hheap & _ & _ & Hev).
  rewrite Hk, Hu in *.
  assert (Hnil : deref st' (List.length (heap st)) = [])
    by (unfold deref; rewrite Hheap; apply nth_middle).
  assert (Hw : forall event_type,
             wants st' (Some (List.length (heap st))) event_type = Ok false)
    by (intros; unfold wants; now rewrite Hnil).
  exists st', (List.length (heap st)).
  repeat (split; [assumption|]).
  intros c event_type msg. cbn [deliver].
  rewrite Hev. unfold lift, iobind. rewrite Hw. reflexivity.
Qed.

Lemma C8_default_events_snapshot_witness :
  defaults_allocated defaults_push_plugin
  /\ exists st',
       github_route defaults_push_plugin ["octo/widgets"; "#dev"]
       = Ok ([done_route "octo/widgets" "#dev" ["push"]], st')
       /\ get_events st' (JStr "octo/widgets") "#dev" = Ok (Some 1)
       /\ deref st' 1 = ["push"]
       /\ forall st'', later_defaults st' st'' ->
            get_events st'' (JStr "octo/widgets") "#dev" = Ok (Some 1)
            /\ deref st'' 1 = ["push"].
Proof.
  assert (H : defaults_allocated defaults_push_plugin)
    by (unfold defaults_allocated; simpl; lia).
  split; [exact H|].
  exact (C8_default_events_snapshot defaults_push_plugin
           "octo/widgets" "#dev" H).
Defined.

Lemma C9_all_unknown_events_empty_route_witness :
  exists st' r,
    github_route fresh_plugin ["octo/widgets"; "#dev"; "bogus"; "pushes"]
    = Ok ([EVENT_UNKNOWN "bogus"; EVENT_UNKNOWN "pushes";
           done_route "octo/widgets" "#dev" []], st')
    /\ get_events st' (JStr "octo/widgets") "#dev" = Ok (Some r)
    /\ deref st' r = []
    /\ (forall event_type, wants st' (Some r) event_type = Ok false)
    /\ (forall c event_type msg,
          deliver c st' (JStr "octo/widgets") event_type msg ["#dev"]
          = ([], Ok tt)).
Proof.
  apply (C9_all_unknown_events_empty_route fresh_plugin "octo/widgets" "#dev"
           "bogus" ["pushes"]).
  repeat constructor; intros H; apply mem_In in H; vm_compute in H;
    discriminate H.
Defined.

(** ** Message builders *)

(** C10. On a well-formed [issues] payload the plugin's [msg_issues]
    raises whenever the assignee is not null: [body] has been rebound to
    the issue text before the login is read from it.  With a null
    assignee the message is rendered. *)
Theorem C10_msg_issues_assignee_raises (tenv : render_call -> string)
    (body repo a : json) :
  well_formed_issues body ->
  getitem2 body "issue" "assignee" = Ok a ->
  (a <> JNull -> msg_issues tenv body repo = Raise TypeError)
  /\ (a = JNull -> exists m, msg_issues tenv body repo = Ok (Some m))
  /\ (is_ok (msg_issues tenv body repo) = true -> a = JNull).
Proof.
  intros (Hact & Hnum & Htitle & Huser & Hurl & _ & Hbody) Ha.
  destruct Hact as [action Hact], Hnum as [number Hnum],
    Htitle as [title Htitle], Huser as [user Huser], Hurl as [url Hurl],
    Hbody as (text & Hbody & Htext).
  unfold msg_issues. rewrite Hact, Hnum, Htitle, Huser, Hurl, Ha, Hbody.
  cbn [bind].
  assert (Hraise : getitem3 text "issue" "assignee" "login" = Raise TypeError)
    by (destruct Htext as [->|[s ->]]; reflexivity).
  rewrite Hraise. cbn [bind].
  destruct a; cbn [is_none negb is_ok];
    (split; [|split]); intros; try congruence; try discriminate;
    try (eexists; reflexivity).
Qed.

Lemma C10_msg_issues_assignee_raises_witness :
  (JObj [("login", JStr "bob")] <> JNull ->
   msg_issues tenv_name (issues_payload (JObj [("login", JStr "bob")]))
     (JStr "octo/widgets") = Raise TypeError)
  /\ (JObj [("login", JStr "bob")] = JNull ->
      exists m, msg_issues tenv_name
                  (issues_payload (JObj [("login", JStr "bob")]))
                  (JStr "octo/widgets") = Ok (Some m))
  /\ (is_ok (msg_issues tenv_name
               (issues_payload (JObj [("login", JStr "bob")]))
               (JStr "octo/widgets")) = true ->
      JObj [("login", JStr "bob")] = JNull).
Proof.
  apply (C10_msg_issues_assignee_raises tenv_name
           (issues_payload (JObj [("login", JStr "bob")]))
           (JStr "octo/widgets") (JObj [("login", JStr "bob")])).
  - unfold well_formed_issues, text_or_null.
    repeat split; eexists; try reflexivity.
    split; [reflexivity|]. right. eexists. reflexivity.
  - reflexivity.
Defined.

(** A payload with a null assignee does render. *)
Example msg_issues_unassigned :
  msg_issues tenv_name (issues_payload JNull) (JStr "octo/widgets")
  = Ok (Some "issues.html").
Proof. reflexivity. Qed.

(** [providers.py]: the pull-request rules as tabulated. *)
Lemma providers_msg_pull_request_rules
    (body repo action user number url merged : json) :
  body.["action"] = Ok action ->
  getitem3 body "pull_request" "user" "login" = Ok user ->
  getitem2 body "pull_request" "number" = Ok number ->
  getitem2 body "pull_request" "html_url" = Ok url ->
  getitem2 body "pull_request" "merged" = Ok merged ->
  (eq_str action "closed" && truthy merged = false ->
   Providers.GithubHandlers.msg_pull_request body repo
   = Ok (Some (Providers.render_template "Github" "pull_request"
        [("body", body); ("repo", repo);
         ("action", if eq_str action "synchronize" then JStr "updated"
                    else action);
         ("user", user); ("number", number); ("url", url);
         ("merged", merged)])))
  /\ (forall merger,
        eq_str action "closed" && truthy merged = true ->
        getitem3 body "pull_request" "merged_by" "login" = Ok merger ->
        Providers.GithubHandlers.msg_pull_request body repo
        = Ok (Some (Providers.render_template "Github" "pull_request"
             [("body", body); ("repo", repo); ("action", JStr "merged");
              ("user", merger); ("number", number); ("url", url);
              ("merged", merged)]))).
Proof.
  intros Hact Huser Hnum Hurl Hmerged.
  unfold Providers.GithubHandlers.msg_pull_request.
  rewrite Hact, Huser. cbn [bind].
  split.
  - intros Hc. destruct (eq_str action "closed") eqn:Ec.
    + rewrite Hmerged. cbn [bind]. cbn [andb] in Hc. rewrite Hc.
      cbn [bind]. rewrite Hnum, Hurl. reflexivity.
    + cbn [bind]. rewrite Hnum, Hurl, Hmerged. reflexivity.
  - intros merger Hc Hby. apply andb_true_iff in Hc as [Ec Em].
    rewrite Ec, Hmerged. cbn [bind]. rewrite Em, Hby. cbn [bind].
    rewrite Hnum, Hurl. reflexivity.
Qed.

(** [githubhook.py]: the same rules hold as long as the merged branch is
    not taken; on a pull request closed by merging, [body] already holds
    the pull-request text when [merged_by] is read from it. *)
Lemma plugin_msg_pull_request_rules (tenv : render_call -> string)
    (body repo action user number url merged text : json) :
  body.["action"] = Ok action ->
  getitem2 body "pull_request" "number" = Ok number ->
  getitem3 body "pull_request" "user" "login" = Ok user ->
  getitem2 body "pull_request" "html_url" = Ok url ->
  getitem2 body "pull_request" "merged" = Ok merged ->
  getitem2 body "pull_request" "body" = Ok text ->
  text_or_null text ->
  GithubHook.msg_pull_request tenv body repo
  = if eq_str action "closed" && truthy merged then Raise TypeError
    else Ok (Some (tenv (mkRender "pull_request.html"
           [("body", text); ("repo", repo);
            ("action", if eq_str action "synchronize" then JStr "updated"
                       else action);
            ("number", number); ("user", user); ("url", url);
            ("merged", merged)]))).
Proof.
  intros Hact Hnum Huser Hurl Hmerged Hbody Htext.
  unfold GithubHook.msg_pull_request.
  rewrite Hact, Hnum, Huser, Hurl, Hmerged, Hbody. cbn [bind].
  destruct (eq_str action "closed" && truthy merged).
  - destruct Htext as [->|[s ->]]; reflexivity.
  - reflexivity.
Qed.

(** C4, at a pull request closed by merging: the plugin's builder raises,
    while the builder of [providers.py] reports the action ["merged"] by
    [merged_by.login]. *)
Theorem C4_plugin_merged_pull_request_raises (tenv : render_call -> string)
    (repo : json) :
  GithubHook.msg_pull_request tenv merged_pull_request repo = Raise TypeError
  /\ Providers.GithubHandlers.msg_pull_request merged_pull_request repo
     = Ok (Some (Providers.render_template "Github" "pull_request"
          [("body", merged_pull_request); ("repo", repo);
           ("action", JStr "merged"); ("user", JStr "bob");
           ("number", JNum 12);
           ("url", JStr "https://github.com/octo/widgets/pull/12");
           ("merged", JBool true)])).
Proof. split; reflexivity. Qed.

(** ** GitLab event names *)

(** An event name outside the table is not dropped: the inherited
    dispatch finds no [msg_None] and renders the generic template. *)
Lemma C5_unmapped_event_renders_generic :
  Providers.GitLabHandlers.map_event_type "tag_push_hook" = None
  /\ Providers.GitLabHandlers.create_message (JObj []) "tag_push_hook" JNull
     <> Ok None.
Proof. split; [reflexivity | discriminate]. Qed.

(** C5, as the code has it: the three names are mapped; every other name
    maps to [None], and message creation then renders the generic
    template with a null event type. *)
Theorem C5_gitlab_event_mapping (e : string) (body repo : json) :
  (Providers.GitLabHandlers.map_event_type "push_hook" = Some "push"
   /\ Providers.GitLabHandlers.map_event_type "issue_hook" = Some "issue"
   /\ Providers.GitLabHandlers.map_event_type "note_hook" = Some "comment")
  /\ (e <> "push_hook" -> e <> "issue_hook" -> e <> "note_hook" ->
      Providers.GitLabHandlers.map_event_type e = None
      /\ Providers.GitLabHandlers.create_message body e repo
         = Ok (Some (Providers.render_template "GitLab" "generic"
              [("body", body); ("repo", repo); ("event_type", JNull)]))).
Proof.
  split; [repeat split|].
  intros H1 H2 H3.
  assert (Hmap : Providers.GitLabHandlers.map_event_type e = None).
  { unfold Providers.GitLabHandlers.map_event_type. cbn [lookup].
    destruct (String.eqb_spec e "push_hook"); [contradiction|].
    destruct (String.eqb_spec e "issue_hook"); [contradiction|].
    destruct (String.eqb_spec e "note_hook"); [contradiction|].
    reflexivity. }
  split; [exact Hmap|].
  unfold Providers.GitLabHandlers.create_message. rewrite Hmap. reflexivity.
Qed.

Lemma C5_gitlab_event_mapping_witness :
  Providers.GitLabHandlers.map_event_type "merge_request_hook" = None
  /\ Providers.GitLabHandlers.create_message (JObj []) "merge_request_hook"
       (JStr "widgets")
     = Ok (Some (Providers.render_template "GitLab" "generic"
          [("body", JObj []); ("repo", JStr "widgets");
           ("event_type", JNull)])).
Proof.
  apply (proj2 (C5_gitlab_event_mapping "merge_request_hook" (JObj [])
                  (JStr "widgets"))); discriminate.
Defined.

(** ** Signature validation *)

Lemma hex_digit_ascii (n : Z) :
  (0 <= n < 16)%Z -> is_ascii_char (Hashlib.hex_digit n) = true.
Proof.
  intros H. replace n with (Z.of_nat (Z.to_nat n)) by lia.
  assert (Hm : Z.to_nat n < 16) by lia.
  generalize dependent (Z.to_nat n). intros m Hm.
  do 16 (destruct m as [|m]; [reflexivity|]). lia.
Qed.

Lemma hex_ascii (bs : list Z) : Forall is_byte bs -> is_ascii (Hashlib.hex bs) = true.
Proof.
  induction 1 as [|b bs Hb _ IH]; [reflexivity|].
  unfold is_byte in Hb. cbn [Hashlib.hex is_ascii].
  rewrite !hex_digit_ascii, IH; [reflexivity| |].
  - apply Z.mod_pos_bound. lia.
  - split; [apply Z.div_pos; lia | apply Z.div_lt_upper_bound; lia].
Qed.

Lemma be_bytes_bytes (n : nat) (x : Z) : Forall is_byte (Hashlib.be_bytes n x).
Proof.
  induction n as [|n IH]; cbn [Hashlib.be_bytes]; constructor; [|exact IH].
  apply Z.mod_pos_bound. lia.
Qed.

Lemma sha1_bytes (msg : list Z) : Forall is_byte (Hashlib.sha1 msg).
Proof.
  unfold Hashlib.sha1. repeat (apply Forall_app; split); apply be_bytes_bytes.
Qed.

(** [hexdigest()] is 40 ASCII characters' worth of hexadecimal: always
    ASCII. *)
Lemma hexdigest_ascii (key msg : string) :
  is_ascii (Hashlib.hmac_sha1_hexdigest key msg) = true.
Proof. apply hex_ascii, sha1_bytes. Qed.

Lemma Ok_inj {A} (a b : A) : Ok a = Ok b -> a = b.
Proof. intros H. now injection H. Qed.

(** What [valid_message] returns, case by case. *)
Lemma valid_message_cases (request : request) (token : string) :
  Providers.GithubHandlers.valid_message request token
  = match get_header request "X-Hub-Signature" with
    | None => Ok false
    | Some signature =>
        match split "=" signature with
        | [alg; sig] =>
            if String.eqb alg "sha1" then
              if is_ascii sig then
                Ok (String.eqb
                      (Hashlib.hmac_sha1_hexdigest (Providers.encode token)
                         (body request)) sig)
              else Raise TypeError
            else Ok false
        | _ => Ok false
        end
    end.
Proof.
  unfold Providers.GithubHandlers.valid_message, Providers.compare_digest.
  destruct (get_header request "X-Hub-Signature") as [signature|]; [|reflexivity].
  destruct (split "=" signature) as [|alg [|sig [|x l]]]; try reflexivity.
  destruct (String.eqb alg "sha1"); [|reflexivity].
  cbn [negb]. rewrite hexdigest_ascii. reflexivity.
Qed.

(** Acceptance: the header is present, has exactly the two fields
    [sha1] and the digest, and the digest is the HMAC-SHA1 of the raw body
    under the token. *)
Lemma valid_message_accepts_iff (request : request) (token : string) :
  Providers.GithubHandlers.valid_message request token = Ok true
  <-> exists signature,
        get_header request "X-Hub-Signature" = Some signature
        /\ split "=" signature
           = ["sha1"; Hashlib.hmac_sha1_hexdigest (Providers.encode token)
                        (body request)].
Proof.
  rewrite valid_message_cases. split.
  - destruct (get_header request "X-Hub-Signature") as [signature|];
      [|discriminate].
    destruct (split "=" signature) as [|alg [|sig [|x l]]] eqn:Es;
      try discriminate.
    destruct (String.eqb_spec alg "sha1"); [|discriminate].
    destruct (is_ascii sig); [|discriminate].
    intros H. apply Ok_inj, String.eqb_eq in H.
    exists signature. split; [reflexivity|]. congruence.
  - intros (signature & -> & ->). rewrite String.eqb_refl, hexdigest_ascii.
    now rewrite String.eqb_refl.
Qed.

(** No header, a header without exactly one [=], another algorithm, or an
    ASCII digest that differs: the answer is [False]. *)
Lemma valid_message_rejects (request : request) (token : string) :
  (get_header request "X-Hub-Signature" = None ->
   Providers.GithubHandlers.valid_message request token = Ok false)
  /\ (forall signature,
        get_header request "X-Hub-Signature" = Some signature ->
        List.length (split "=" signature) <> 2 ->
        Providers.GithubHandlers.valid_message request token = Ok false)
  /\ (forall signature alg sig,
        get_header request "X-Hub-Signature" = Some signature ->
        split "=" signature = [alg; sig] -> alg <> "sha1" ->
        Providers.GithubHandlers.valid_message request token = Ok false)
  /\ (forall signature sig,
        get_header request "X-Hub-Signature" = Some signature ->
        split "=" signature = ["sha1"; sig] -> is_ascii sig = true ->
        sig <> Hashlib.hmac_sha1_hexdigest (Providers.encode token)
                 (body request) ->
        Providers.GithubHandlers.valid_message request token = Ok false).
Proof.
  rewrite valid_message_cases. repeat split.
  - now intros ->.
  - intros signature -> Hlen.
    destruct (split "=" signature) as [|alg [|sig [|x l]]]; try reflexivity.
    now contradiction Hlen.
  - intros signature alg sig -> -> Halg.
    destruct (String.eqb_spec alg "sha1"); [contradiction|reflexivity].
  - intros signature sig -> -> Hascii Hne. rewrite String.eqb_refl, Hascii.
    destruct (String.eqb_spec
                (Hashlib.hmac_sha1_hexdigest (Providers.encode token)
                   (body request)) sig); congruence.
Qed.

(** A correctly signed request is accepted (RFC 2202 style check of the
    whole chain: header parsing, key encoding, HMAC-SHA1, hex). *)
Example valid_message_accepts_signed :
  Providers.GithubHandlers.valid_message
    (signed_request "sha1=de7c9b85b8b78aa6bc8a7a36f70a90701c9db4d9"
       "The quick brown fox jumps over the lazy dog") "key"
  = Ok true.
Proof. vm_compute. reflexivity. Qed.

(** One changed byte of the body, or of the token, of that request. *)
Example valid_message_rejects_mutations :
  Providers.GithubHandlers.valid_message
    (signed_request "sha1=de7c9b85b8b78aa6bc8a7a36f70a90701c9db4d9"
       "The quick brown fox jumps over the lazy dog") "kez"
  = Ok false
  /\ Providers.GithubHandlers.valid_message
       (signed_request "sha1=de7c9b85b8b78aa6bc8a7a36f70a90701c9db4d9"
          "The quick brown fox jumps over the lazy cog") "key"
     = Ok false.
Proof. split; vm_compute; reflexivity. Qed.

(** C3, at a digest field that is not ASCII: the header is there, has its
    two fields and names [sha1], so the digests are compared, and
    [hmac.compare_digest] raises; whatever the body and the token,
    [valid_message] raises instead of returning [False]. *)
Theorem C3_valid_message_non_ascii_digest_raises (request : request)
    (token signature sig : string) :
  get_header request "X-Hub-Signature" = Some signature ->
  split "=" signature = ["sha1"; sig] ->
  is_ascii sig = false ->
  Providers.GithubHandlers.valid_message request token = Raise TypeError.
Proof.
  intros Hh Hs Ha. rewrite valid_message_cases, Hh, Hs, Ha. reflexivity.
Qed.

Lemma C3_valid_message_non_ascii_digest_raises_witness :
  Providers.GithubHandlers.valid_message
    (signed_request non_ascii_signature
       "The quick brown fox jumps over the lazy dog") "key"
  = Raise TypeError.
Proof.
  apply (C3_valid_message_non_ascii_digest_raises
           (signed_request non_ascii_signature
              "The quick brown fox jumps over the lazy dog")
           "key" non_ascii_signature (String "233"%char ""));
    reflexivity.
Defined.

(** ** The routing table keeps its rooms distinct *)

Lemma In_keys_pop {V} (k x : string) (d : odict V) :
  In x (keys (pop k d)) -> In x (keys d).
Proof.
  induction d as [|[k' v'] d IH]; simpl; [tauto|].
  destruct (String.eqb k k'); simpl; tauto.
Qed.

Lemma NoDup_keys_pop {V} (k : string) (d : odict V) :
  NoDup (keys d) -> NoDup (keys (pop k d)).
Proof.
  induction d as [|[k' v'] d IH]; simpl; [trivial|].
  intros H. inversion H as [|? ? Hnin Hd]; subst.
  destruct (String.eqb k k'); simpl; [assumption|].
  constructor; [|now apply IH].
  intros HIn. apply Hnin. now apply In_keys_pop in HIn.
Qed.

Lemma lookup_pop_other {V} (k k0 : string) (d : odict V) (v : V) :
  lookup k0 (pop k d) = Some v -> NoDup (keys d) -> lookup k0 d = Some v.
Proof.
  induction d as [|[k' v'] d IH]; simpl; [discriminate|].
  intros H Hnd. inversion Hnd as [|? ? Hnin Hd]; subst.
  destruct (String.eqb_spec k k') as [->|Hne].
  - destruct (String.eqb_spec k0 k') as [->|]; [|assumption].
    exfalso. apply Hnin. clear - H.
    induction d as [|[k v0] d IH]; simpl in *; [discriminate|].
    destruct (String.eqb_spec k' k); [now left | right; now apply IH].
  - simpl in H. destruct (String.eqb k0 k'); [assumption | now apply IH].
Qed.

(** Replacing the routes of one repository by a dict with distinct keys
    keeps the table well formed. *)
Lemma routes_distinct_set (st : plugin) (repo : string) (rc : repo_cfg)
    (h : list (list string)) (d : ref) (g : option (option string)) :
  routes_distinct st -> NoDup (keys (routes rc)) ->
  routes_distinct
    (mkPlugin h (mkConfig d (set repo rc (repositories (cfg st)))) g).
Proof.
  intros Hwf Hrc repo' rc'. cbn [cfg repositories].
  destruct (String.eqb_spec repo' repo) as [->|Hne].
  - rewrite lookup_set_same. intros E. now injection E as <-.
  - rewrite lookup_set_other by assumption. apply Hwf.
Qed.

Lemma routes_distinct_frame (st : plugin) (h : list (list string)) (d : ref)
    (g : option (option string)) :
  routes_distinct st ->
  routes_distinct (mkPlugin h (mkConfig d (repositories (cfg st))) g).
Proof. intros Hwf repo rc. apply Hwf. Qed.

Lemma set_route_distinct (st : plugin) (repo room : string) :
  routes_distinct st -> routes_distinct (set_route st repo room).
Proof.
  intros Hwf. unfold set_route, with_cfg.
  destruct (lookup repo (repositories (cfg st))) as [rc|] eqn:E.
  - rewrite E. apply routes_distinct_set; [assumption|].
    cbn [routes]. apply NoDup_keys_set. now apply (Hwf repo).
  - rewrite lookup_set_same.
    apply (routes_distinct_set
             (mkPlugin (heap st)
                (mkConfig (default_events (cfg st))
                   (set repo (mkRepo []) (repositories (cfg st))))
                (global_route st))).
    + apply routes_distinct_set; [assumption | apply NoDup_nil].
    + cbn. repeat constructor. simpl. tauto.
Qed.

Lemma set_events_distinct (st st' : plugin) (repo room : string) (r : ref) :
  routes_distinct st -> set_events st repo room r = Ok st' ->
  routes_distinct st'.
Proof.
  intros Hwf. unfold set_events, with_cfg.
  destruct (lookup repo (repositories (cfg st))) as [rc|] eqn:E;
    [|discriminate].
  destruct (lookup room (routes rc)); [|discriminate].
  intros H. apply Ok_inj in H. subst st'.
  apply routes_distinct_set; [assumption|].
  cbn [routes]. apply NoDup_keys_set. now apply (Hwf repo).
Qed.

Lemma clear_repo_distinct (st : plugin) (repo : string) :
  NoDup (keys (repositories (cfg st))) -> routes_distinct st ->
  routes_distinct (clear_repo st repo).
Proof.
  intros Hnd Hwf. unfold clear_repo, with_cfg.
  destruct (lookup repo (repositories (cfg st))); [|assumption].
  intros repo' rc. cbn [cfg repositories]. intros H.
  apply (Hwf repo'). eapply lookup_pop_other; eauto.
Qed.

Lemma clear_route_distinct (st : plugin) (repo room : string) :
  routes_distinct st -> routes_distinct (clear_route st repo room).
Proof.
  intros Hwf. unfold clear_route, with_cfg.
  destruct (lookup repo (repositories (cfg st))) as [rc|] eqn:E; [|assumption].
  destruct (lookup room (routes rc)); [|assumption].
  apply routes_distinct_set; [assumption|].
  cbn [routes]. apply NoDup_keys_pop. now apply (Hwf repo).
Qed.

Lemma fresh_plugin_distinct : routes_distinct fresh_plugin.
Proof. intros repo rc. discriminate. Qed.

(** The commands that change routes or defaults keep the rooms of every
    repository distinct. *)
Lemma github_route_distinct (st st' : plugin) (args out : list string) :
  routes_distinct st -> github_route st args = Ok (out, st') ->
  routes_distinct st'.
Proof.
  intros Hwf. destruct args as [|repo [|room evs]];
    try (intros H; apply Ok_inj in H; injection H as _ <-; assumption).
  rewrite github_route_unfold. cbv zeta.
  assert (Hwf1 : routes_distinct (ensure_route st repo room)).
  { unfold ensure_route. destruct (has_route st (JStr repo) room) as [[|]|];
      auto using set_route_distinct. }
  destruct evs as [|e evs].
  - destruct (set_events (ensure_route st repo room) repo room _) as [st3|]
      eqn:E; [|discriminate].
    cbn [bind]. intros H. apply Ok_inj in H. injection H as _ <-.
    eapply set_events_distinct; eauto.
  - destruct (route_loop (e :: evs) (e :: evs) []) as [evs' out'].
    unfold alloc.
    match goal with
    | |- context [set_events ?s repo room ?r] =>
        destruct (set_events s repo room r) as [st3|] eqn:E; [|discriminate]
    end.
    cbn [bind]. intros H. apply Ok_inj in H. injection H as _ <-.
    eapply set_events_distinct; [|exact E].
    intros repo' rc. apply Hwf1.
Qed.

Lemma github_defaults_distinct (st : plugin) (args : list string) :
  routes_distinct st -> routes_distinct (snd (github_defaults st args)).
Proof.
  intros Hwf. unfold github_defaults. destruct args as [|a args]; [assumption|].
  destruct (defaults_loop (a :: args) [] []) as [evs out]. cbn.
  intros repo rc. apply Hwf.
Qed.

Lemma github_global_distinct (st : plugin) (args : list string) :
  routes_distinct st -> routes_distinct (snd (github_global st args)).
Proof.
  intros Hwf. unfold github_global.
  destruct args as [|a [|b [|x l]]]; try assumption;
    intros repo rc; apply Hwf.
Qed.

(** ** The effect monad *)

Lemma iobind_lift_ok {A B} (a : A) (k : A -> io B) :
  iobind (lift (Ok a)) k = k a.
Proof. unfold iobind, lift. now destruct (k a). Qed.

Lemma iobind_lift_raise {A B} (e : exn) (k : A -> io B) :
  iobind (lift (Raise e)) k = throw e.
Proof. reflexivity. Qed.

Lemma iobind_ok {A B} (m : io A) (k : A -> io B) (a : A) :
  outcome m = Ok a ->
  iobind m k = ((trace m ++ trace (k a))%list, outcome (k a)).
Proof.
  destruct m as [t r]. cbn. intros ->. unfold iobind. now destruct (k a).
Qed.

Lemma iobind_raise {A B} (m : io A) (k : A -> io B) (e : exn) :
  outcome m = Raise e -> iobind m k = (trace m, Raise e).
Proof. destruct m as [t r]. cbn. now intros ->. Qed.

Lemma sent_rooms_app (t t' : list effect) :
  sent_rooms (t ++ t') = (sent_rooms t ++ sent_rooms t')%list.
Proof.
  induction t as [|e t IH]; [reflexivity|].
  destruct e; cbn; now rewrite IH.
Qed.

(** ** [receive] is validation and normalisation, then delivery *)

Lemma receive_split (tenv : render_call -> string) (py_str : json -> string)
    (c : chat) (st : plugin) (request : request) :
  receive tenv py_str c st request
  = match prepare tenv py_str st request with
    | Raise e => throw e
    | Ok None => _ <~ emit LogInfo ;; ret 204
    | Ok (Some (repo, event_type, m)) =>
        _ <~ dispatch c st repo event_type m ;; ret 204
    end.
Proof.
  unfold receive, prepare.
  destruct (validate_incoming request) as [[|]|e]; try reflexivity.
  rewrite iobind_lift_ok. cbn [bind negb].
  destruct (get_header request "X-Github-Event") as [h|]; [|reflexivity].
  rewrite iobind_lift_ok. cbn [bind].
  destruct (json_body request) as [body|e]; [|reflexivity].
  rewrite iobind_lift_ok. cbn [bind].
  destruct (String.eqb (lower h) "ping").
  - destruct (getitem2 body "hook" "url"); reflexivity.
  - destruct (if has_key body "repository"
              then getitem2 body "repository" "full_name" else Ok JNull)
      as [repo|e]; [|reflexivity].
    rewrite iobind_lift_ok. cbn [bind].
    destruct (get_repo st repo) as [r|e]; [|reflexivity].
    rewrite iobind_lift_ok. cbn [bind].
    destruct (match r with None => true | Some _ => false end
              && negb (is_global_event (lower h) repo body)); [reflexivity|].
    destruct (match methods tenv py_str ("msg_" ++ lower h) with
              | Some f => f body repo
              | None => msg_generic tenv body repo (lower h)
              end) as [m|e]; [|reflexivity].
    rewrite iobind_lift_ok. cbn [bind]. reflexivity.
Qed.

(** ** Delivery *)

Lemma iobind_ret {A B} (a : A) (k : A -> io B) : iobind (ret a) k = k a.
Proof. exact (iobind_lift_ok a k). Qed.

Lemma trace_then_ret {A B} (m : io A) (b : B) :
  trace (_ <~ m ;; ret b) = trace m.
Proof. destruct m as [t [a|e]]; cbn; [apply app_nil_r | reflexivity]. Qed.

Lemma outcome_then_ret {A B} (m : io A) (b : B) :
  outcome (_ <~ m ;; ret b)
  = match outcome m with Ok _ => Ok b | Raise e => Raise e end.
Proof. destruct m as [t [a|e]]; reflexivity. Qed.

(** One room: either the message was sent to it, or the call raised and
    nothing was sent. *)
Lemma join_and_send_cases (c : chat) (room : option string) (msg : string) :
  (outcome (join_and_send c room msg) = Ok tt
   /\ sent_rooms (trace (join_and_send c room msg)) = [room])
  \/ (exists e, outcome (join_and_send c room msg) = Raise e
                /\ sent_rooms (trace (join_and_send c room msg)) = []).
Proof.
  unfold join_and_send.
  destruct (query_room c room) as [[]|e]; [|right; eexists; split; reflexivity].
  rewrite iobind_lift_ok.
  destruct (room_join c room) as [[]|[]];
    destruct (send c room msg) as [[]|e'];
    first [ left; split; reflexivity | right; eexists; split; reflexivity ].
Qed.

(** A [RoomError] from [join] is logged and the message is still sent. *)
Lemma join_and_send_only_join_fails (c : chat) (room : option string)
    (msg : string) :
  only_join_fails c ->
  outcome (join_and_send c room msg) = Ok tt
  /\ sent_rooms (trace (join_and_send c room msg)) = [room].
Proof.
  intros (Hq & Hj & Hs). unfold join_and_send.
  rewrite Hq, iobind_lift_ok, Hs.
  destruct (Hj room) as [-> | ->]; split; reflexivity.
Qed.

(** A failing [send] leaves [join_and_send] by the exception. *)
Lemma join_and_send_send_fails (c : chat) (room : option string)
    (msg : string) (e : exn) :
  query_room c room = Ok tt ->
  room_join c room = Ok tt \/ room_join c room = Raise RoomError ->
  send c room msg = Raise e ->
  outcome (join_and_send c room msg) = Raise e
  /\ sent_rooms (trace (join_and_send c room msg)) = [].
Proof.
  intros Hq Hj Hs. unfold join_and_send.
  rewrite Hq, iobind_lift_ok, Hs.
  destruct Hj as [-> | ->]; split; reflexivity.
Qed.

Lemma deliver_cons (c : chat) (st : plugin) (repo : json)
    (event_type msg room : string) (rooms : list string) (evs : option ref)
    (w : bool) :
  get_events st repo room = Ok evs ->
  wants st evs event_type = Ok w ->
  deliver c st repo event_type msg (room :: rooms)
  = (_ <~ (if w then join_and_send c (Some room) msg else ret tt) ;;
     deliver c st repo event_type msg rooms).
Proof.
  intros He Hw. cbn [deliver]. now rewrite He, iobind_lift_ok, Hw, iobind_lift_ok.
Qed.

Lemma count_occ_map_Some (rooms : list string) (room : string) :
  count_occ room_eq_dec (map Some rooms) (Some room)
  = count_occ string_dec rooms room.
Proof.
  induction rooms as [|r rooms IH]; [reflexivity|]. cbn [map count_occ].
  destruct (room_eq_dec (Some r) (Some room)), (string_dec r room);
    congruence.
Qed.

(** The loop sends to a room at most as often as the room is listed. *)
Lemma deliver_times (c : chat) (st : plugin) (repo : json)
    (event_type msg : string) (rooms : list string) (x : option string) :
  count_occ room_eq_dec
    (sent_rooms (trace (deliver c st repo event_type msg rooms))) x
  <= count_occ room_eq_dec (map Some rooms) x.
Proof.
  induction rooms as [|room rooms IH]; [reflexivity|].
  destruct (get_events st repo room) as [evs|e] eqn:He;
    [|cbn [deliver]; rewrite He; cbn; lia].
  destruct (wants st evs event_type) as [w|e] eqn:Hw;
    [|cbn [deliver]; rewrite He, iobind_lift_ok, Hw; cbn; lia].
  rewrite (deliver_cons _ _ _ _ _ _ _ _ _ He Hw). cbn [map count_occ].
  destruct w.
  - destruct (join_and_send_cases c (Some room) msg) as [[Ho Hs]|[e [Ho Hs]]].
    + rewrite (iobind_ok _ _ tt Ho). cbn [trace fst].
      rewrite sent_rooms_app, Hs. cbn [app count_occ].
      destruct (room_eq_dec (Some room) x); lia.
    + rewrite (iobind_raise _ _ e Ho). cbn [trace fst]. rewrite Hs.
      cbn [count_occ]. lia.
  - rewrite iobind_ret. destruct (room_eq_dec (Some room) x); lia.
Qed.

Lemma get_routes_distinct (st : plugin) (repo : json) (rooms : list string) :
  routes_distinct st -> get_routes st repo = Ok rooms -> NoDup rooms.
Proof.
  intros Hwf. unfold get_routes, routes_of, dict_get.
  destruct repo; cbn [bind]; intros H; try discriminate H;
    apply Ok_inj in H; subst rooms; try apply NoDup_nil.
  destruct (lookup s (repositories (cfg st))) as [rc|] eqn:E.
  - now apply (Hwf s).
  - apply NoDup_nil.
Qed.

(** One event: each room of the repository at most once from the loop,
    and once more if it is the global route of a global event. *)
Lemma dispatch_times (c : chat) (st : plugin) (repo : json)
    (event_type : string) (m : message) (room : string) :
  routes_distinct st ->
  times_sent (dispatch c st repo event_type m) room
  <= 1 + (if is_global_event event_type JNull JNull
             && match global_route st with
                | Some (Some g) => String.eqb g room
                | _ => false
                end
          then 1 else 0).
Proof.
  intros Hwf. unfold times_sent, dispatch.
  destruct (message_truthy m) as [msg|]; [|cbn; lia].
  destruct (get_routes st repo) as [rooms|e] eqn:Hr; [|cbn; lia].
  rewrite iobind_lift_ok.
  assert (Hloop : count_occ room_eq_dec
            (sent_rooms (trace (deliver c st repo event_type msg rooms)))
            (Some room) <= 1).
  { etransitivity; [apply deliver_times|]. rewrite count_occ_map_Some.
    apply NoDup_count_occ. eapply get_routes_distinct; eauto. }
  destruct (deliver c st repo event_type msg rooms) as [t [[]|e]] eqn:Hd;
    [|cbn in *; lia].
  rewrite (iobind_ok (t, Ok tt) _ tt eq_refl). cbn [trace fst] in *.
  rewrite sent_rooms_app, count_occ_app.
  change (is_global_event event_type repo JNull)
    with (is_global_event event_type JNull JNull).
  destruct (is_global_event event_type JNull JNull); [|cbn; lia].
  destruct (global_route st) as [g|]; [|cbn; lia].
  rewrite iobind_lift_ok. cbn [andb].
  destruct (join_and_send_cases c g msg) as [[_ Hs]|[e [_ Hs]]]; rewrite Hs;
    [|cbn; lia].
  cbn [count_occ]. destruct (room_eq_dec g (Some room)) as [->|Hne].
  - rewrite String.eqb_refl. lia.
  - lia.
Qed.

Lemma prepare_event_type (tenv : render_call -> string)
    (py_str : json -> string) (st : plugin) (request : request)
    (repo : json) (event_type : string) (m : message) :
  prepare tenv py_str st request = Ok (Some (repo, event_type, m)) ->
  event_type = event_type_of request.
Proof.
  unfold prepare, event_type_of.
  destruct (validate_incoming request) as [[|]|e]; try discriminate.
  cbn [bind negb].
  destruct (get_header request "X-Github-Event") as [h|]; [|discriminate].
  cbn [bind].
  destruct (json_body request) as [body|e]; [|discriminate]. cbn [bind].
  destruct (String.eqb (lower h) "ping").
  - destruct (getitem2 body "hook" "url"); discriminate.
  - destruct (if has_key body "repository"
              then getitem2 body "repository" "full_name" else Ok JNull)
      as [repo'|e]; [|discriminate].
    cbn [bind]. destruct (get_repo st repo') as [r|e]; [|discriminate].
    cbn [bind].
    destruct (match r with None => true | Some _ => false end
              && negb (is_global_event (lower h) repo' body)); [discriminate|].
    destruct (match methods tenv py_str ("msg_" ++ lower h) with
              | Some f => f body repo'
              | None => msg_generic tenv body repo' (lower h)
              end) as [m'|e]; [|discriminate].
    cbn [bind]. intros H. apply Ok_inj in H. congruence.
Qed.

(** ** The webhook *)

(** C2, as stated, fails: the room that is both a matching route and the
    global route is sent the message twice. *)
Lemma C2_route_and_global_route_both_deliver :
  receive tenv_name py_str_plain chat_ok routed_global_plugin fork_request
  = ([Joined (Some "#dev"); Sent (Some "#dev") "fork.html";
      Joined (Some "#dev"); Sent (Some "#dev") "fork.html"], Ok 204)
  /\ times_sent (receive tenv_name py_str_plain chat_ok routed_global_plugin
                   fork_request) "#dev" = 2.
Proof. split; reflexivity. Qed.

(** C2, as the code has it: for one event a room is sent the message at
    most once by the loop over the repository's routes, and once more when
    the event is global and the room is the global route; nothing removes
    the duplicate. *)
Theorem C2_once_per_route_and_once_as_global (tenv : render_call -> string)
    (py_str : json -> string) (c : chat) (st : plugin) (request : request)
    (room : string) :
  routes_distinct st ->
  times_sent (receive tenv py_str c st request) room
  <= 1 + (if is_global_target st request room then 1 else 0).
Proof.
  intros Hwf. rewrite receive_split.
  destruct (prepare tenv py_str st request) as [[[[repo ev] m]|]|e] eqn:Hp;
    [|cbn; lia|cbn; lia].
  unfold times_sent. rewrite trace_then_ret.
  rewrite (prepare_event_type _ _ _ _ _ _ _ Hp).
  apply dispatch_times, Hwf.
Qed.

Lemma C2_once_per_route_and_once_as_global_witness :
  routes_distinct routed_global_plugin
  /\ times_sent (receive tenv_name py_str_plain chat_ok routed_global_plugin
                   fork_request) "#dev"
     <= 1 + (if is_global_target routed_global_plugin fork_request "#dev"
             then 1 else 0).
Proof.
  assert (H : routes_distinct routed_global_plugin).
  { intros repo rc. simpl. destruct (String.eqb repo "octo/widgets").
    - intros E. injection E as <-. simpl. repeat constructor; simpl; tauto.
    - discriminate. }
  split; [exact H|].
  exact (C2_once_per_route_and_once_as_global tenv_name py_str_plain chat_ok
           routed_global_plugin fork_request "#dev" H).
Defined.

(** C1, as stated, fails: [receive] never looks at the signature.  A
    request without any signature header, which [valid_message] rejects
    under every token, is rendered and delivered. *)
Lemma C1_unsigned_request_is_delivered :
  (forall token,
     Providers.GithubHandlers.valid_message push_request token = Ok false)
  /\ validate_incoming push_request = Ok true
  /\ receive tenv_name py_str_plain chat_ok default_routed_plugin push_request
     = ([Joined (Some "#dev"); Sent (Some "#dev") "push.html"], Ok 204).
Proof. repeat split. Qed.

(** What [validate_incoming] checks. *)
Lemma validate_incoming_false_iff (request : request) :
  validate_incoming request = Ok false
  <-> content_type request <> "application/json"
      \/ get_header request "X-Github-Event" = None
      \/ json_body request = Raise ValueError
      \/ exists v, json_body request = Ok v /\ is_dict v = false.
Proof.
  unfold validate_incoming. cbn [existsb REQUIRED_HEADERS].
  destruct (String.eqb_spec (content_type request) "application/json") as [Ect|Ect];
    cbn [negb]; [|tauto].
  destruct (get_header request "X-Github-Event") as [h|]; cbn [orb]; [|tauto].
  destruct (json_body request) as [v|e].
  - destruct (is_dict v) eqn:Ev; cbn [negb]; split.
    + discriminate.
    + intros [H|[H|[H|(v' & H & H')]]]; congruence.
    + intros _. right; right; right. now exists v.
    + reflexivity.
  - split.
    + destruct e; try discriminate. tauto.
    + intros [H|[H|[H|(v' & H & H')]]]; try congruence; try discriminate.
      apply (f_equal (fun r => match r with Raise x => x | Ok _ => e end)) in H.
      now subst e.
Qed.

(** C1, as the code has it: a request that [validate_incoming] refuses
    (content type, event header, JSON object) is answered 400 before
    anything else happens; and whatever the signature header says or
    lacks, [receive] does the same. *)
Theorem C1_rejected_iff_validation_fails (tenv : render_call -> string)
    (py_str : json -> string) (c : chat) (st : plugin) (request : request) :
  (validate_incoming request = Ok false ->
   receive tenv py_str c st request = ([], Raise (HTTPError 400))
   /\ http_status (outcome (receive tenv py_str c st request)) = 400)
  /\ (forall signature,
        receive tenv py_str c st (with_signature signature request)
        = receive tenv py_str c st request).
Proof.
  split.
  - intros H. unfold receive. rewrite H. split; reflexivity.
  - intros signature. reflexivity.
Qed.

Lemma C1_rejected_iff_validation_fails_witness :
  receive tenv_name py_str_plain chat_ok routed_global_plugin
    (mkRequest "text/plain" [("X-Github-Event", "fork")] "{}" (Ok fork_payload))
  = ([], Raise (HTTPError 400))
  /\ http_status
       (outcome (receive tenv_name py_str_plain chat_ok routed_global_plugin
          (mkRequest "text/plain" [("X-Github-Event", "fork")] "{}"
             (Ok fork_payload)))) = 400.
Proof.
  apply (proj1 (C1_rejected_iff_validation_fails tenv_name py_str_plain
                  chat_ok routed_global_plugin
                  (mkRequest "text/plain" [("X-Github-Event", "fork")] "{}"
                     (Ok fork_payload)))).
  reflexivity.
Defined.

(** With the global route removed, a global event still goes to
    [join_and_send], for the room [None]. *)
Lemma receive_removed_global_route (c : chat) :
  receive tenv_name py_str_plain c
    (snd (github_global fresh_plugin ["route"])) fork_request
  = (_ <~ join_and_send c None "fork.html" ;; ret 204).
Proof.
  rewrite receive_split.
  set (p := prepare _ _ _ _). vm_compute in p. subst p. cbv iota beta.
  unfold dispatch.
  set (m := message_truthy _). vm_compute in m. subst m. cbv iota beta.
  set (r := get_routes _ _). vm_compute in r. subst r.
  rewrite iobind_lift_ok. cbn [deliver]. rewrite iobind_ret.
  set (g := is_global_event _ _ _). vm_compute in g. subst g. cbv iota.
  cbn [snd github_global global_route]. rewrite iobind_lift_ok. reflexivity.
Qed.

(** C6, on a global event while no global route is set.  On a plugin whose
    [global_route] was never assigned, reading the attribute raises after
    the routes of the repository have been served; after
    [!github global route] removed the route, the message is handed to
    the transport for the room [None]. *)
Theorem C6_global_event_without_global_route (c : chat) :
  receive tenv_name py_str_plain chat_ok routed_plugin fork_request
  = ([Joined (Some "#dev"); Sent (Some "#dev") "fork.html"],
     Raise AttributeError)
  /\ http_status (outcome (receive tenv_name py_str_plain chat_ok
                             routed_plugin fork_request)) = 500
  /\ github_global fresh_plugin ["route"]
     = (["Removed global route."],
        mkPlugin (heap fresh_plugin) (cfg fresh_plugin) (Some None))
  /\ receive tenv_name py_str_plain c
       (snd (github_global fresh_plugin ["route"])) fork_request
     = (_ <~ join_and_send c None "fork.html" ;; ret 204)
  /\ receive tenv_name py_str_plain chat_ok
       (snd (github_global fresh_plugin ["route"])) fork_request
     = ([Joined None; Sent None "fork.html"], Ok 204).
Proof.
  repeat split. apply receive_removed_global_route.
Qed.

Lemma deliver_ignores_global_route (c : chat) (st : plugin) (repo : json)
    (event_type msg : string) (rooms : list string)
    (g : option (option string)) :
  deliver c (mkPlugin (heap st) (cfg st) g) repo event_type msg rooms
  = deliver c st repo event_type msg rooms.
Proof.
  induction rooms as [|room rooms IH]; [reflexivity|].
  cbn [deliver]. rewrite IH. reflexivity.
Qed.

(** A non-global event never reaches the global route, set or not. *)
Lemma dispatch_non_global (c : chat) (st : plugin) (repo : json)
    (event_type : string) (m : message) (g : option (option string)) :
  is_global_event event_type JNull JNull = false ->
  dispatch c (mkPlugin (heap st) (cfg st) g) repo event_type m
  = dispatch c st repo event_type m.
Proof.
  intros Hg. unfold dispatch.
  change (is_global_event event_type repo JNull)
    with (is_global_event event_type JNull JNull).
  rewrite Hg. destruct (message_truthy m) as [msg|]; [|reflexivity].
  change (get_routes (mkPlugin (heap st) (cfg st) g) repo)
    with (get_routes st repo).
  destruct (get_routes st repo) as [rooms|e]; [|reflexivity].
  rewrite !iobind_lift_ok. now rewrite deliver_ignores_global_route.
Qed.

Lemma same_delivery_refl {A} (m : io A) : same_delivery m m.
Proof. split; reflexivity. Qed.

Lemma same_delivery_bind {A B} (m m' : io A) (k k' : A -> io B) :
  same_delivery m m' ->
  (forall a, same_delivery (k a) (k' a)) ->
  same_delivery (iobind m k) (iobind m' k').
Proof.
  destruct m as [t r], m' as [t' r']. unfold same_delivery, trace, outcome.
  cbn [fst snd]. intros [Ht Hr] Hk. subst r'.
  destruct r as [a|e]; [|split; [assumption|reflexivity]].
  specialize (Hk a). unfold iobind.
  destruct (k a) as [u s], (k' a) as [u' s']. destruct Hk as [Hu Hs].
  cbn [fst snd] in *. split; [|assumption]. rewrite !sent_rooms_app. congruence.
Qed.

Lemma join_and_send_same (c c' : chat) (room : option string) (msg : string) :
  only_join_fails c -> only_join_fails c' ->
  same_delivery (join_and_send c room msg) (join_and_send c' room msg).
Proof.
  intros H H'.
  destruct (join_and_send_only_join_fails c room msg H) as [Ho Hs].
  destruct (join_and_send_only_join_fails c' room msg H') as [Ho' Hs'].
  split; congruence.
Qed.

Lemma deliver_same (c c' : chat) (st : plugin) (repo : json)
    (event_type msg : string) (rooms : list string) :
  only_join_fails c -> only_join_fails c' ->
  same_delivery (deliver c st repo event_type msg rooms)
                (deliver c' st repo event_type msg rooms).
Proof.
  intros H H'. induction rooms as [|room rooms IH];
    [apply same_delivery_refl|].
  cbn [deliver].
  apply same_delivery_bind; [apply same_delivery_refl|]. intros evs.
  apply same_delivery_bind; [apply same_delivery_refl|]. intros [|].
  - apply same_delivery_bind; [now apply join_and_send_same | intros _; exact IH].
  - apply same_delivery_bind; [apply same_delivery_refl | intros _; exact IH].
Qed.

Lemma dispatch_same (c c' : chat) (st : plugin) (repo : json)
    (event_type : string) (m : message) :
  only_join_fails c -> only_join_fails c' ->
  same_delivery (dispatch c st repo event_type m)
                (dispatch c' st repo event_type m).
Proof.
  intros H H'. unfold dispatch.
  destruct (message_truthy m) as [msg|]; [|apply same_delivery_refl].
  apply same_delivery_bind; [apply same_delivery_refl|]. intros rooms.
  apply same_delivery_bind; [now apply deliver_same|]. intros _.
  destruct (is_global_event event_type repo JNull); [|apply same_delivery_refl].
  apply same_delivery_bind; [apply same_delivery_refl|]. intros g.
  now apply join_and_send_same.
Qed.

Lemma chat_ok_only_join_fails : only_join_fails chat_ok.
Proof. repeat split; intros; auto. Qed.

(** The loop ends at the first room whose delivery raises: the rooms after
    it are not served. *)
Lemma deliver_stops (c : chat) (st : plugin) (repo : json)
    (event_type msg room : string) (rest : list string) (evs : option ref)
    (e : exn) :
  get_events st repo room = Ok evs ->
  wants st evs event_type = Ok true ->
  outcome (join_and_send c (Some room) msg) = Raise e ->
  deliver c st repo event_type msg (room :: rest)
  = (trace (join_and_send c (Some room) msg), Raise e).
Proof.
  intros He Hw Hj. rewrite (deliver_cons _ _ _ _ _ _ _ _ _ He Hw).
  now apply iobind_raise.
Qed.

(** C7, as stated, fails: with two rooms wanting the event, a failing
    [send] to the first leaves [receive] by the exception; the second
    room, whose delivery would have worked, gets nothing and the request
    ends in a server error. *)
Lemma C7_send_failure_stops_delivery :
  receive tenv_name py_str_plain chat_send_fails two_rooms_plugin fork_request
  = ([Joined (Some "#a")], Raise TransportFailure)
  /\ http_status (outcome (receive tenv_name py_str_plain chat_send_fails
                             two_rooms_plugin fork_request)) = 500
  /\ join_and_send chat_send_fails (Some "#b") "fork.html"
     = ([Joined (Some "#b"); Sent (Some "#b") "fork.html"], Ok tt)
  /\ sent_rooms (trace (receive tenv_name py_str_plain chat_ok
                          two_rooms_plugin fork_request))
     = [Some "#a"; Some "#b"; Some "#ops"].
Proof. repeat split. Qed.

(** C7, as the code has it.  A [RoomError] raised by a room's [join] is
    caught and logged: the message is still sent to that room and to all
    the others, and the request ends as it would on a transport without
    failures.  A failure of [send] is not caught: [join_and_send] raises,
    and the loop over the rooms stops there. *)
Theorem C7_only_join_room_errors_are_caught (tenv : render_call -> string)
    (py_str : json -> string) (c : chat) (st : plugin) (request : request) :
  (only_join_fails c ->
   sent_rooms (trace (receive tenv py_str c st request))
   = sent_rooms (trace (receive tenv py_str chat_ok st request))
   /\ outcome (receive tenv py_str c st request)
      = outcome (receive tenv py_str chat_ok st request))
  /\ (forall repo event_type msg room rest evs e,
        get_events st repo room = Ok evs ->
        wants st evs event_type = Ok true ->
        query_room c (Some room) = Ok tt ->
        room_join c (Some room) = Ok tt
        \/ room_join c (Some room) = Raise RoomError ->
        send c (Some room) msg = Raise e ->
        outcome (deliver c st repo event_type msg (room :: rest)) = Raise e
        /\ sent_rooms (trace (deliver c st repo event_type msg (room :: rest)))
           = []).
Proof.
  split.
  - intros H. rewrite !receive_split.
    destruct (prepare tenv py_str st request) as [[[[repo ev] m]|]|e];
      try (split; reflexivity).
    apply (same_delivery_bind _ _ (fun _ => ret 204) (fun _ => ret 204)).
    + apply dispatch_same; [exact H | exact chat_ok_only_join_fails].
    + intros _. apply same_delivery_refl.
  - intros repo event_type msg room rest evs e He Hw Hq Hj Hs.
    destruct (join_and_send_send_fails c (Some room) msg e Hq Hj Hs)
      as [Ho Hn].
    rewrite (deliver_stops _ _ _ _ _ _ rest _ _ He Hw Ho). now split.
Qed.

Lemma C7_only_join_room_errors_are_caught_witness :
  only_join_fails chat_join_fails
  /\ sent_rooms (trace (receive tenv_name py_str_plain chat_join_fails
                          two_rooms_plugin fork_request))
     = sent_rooms (trace (receive tenv_name py_str_plain chat_ok
                            two_rooms_plugin fork_request))
  /\ outcome (receive tenv_name py_str_plain chat_join_fails
                two_rooms_plugin fork_request)
     = outcome (receive tenv_name py_str_plain chat_ok
                  two_rooms_plugin fork_request).
Proof.
  assert (H : only_join_fails chat_join_fails).
  { repeat split; intros; try reflexivity.
    destruct room as [r|]; simpl; [|now left].
    destruct (String.eqb r "#a"); [now right | now left]. }
  split; [exact H|].
  exact (proj1 (C7_only_join_room_errors_are_caught tenv_name py_str_plain
                  chat_join_fails two_rooms_plugin fork_request) H).
Defined.

(** What that run looks like: the failed join of [#a] is logged and [#a]
    is served all the same. *)
Example receive_join_room_error_logged :
  receive tenv_name py_str_plain chat_join_fails two_rooms_plugin fork_request
  = ([LogInfo; Sent (Some "#a") "fork.html";
      Joined (Some "#b"); Sent (Some "#b") "fork.html";
      Joined (Some "#ops"); Sent (Some "#ops") "fork.html"], Ok 204).
Proof. reflexivity. Qed.

(* ================================================================== *)
(** * Further properties of the code *)
(* ================================================================== *)

(** ** [split] and [join] *)

Lemma split_nonempty (sep : ascii) (s : string) : split sep s <> [].
Proof.
  destruct s as [|c s]; cbn [split]; [discriminate|].
  destruct (Ascii.eqb c sep); [discriminate|].
  destruct (split sep s); discriminate.
Qed.

Lemma join_cons (sep x : string) (l : list string) :
  l <> [] -> join sep (x :: l) = x ++ sep ++ join sep l.
Proof. destruct l; [congruence | reflexivity]. Qed.

Lemma join_push_char (sep : string) (c : ascii) (l : list string) :
  l <> [] ->
  join sep match l with
           | [] => [String c ""]
           | f :: fs => String c f :: fs
           end
  = String c (join sep l).
Proof. destruct l as [|f [|g fs]]; [congruence | reflexivity | reflexivity]. Qed.

(** Joining the fields with the separator gives the string back. *)
Lemma join_split (sep : ascii) (s : string) :
  join (String sep "") (split sep s) = s.
Proof.
  induction s as [|c s IH]; [reflexivity|]. cbn [split].
  destruct (Ascii.eqb_spec c sep) as [->|Hne].
  - rewrite join_cons by apply split_nonempty. cbn [append]. now rewrite IH.
  - rewrite join_push_char by apply split_nonempty. now rewrite IH.
Qed.

(** A string without the separator is a single field. *)
Lemma split_without_sep (sep : ascii) (s : string) :
  all_chars (fun c => negb (Ascii.eqb c sep)) s = true -> split sep s = [s].
Proof.
  induction s as [|c s IH]; [reflexivity|]. cbn [all_chars split].
  rewrite andb_true_iff. intros [Hc Hs].
  destruct (Ascii.eqb c sep); [discriminate|]. now rewrite IH.
Qed.

Lemma all_chars_impl (p q : ascii -> bool) (s : string) :
  (forall c, p c = true -> q c = true) ->
  all_chars p s = true -> all_chars q s = true.
Proof.
  intros Hpq. induction s as [|c s IH]; [reflexivity|]. cbn [all_chars].
  rewrite !andb_true_iff. intros [Hc Hs]. auto.
Qed.

(** ** The digest is forty lowercase hexadecimal digits *)

Lemma hex_digit_hex (n : Z) :
  (0 <= n < 16)%Z -> is_hex_char (Hashlib.hex_digit n) = true.
Proof.
  intros H. replace n with (Z.of_nat (Z.to_nat n)) by lia.
  assert (Hm : Z.to_nat n < 16) by lia.
  generalize dependent (Z.to_nat n). intros m Hm.
  do 16 (destruct m as [|m]; [reflexivity|]). lia.
Qed.

Lemma hex_all_hex (bs : list Z) :
  Forall is_byte bs -> all_chars is_hex_char (Hashlib.hex bs) = true.
Proof.
  induction 1 as [|b bs Hb _ IH]; [reflexivity|].
  unfold is_byte in Hb. cbn [Hashlib.hex all_chars].
  rewrite !hex_digit_hex, IH; [reflexivity| |].
  - apply Z.mod_pos_bound. lia.
  - split; [apply Z.div_pos; lia | apply Z.div_lt_upper_bound; lia].
Qed.

Lemma hex_length (bs : list Z) :
  String.length (Hashlib.hex bs) = 2 * List.length bs.
Proof.
  induction bs as [|b bs IH]; [reflexivity|].
  cbn [Hashlib.hex String.length List.length]. rewrite IH. lia.
Qed.

Lemma be_bytes_length (n : nat) (x : Z) :
  List.length (Hashlib.be_bytes n x) = n.
Proof. induction n as [|n IH]; cbn [Hashlib.be_bytes List.length]; congruence. Qed.

Lemma sha1_length (msg : list Z) : List.length (Hashlib.sha1 msg) = 20.
Proof.
  unfold Hashlib.sha1. rewrite !length_app, !be_bytes_length. reflexivity.
Qed.

(** Whatever the key and the message, the digest compared by
    [valid_message] is forty characters, each a decimal digit or one of
    [a]-[f]. *)
Theorem hexdigest_forty_lowercase_hex (key msg : string) :
  String.length (Hashlib.hmac_sha1_hexdigest key msg) = 40
  /\ all_chars is_hex_char (Hashlib.hmac_sha1_hexdigest key msg) = true.
Proof.
  unfold Hashlib.hmac_sha1_hexdigest, Hashlib.hmac_sha1. split.
  - now rewrite hex_length, sha1_length.
  - apply hex_all_hex, sha1_bytes.
Qed.

Lemma hexdigest_single_field (key msg : string) :
  split "=" (Hashlib.hmac_sha1_hexdigest key msg)
  = [Hashlib.hmac_sha1_hexdigest key msg].
Proof.
  apply split_without_sep.
  apply (all_chars_impl is_hex_char);
    [|apply hexdigest_forty_lowercase_hex].
  intros c Hc. destruct (Ascii.eqb_spec c "="); [subst c; discriminate Hc|].
  reflexivity.
Qed.

(** X1. [valid_message] accepts a request exactly when its signature
    header is the string [sha1=] followed by the HMAC-SHA1 hexdigest of
    the raw body under the encoded token: a correctly signed request is
    always accepted, and nothing else is. *)
Theorem valid_message_accepts_exactly (request : request) (token : string) :
  Providers.GithubHandlers.valid_message request token = Ok true
  <-> get_header request "X-Hub-Signature"
      = Some ("sha1=" ++ Hashlib.hmac_sha1_hexdigest (Providers.encode token)
                           (body request)).
Proof.
  rewrite valid_message_accepts_iff. split.
  - intros (signature & Hh & Hs). rewrite Hh. f_equal.
    rewrite <- (join_split "=" signature), Hs. reflexivity.
  - intros Hh. eexists. split; [exact Hh|].
    cbn [append split Ascii.eqb Bool.eqb].
    now rewrite hexdigest_single_field.
Qed.

(** X2. The comparison is case sensitive and exact: a digest field that
    contains any character other than [0]-[9], [a]-[f] (an upper-case
    hexadecimal digit, a space) is never accepted. *)
Theorem valid_message_rejects_non_hex_digest (request : request)
    (token signature sig : string) :
  get_header request "X-Hub-Signature" = Some signature ->
  split "=" signature = ["sha1"; sig] ->
  all_chars is_hex_char sig = false ->
  Providers.GithubHandlers.valid_message request token <> Ok true.
Proof.
  intros Hh Hs Hsig Hacc. apply valid_message_accepts_iff in Hacc.
  destruct Hacc as (signature' & Hh' & Hs').
  assert (sig = Hashlib.hmac_sha1_hexdigest (Providers.encode token)
                  (body request)) by congruence.
  subst sig.
  now rewrite (proj2 (hexdigest_forty_lowercase_hex _ _)) in Hsig.
Qed.

Lemma valid_message_rejects_non_hex_digest_witness :
  Providers.GithubHandlers.valid_message
    (signed_request "sha1=DE7C9B85B8B78AA6BC8A7A36F70A90701C9DB4D9"
       "The quick brown fox jumps over the lazy dog") "key"
  <> Ok true.
Proof.
  apply (valid_message_rejects_non_hex_digest
           (signed_request "sha1=DE7C9B85B8B78AA6BC8A7A36F70A90701C9DB4D9"
              "The quick brown fox jumps over the lazy dog")
           "key" "sha1=DE7C9B85B8B78AA6BC8A7A36F70A90701C9DB4D9"
           "DE7C9B85B8B78AA6BC8A7A36F70A90701C9DB4D9");
    reflexivity.
Defined.

(** ** The paths through [receive] *)

(** What [validate_incoming] lets through. *)
Lemma validate_incoming_accepts (request : request) :
  validate_incoming request = Ok true
  <-> exists h body, accepted_request request h body.
Proof.
  unfold validate_incoming, accepted_request. cbn [existsb REQUIRED_HEADERS].
  split.
  - destruct (String.eqb_spec (content_type request) "application/json")
      as [Ect|Ect]; cbn [negb]; [|discriminate].
    destruct (get_header request "X-Github-Event") as [h|]; cbn [orb];
      [|discriminate].
    destruct (json_body request) as [body|e].
    + destruct (is_dict body) eqn:Ed; cbn [negb]; [|discriminate].
      intros _. now exists h, body.
    + destruct e; discriminate.
  - intros (h & body & Hct & Hh & Hj & Hd). rewrite Hct, Hh, Hj, Hd.
    reflexivity.
Qed.

(** X3. [validate_incoming] answers [True] exactly for a request with
    content type [application/json], an [X-Github-Event] header and a body
    that parses to a JSON object. *)
Theorem validate_incoming_true_iff (request : request) :
  validate_incoming request = Ok true
  <-> exists h body, accepted_request request h body.
Proof. exact (validate_incoming_accepts request). Qed.

Lemma prepare_accepted (tenv : render_call -> string) (py_str : json -> string)
    (st : plugin) (request : request) (h : string) (body : json) :
  accepted_request request h body ->
  prepare tenv py_str st request
  = if String.eqb (lower h) "ping" then
      _ <- getitem2 body "hook" "url" ;; Ok None
    else
      repo <- payload_repo body ;;
      r <- get_repo st repo ;;
      if match r with None => true | Some _ => false end
         && negb (is_global_event (lower h) repo body)
      then Ok None
      else
        m <- match methods tenv py_str ("msg_" ++ lower h) with
             | Some f => f body repo
             | None => msg_generic tenv body repo (lower h)
             end ;;
        Ok (Some (repo, lower h, m)).
Proof.
  intros Hacc.
  assert (Hv : validate_incoming request = Ok true)
    by (apply validate_incoming_accepts; eauto).
  destruct Hacc as (Hct & Hh & Hj & Hd).
  unfold prepare. rewrite Hv, Hh, Hj. reflexivity.
Qed.

(** X4. A [ping] is answered before anything else is looked at: whatever
    the routes, the global route and the transport, nothing is sent; the
    answer is 204 when the payload has [hook.url], and otherwise the
    lookup error leaves [receive]. *)
Theorem receive_ping (tenv : render_call -> string) (py_str : json -> string)
    (c : chat) (st : plugin) (request : request) (h : string) (body : json) :
  accepted_request request h body ->
  lower h = "ping" ->
  receive tenv py_str c st request
  = match getitem2 body "hook" "url" with
    | Ok _ => ([LogInfo], Ok 204)
    | Raise e => ([], Raise e)
    end.
Proof.
  intros Hacc Hping. rewrite receive_split, (prepare_accepted _ _ _ _ _ _ Hacc).
  rewrite Hping. cbn [String.eqb Ascii.eqb Bool.eqb].
  destruct (getitem2 body "hook" "url"); reflexivity.
Qed.

Lemma receive_ping_witness :
  receive tenv_name py_str_plain chat_ok routed_global_plugin
    (json_request "Ping"
       (JObj [("zen", JStr "Keep it logically awesome.");
              ("hook", JObj [("url", JStr "https://api.github.com/hooks/1")])]))
  = ([LogInfo], Ok 204).
Proof.
  apply (receive_ping tenv_name py_str_plain chat_ok routed_global_plugin
           (json_request "Ping"
              (JObj [("zen", JStr "Keep it logically awesome.");
                     ("hook", JObj [("url", JStr "https://api.github.com/hooks/1")])]))
           "Ping"
           (JObj [("zen", JStr "Keep it logically awesome.");
                  ("hook", JObj [("url", JStr "https://api.github.com/hooks/1")])])).
  - repeat split.
  - reflexivity.
Defined.

(** X5. An event that is not global, for a repository the plugin has no
    entry for, is accepted and discarded: 204, nothing sent, and no message
    builder runs, so even a payload lacking the fields of its event does
    not raise. *)
Theorem receive_unknown_repository (tenv : render_call -> string)
    (py_str : json -> string) (c : chat) (st : plugin) (request : request)
    (h : string) (body repo : json) :
  accepted_request request h body ->
  lower h <> "ping" ->
  payload_repo body = Ok repo ->
  get_repo st repo = Ok None ->
  is_global_event (lower h) repo body = false ->
  receive tenv py_str c st request = ([LogInfo], Ok 204).
Proof.
  intros Hacc Hping Hrepo Hget Hglobal.
  rewrite receive_split, (prepare_accepted _ _ _ _ _ _ Hacc).
  destruct (String.eqb_spec (lower h) "ping"); [contradiction|].
  rewrite Hrepo. cbn [bind]. rewrite Hget. cbn [bind]. rewrite Hglobal.
  reflexivity.
Qed.

Lemma receive_unknown_repository_witness :
  receive tenv_name py_str_plain chat_ok routed_global_plugin
    (json_request "push"
       (JObj [("repository", JObj [("full_name", JStr "octo/gadgets")])]))
  = ([LogInfo], Ok 204).
Proof.
  apply (receive_unknown_repository tenv_name py_str_plain chat_ok
           routed_global_plugin
           (json_request "push"
              (JObj [("repository", JObj [("full_name", JStr "octo/gadgets")])]))
           "push"
           (JObj [("repository", JObj [("full_name", JStr "octo/gadgets")])])
           (JStr "octo/gadgets")).
  - repeat split.
  - discriminate.
  - reflexivity.
  - reflexivity.
  - reflexivity.
Defined.

(** X6. A [status] event never produces a message: for a configured
    repository the answer is 204 with nothing sent and nothing logged,
    whatever the payload holds and whatever the routes ask for. *)
Theorem receive_status_is_silent (tenv : render_call -> string)
    (py_str : json -> string) (c : chat) (st : plugin) (request : request)
    (h : string) (body repo : json) (rc : repo_cfg) :
  accepted_request request h body ->
  lower h = "status" ->
  payload_repo body = Ok repo ->
  get_repo st repo = Ok (Some rc) ->
  receive tenv py_str c st request = ([], Ok 204).
Proof.
  intros Hacc Hst Hrepo Hget.
  rewrite receive_split, (prepare_accepted _ _ _ _ _ _ Hacc).
  rewrite Hst. cbn [String.eqb Ascii.eqb Bool.eqb].
  rewrite Hrepo. cbn [bind]. rewrite Hget. reflexivity.
Qed.

Lemma receive_status_is_silent_witness :
  receive tenv_name py_str_plain chat_ok
    (mkPlugin [["*"]]
       (mkConfig 0 [("octo/widgets", mkRepo [("#dev", mkRoute (Some 0))])])
       None)
    (json_request "status"
       (JObj [("repository", JObj [("full_name", JStr "octo/widgets")])]))
  = ([], Ok 204).
Proof.
  apply (receive_status_is_silent tenv_name py_str_plain chat_ok _
           (json_request "status"
              (JObj [("repository", JObj [("full_name", JStr "octo/widgets")])]))
           "status"
           (JObj [("repository", JObj [("full_name", JStr "octo/widgets")])])
           (JStr "octo/widgets") (mkRepo [("#dev", mkRoute (Some 0))])).
  - repeat split.
  - reflexivity.
  - reflexivity.
  - reflexivity.
Defined.

(** X7. [receive] has no handler around the message builders: when the
    builder of the event raises (a field of the payload is missing), the
    exception leaves [receive] before anything is sent or logged. *)
Theorem receive_builder_exception_propagates (tenv : render_call -> string)
    (py_str : json -> string) (c : chat) (st : plugin) (request : request)
    (h : string) (body repo : json) (rc : repo_cfg)
    (f : json -> json -> result message) (e : exn) :
  accepted_request request h body ->
  lower h <> "ping" ->
  payload_repo body = Ok repo ->
  get_repo st repo = Ok (Some rc) ->
  methods tenv py_str ("msg_" ++ lower h) = Some f ->
  f body repo = Raise e ->
  receive tenv py_str c st request = ([], Raise e).
Proof.
  intros Hacc Hping Hrepo Hget Hm Hf.
  rewrite receive_split, (prepare_accepted _ _ _ _ _ _ Hacc).
  destruct (String.eqb_spec (lower h) "ping"); [contradiction|].
  rewrite Hrepo. cbn [bind]. rewrite Hget. cbn [bind andb].
  rewrite Hm, Hf. reflexivity.
Qed.

Lemma receive_builder_exception_propagates_witness :
  receive tenv_name py_str_plain chat_ok default_routed_plugin
    (json_request "push"
       (JObj [("repository", JObj [("full_name", JStr "octo/widgets")])]))
  = ([], Raise KeyError).
Proof.
  apply (receive_builder_exception_propagates tenv_name py_str_plain chat_ok
           default_routed_plugin
           (json_request "push"
              (JObj [("repository", JObj [("full_name", JStr "octo/widgets")])]))
           "push"
           (JObj [("repository", JObj [("full_name", JStr "octo/widgets")])])
           (JStr "octo/widgets") (mkRepo [("#dev", mkRoute (Some 0))])
           (msg_push tenv_name)).
  - repeat split.
  - discriminate.
  - reflexivity.
  - reflexivity.
  - reflexivity.
  - reflexivity.
Defined.

(** X8. A global event for a repository without any entry (or a payload
    without repository) is not discarded: when its builder yields a
    non-empty message and a global route is set, the message is sent to
    the global route, to it alone and once, and the answer is 204. *)
Theorem receive_global_event_unconfigured_repo (tenv : render_call -> string)
    (py_str : json -> string) (c : chat) (st : plugin) (request : request)
    (h : string) (body repo : json)
    (f : json -> json -> result message) (msg g : string) :
  accepted_request request h body ->
  payload_repo body = Ok repo ->
  get_repo st repo = Ok None ->
  is_global_event (lower h) repo body = true ->
  methods tenv py_str ("msg_" ++ lower h) = Some f ->
  f body repo = Ok (Some msg) ->
  msg <> "" ->
  global_route st = Some (Some g) ->
  only_join_fails c ->
  sent_rooms (trace (receive tenv py_str c st request)) = [Some g]
  /\ outcome (receive tenv py_str c st request) = Ok 204.
Proof.
  intros Hacc Hrepo Hget Hglobal Hm Hf Hmsg Hg Hc.
  rewrite receive_split, (prepare_accepted _ _ _ _ _ _ Hacc).
  destruct (String.eqb_spec (lower h) "ping") as [Hp|_].
  { rewrite Hp in Hglobal. discriminate Hglobal. }
  rewrite Hrepo. cbn [bind]. rewrite Hget. cbn [bind]. rewrite Hglobal.
  cbn [negb andb]. rewrite Hm, Hf. cbn [bind].
  unfold dispatch. cbn [message_truthy].
  destruct (String.eqb_spec msg ""); [contradiction|].
  assert (Hroutes : get_routes st repo = Ok []).
  { unfold get_routes, routes_of. unfold get_repo in Hget. now rewrite Hget. }
  rewrite Hroutes, iobind_lift_ok. cbn [deliver]. rewrite iobind_ret.
  change (is_global_event (lower h) repo JNull)
    with (is_global_event (lower h) repo body).
  rewrite Hglobal, Hg, iobind_lift_ok.
  destruct (join_and_send_only_join_fails c (Some g) msg Hc) as [Ho Hs].
  rewrite trace_then_ret, outcome_then_ret, Ho, Hs. now split.
Qed.

Lemma receive_global_event_unconfigured_repo_witness :
  sent_rooms (trace (receive tenv_name py_str_plain chat_ok global_only_plugin
                       fork_request)) = [Some "#ops"]
  /\ outcome (receive tenv_name py_str_plain chat_ok global_only_plugin
                fork_request) = Ok 204.
Proof.
  apply (receive_global_event_unconfigured_repo tenv_name py_str_plain chat_ok
           global_only_plugin fork_request "fork" fork_payload
           (JStr "octo/widgets") (msg_fork tenv_name) "fork.html" "#ops").
  - repeat split.
  - reflexivity.
  - reflexivity.
  - reflexivity.
  - reflexivity.
  - reflexivity.
  - discriminate.
  - reflexivity.
  - exact chat_ok_only_join_fails.
Defined.

(** ** Routes: what a command changes and what it leaves alone *)

Lemma get_events_route_entry (st : plugin) (repo room : string) :
  get_events st (JStr repo) room
  = Ok match route_entry st repo room with
       | Some rt => events rt
       | None => None
       end.
Proof.
  unfold get_events, routes_of, dict_get, route_entry. cbn [bind].
  destruct (lookup repo (repositories (cfg st))); reflexivity.
Qed.

Lemma route_entry_set (st : plugin) (repo room : string) (rt : route_cfg)
    (rs : odict route_cfg) (h : list (list string)) (d : ref)
    (g : option (option string)) (repo' room' : string) :
  (forall room', room' <> room ->
     lookup room' rs = match lookup repo (repositories (cfg st)) with
                       | Some rc => lookup room' (routes rc)
                       | None => None
                       end) ->
  route_entry
    (mkPlugin h
       (mkConfig d (set repo (mkRepo (set room rt rs)) (repositories (cfg st))))
       g) repo' room'
  = if String.eqb repo' repo && String.eqb room' room then Some rt
    else route_entry st repo' room'.
Proof.
  intros Hrs. unfold route_entry. cbn [cfg repositories].
  destruct (String.eqb_spec repo' repo) as [->|Hrepo]; cbn [andb].
  - rewrite lookup_set_same. cbn [routes].
    destruct (String.eqb_spec room' room) as [->|Hroom].
    + apply lookup_set_same.
    + rewrite lookup_set_other by assumption. now apply Hrs.
  - now rewrite lookup_set_other.
Qed.

Lemma route_entry_set_route (st : plugin) (repo room repo' room' : string) :
  route_entry (set_route st repo room) repo' room'
  = if String.eqb repo' repo && String.eqb room' room
    then Some (mkRoute None)
    else route_entry st repo' room'.
Proof.
  unfold set_route, with_cfg.
  destruct (lookup repo (repositories (cfg st))) as [rc|] eqn:E.
  - rewrite E. apply route_entry_set. intros r _. now rewrite E.
  - rewrite lookup_set_same. cbn [routes].
    unfold route_entry. cbn [cfg repositories].
    destruct (String.eqb_spec repo' repo) as [->|Hrepo]; cbn [andb].
    + rewrite lookup_set_same. cbn [routes lookup set].
      rewrite E. destruct (String.eqb room' room); reflexivity.
    + now rewrite !lookup_set_other.
Qed.

Lemma route_entry_set_events (st st' : plugin) (repo room : string) (r : ref)
    (repo' room' : string) :
  set_events st repo room r = Ok st' ->
  route_entry st' repo' room'
  = if String.eqb repo' repo && String.eqb room' room
    then Some (mkRoute (Some r))
    else route_entry st repo' room'.
Proof.
  unfold set_events, with_cfg.
  destruct (lookup repo (repositories (cfg st))) as [rc|] eqn:E;
    [|discriminate].
  destruct (lookup room (routes rc)); [|discriminate].
  intros H. apply Ok_inj in H. subst st'.
  apply route_entry_set. intros r' _. now rewrite E.
Qed.

Lemma route_entry_ensure_route (st : plugin) (repo room repo' room' : string) :
  String.eqb repo' repo && String.eqb room' room = false ->
  route_entry (ensure_route st repo room) repo' room'
  = route_entry st repo' room'.
Proof.
  intros Hne. unfold ensure_route.
  destruct (has_route st (JStr repo) room) as [[|]|]; try reflexivity;
    now rewrite route_entry_set_route, Hne.
Qed.

(** What [github_route] does to the table, whatever its arguments: it
    completes, the route asked for holds one event list, every other route
    is as before, and the heap only grows. *)
Lemma github_route_table (st : plugin) (repo room : string)
    (evs : list string) :
  exists out st' r ext,
    github_route st (repo :: room :: evs) = Ok (out, st')
    /\ heap st' = (heap st ++ ext)%list
    /\ default_events (cfg st') = default_events (cfg st)
    /\ global_route st' = global_route st
    /\ (ext = [] /\ evs = [] /\ r = default_events (cfg st)
        \/ ext = [filter known evs] /\ evs <> []
           /\ r = List.length (heap st))
    /\ forall repo' room',
         route_entry st' repo' room'
         = if String.eqb repo' repo && String.eqb room' room
           then Some (mkRoute (Some r))
           else route_entry st repo' room'.
Proof.
  rewrite github_route_unfold. cbv zeta.
  destruct (ensure_route_present st repo room)
    as (Hh & Hd & Hg & rc & rt & Hrepo & Hroom).
  destruct evs as [|e evs].
  - destruct (set_events_present _ repo room
                (get_defaults (ensure_route st repo room)) _ _ Hrepo Hroom)
      as (st' & Hset & Hh' & Hd' & Hg' & _).
    rewrite Hset. cbn [bind]. unfold get_defaults in *. rewrite Hd in *.
    do 2 eexists. exists (default_events (cfg st)), [].
    split; [reflexivity|]. rewrite app_nil_r.
    split; [congruence|].
    split; [congruence|]. split; [congruence|]. split; [now left|].
    intros repo' room'. rewrite (route_entry_set_events _ _ _ _ _ _ _ Hset).
    destruct (String.eqb repo' repo && String.eqb room' room) eqn:Eb;
      [reflexivity|]. now apply route_entry_ensure_route.
  - rewrite route_loop_spec. unfold alloc.
    set (st2 := mkPlugin _ _ _).
    destruct (set_events_present st2 repo room
                (List.length (heap (ensure_route st repo room))) rc rt
                Hrepo Hroom)
      as (st' & Hset & Hh' & Hd' & Hg' & _).
    rewrite Hset. cbn [bind]. subst st2. cbn [heap cfg global_route] in *.
    rewrite Hh in *.
    do 2 eexists. exists (List.length (heap st)), [filter known (e :: evs)].
    split; [reflexivity|]. split; [assumption|].
    split; [congruence|]. split; [congruence|].
    split; [right; repeat split; discriminate|].
    intros repo' room'. rewrite (route_entry_set_events _ _ _ _ _ _ _ Hset).
    destruct (String.eqb repo' repo && String.eqb room' room) eqn:Eb;
      [reflexivity|].
    change (route_entry (ensure_route st repo room) repo' room'
            = route_entry st repo' room').
    now apply route_entry_ensure_route.
Qed.

(** X9. [github_route] with an event list never fails, whatever the
    state: removing from the list while walking a copy of it leaves
    exactly the known events, in the order given and with their
    repetitions; each unknown event is reported once per occurrence,
    before the final reply; and the route then holds that list. *)
Theorem github_route_stores_known_events (st : plugin) (repo room e : string)
    (evs : list string) :
  exists st' r,
    github_route st (repo :: room :: e :: evs)
    = Ok ((map EVENT_UNKNOWN (filter unknown (e :: evs))
           ++ [done_route repo room (filter known (e :: evs))])%list, st')
    /\ get_events st' (JStr repo) room = Ok (Some r)
    /\ deref st' r = filter known (e :: evs)
    /\ (forall x, In x (deref st' r) -> In x GITHUB_EVENTS).
Proof.
  destruct (github_route_explicit st repo room e evs)
    as (st' & Hrun & Hheap & _ & _ & Hev).
  exists st', (List.length (heap st)).
  assert (Hd : deref st' (List.length (heap st)) = filter known (e :: evs))
    by (unfold deref; rewrite Hheap; apply nth_middle).
  repeat (split; [assumption|]).
  intros x. rewrite Hd. intros Hx. apply filter_In in Hx as [_ Hx].
  now apply mem_In.
Qed.

(** X10. [github_route] touches one route only: every other route of
    every repository keeps its event list, the lists already stored keep
    their contents, and the defaults and the global route are as before.
    This holds whether the route is new or replaced, with or without an
    event list. *)
Theorem github_route_frame (st : plugin) (repo room : string)
    (evs : list string) :
  exists out st',
    github_route st (repo :: room :: evs) = Ok (out, st')
    /\ (forall repo' room',
          repo' <> repo \/ room' <> room ->
          get_events st' (JStr repo') room' = get_events st (JStr repo') room')
    /\ (forall r, r < List.length (heap st) -> deref st' r = deref st r)
    /\ get_defaults st' = get_defaults st
    /\ global_route st' = global_route st.
Proof.
  destruct (github_route_table st repo room evs)
    as (out & st' & r & ext & Hrun & Hheap & Hd & Hg & _ & Hentry).
  exists out, st'. split; [assumption|]. split; [|split; [|now split]].
  - intros repo' room' Hne. rewrite !get_events_route_entry, Hentry.
    destruct (String.eqb_spec repo' repo), (String.eqb_spec room' room);
      cbn [andb]; try reflexivity.
    destruct Hne; contradiction.
  - intros r' Hr'. now apply (deref_extend st st' ext).
Qed.

Lemma In_keys_lookup {V} (k : string) (d : odict V) :
  In k (keys d) -> exists v, lookup k d = Some v.
Proof.
  induction d as [|[k' v'] d IH]; simpl; [tauto|].
  destruct (String.eqb_spec k k'); [eauto|].
  intros [E|HIn]; [congruence | auto].
Qed.

(** On a transport where only [join] may fail, the loop serves exactly the
    listed rooms whose route takes the event, in order. *)
Lemma deliver_resolve (c : chat) (st : plugin) (repo event_type msg : string)
    (rooms : list string) :
  only_join_fails c ->
  (forall room, In room rooms ->
     exists rt r, route_entry st repo room = Some rt /\ events rt = Some r) ->
  sent_rooms (trace (deliver c st (JStr repo) event_type msg rooms))
  = map Some
      (filter (fun room =>
                 match route_entry st repo room with
                 | Some (mkRoute (Some r)) =>
                     mem event_type (deref st r) || mem "*" (deref st r)
                 | _ => false
                 end) rooms)
  /\ outcome (deliver c st (JStr repo) event_type msg rooms) = Ok tt.
Proof.
  intros Hc. induction rooms as [|room rooms IH]; intros Hall;
    [split; reflexivity|].
  destruct (Hall room (or_introl eq_refl)) as (rt & r & Hentry & Hev).
  destruct IH as [IHs IHo]; [intros; apply Hall; now right|].
  assert (He : get_events st (JStr repo) room = Ok (Some r))
    by (rewrite get_events_route_entry, Hentry; now f_equal).
  rewrite (deliver_cons c st (JStr repo) event_type msg room rooms (Some r)
             _ He eq_refl).
  cbn [filter]. rewrite Hentry. destruct rt as [ev]. cbn [events] in Hev.
  subst ev.
  destruct (mem event_type (deref st r) || mem "*" (deref st r)).
  - destruct (join_and_send_only_join_fails c (Some room) msg Hc) as [Ho Hs].
    rewrite (iobind_ok _ _ tt Ho). cbn [trace outcome fst snd].
    rewrite sent_rooms_app, Hs. cbn [map app]. split; [now f_equal|assumption].
  - rewrite iobind_ret. now split.
Qed.

(** X11. Routing of an event that is not global.  When every route of the
    repository has an event list and only [join] can fail, the message is
    sent to exactly the rooms whose list holds the event type or the
    wildcard, once each, in the order the routes were created, and the
    answer is 204. *)
Theorem receive_sends_to_resolved_rooms (tenv : render_call -> string)
    (py_str : json -> string) (c : chat) (st : plugin) (request : request)
    (h repo : string) (body : json) (rc : repo_cfg)
    (f : json -> json -> result message) (msg : string) :
  accepted_request request h body ->
  lower h <> "ping" ->
  payload_repo body = Ok (JStr repo) ->
  lookup repo (repositories (cfg st)) = Some rc ->
  routes_complete st ->
  is_global_event (lower h) JNull JNull = false ->
  methods tenv py_str ("msg_" ++ lower h) = Some f ->
  f body (JStr repo) = Ok (Some msg) ->
  msg <> "" ->
  only_join_fails c ->
  sent_rooms (trace (receive tenv py_str c st request))
  = map Some (resolve st repo (lower h))
  /\ outcome (receive tenv py_str c st request) = Ok 204.
Proof.
  intros Hacc Hping Hrepo Hrc Hcomplete Hglobal Hm Hf Hmsg Hc.
  rewrite receive_split, (prepare_accepted _ _ _ _ _ _ Hacc).
  destruct (String.eqb_spec (lower h) "ping"); [contradiction|].
  rewrite Hrepo. cbn [bind]. unfold get_repo, dict_get. rewrite Hrc.
  cbn [bind andb]. rewrite Hm, Hf. cbn [bind].
  unfold dispatch. cbn [message_truthy].
  destruct (String.eqb_spec msg ""); [contradiction|].
  unfold get_routes, routes_of, dict_get. rewrite Hrc. cbn [bind].
  rewrite iobind_lift_ok.
  change (is_global_event (lower h) (JStr repo) JNull)
    with (is_global_event (lower h) JNull JNull).
  rewrite Hglobal.
  destruct (deliver_resolve c st repo (lower h) msg (keys (routes rc)) Hc)
    as [Hs Ho].
  { intros room HIn. apply In_keys_lookup in HIn as [rt Hrt].
    assert (Hentry : route_entry st repo room = Some rt)
      by (unfold route_entry; now rewrite Hrc).
    destruct (Hcomplete _ _ _ Hentry) as [r Hr]. eauto. }
  rewrite trace_then_ret, outcome_then_ret.
  rewrite (iobind_ok _ _ tt Ho). cbn [trace outcome fst snd].
  rewrite sent_rooms_app, Hs. cbn [sent_rooms]. rewrite app_nil_r.
  unfold resolve. rewrite Hrc. now split.
Qed.

Lemma receive_sends_to_resolved_rooms_witness :
  sent_rooms (trace (receive tenv_name py_str_plain chat_join_fails
                       three_rooms_plugin push_request))
  = [Some "#dev"; Some "#all"]
  /\ outcome (receive tenv_name py_str_plain chat_join_fails
                three_rooms_plugin push_request) = Ok 204.
Proof.
  apply (receive_sends_to_resolved_rooms tenv_name py_str_plain chat_join_fails
           three_rooms_plugin push_request "push" "octo/widgets" push_payload
           (mkRepo [("#dev", mkRoute (Some 1)); ("#all", mkRoute (Some 2));
                    ("#issues", mkRoute (Some 3))])
           (msg_push tenv_name) "push.html").
  - repeat split.
  - discriminate.
  - reflexivity.
  - reflexivity.
  - intros repo room rt. unfold route_entry. simpl.
    destruct (String.eqb repo "octo/widgets"); [|discriminate].
    simpl. destruct (String.eqb room "#dev").
    { intros E. injection E as <-. now exists 1. }
    destruct (String.eqb room "#all").
    { intros E. injection E as <-. now exists 2. }
    destruct (String.eqb room "#issues"); [|discriminate].
    intros E. injection E as <-. now exists 3.
  - reflexivity.
  - reflexivity.
  - reflexivity.
  - discriminate.
  - repeat split; intros; try reflexivity.
    destruct room as [r|]; simpl; [|now left].
    destruct (String.eqb r "#a"); [now right | now left].
Defined.

(** ** Removing routes and repositories *)

Lemma lookup_pop_same {V} (k : string) (d : odict V) :
  NoDup (keys d) -> lookup k (pop k d) = None.
Proof.
  induction d as [|[k' v'] d IH]; simpl; [reflexivity|].
  intros H. inversion H as [|? ? Hnin Hd]; subst.
  destruct (String.eqb_spec k k') as [->|Hne].
  - destruct (lookup k' d) eqn:E; [|reflexivity].
    exfalso. apply Hnin. clear - E.
    induction d as [|[k v0] d IH]; simpl in *; [discriminate|].
    destruct (String.eqb_spec k' k); [now left | right; now apply IH].
  - simpl. destruct (String.eqb_spec k k'); [contradiction | now apply IH].
Qed.

Lemma lookup_pop_neq {V} (k k0 : string) (d : odict V) :
  k0 <> k -> lookup k0 (pop k d) = lookup k0 d.
Proof.
  intros Hne. induction d as [|[k' v'] d IH]; simpl; [reflexivity|].
  destruct (String.eqb_spec k k') as [->|Hk].
  - destruct (String.eqb_spec k0 k'); [contradiction | reflexivity].
  - simpl. now rewrite IH.
Qed.

Lemma route_entry_clear_route (st : plugin) (repo room repo' room' : string) :
  routes_distinct st ->
  route_entry (clear_route st repo room) repo' room'
  = if String.eqb repo' repo && String.eqb room' room then None
    else route_entry st repo' room'.
Proof.
  intros Hwf. unfold clear_route, with_cfg, route_entry.
  destruct (lookup repo (repositories (cfg st))) as [rc|] eqn:E.
  - destruct (lookup room (routes rc)) as [rt|] eqn:Er.
    + cbn [cfg repositories].
      destruct (String.eqb_spec repo' repo) as [->|Hrepo]; cbn [andb].
      * rewrite lookup_set_same, E. cbn [routes].
        destruct (String.eqb_spec room' room) as [->|Hroom].
        -- apply lookup_pop_same. now apply (Hwf repo).
        -- now apply lookup_pop_neq.
      * now rewrite lookup_set_other.
    + destruct (String.eqb_spec repo' repo) as [->|]; cbn [andb];
        [|reflexivity].
      rewrite E. destruct (String.eqb_spec room' room) as [->|]; congruence.
  - destruct (String.eqb_spec repo' repo) as [->|]; cbn [andb]; [|reflexivity].
    rewrite E. destruct (String.eqb room' room); reflexivity.
Qed.

Lemma lookup_clear_repo (st : plugin) (repo repo' : string) :
  NoDup (keys (repositories (cfg st))) ->
  lookup repo' (repositories (cfg (clear_repo st repo)))
  = if String.eqb repo' repo then None
    else lookup repo' (repositories (cfg st)).
Proof.
  intros Hnd. unfold clear_repo, with_cfg.
  destruct (lookup repo (repositories (cfg st))) eqn:E; cbn [cfg repositories].
  - destruct (String.eqb_spec repo' repo) as [->|Hne].
    + now apply lookup_pop_same.
    + now apply lookup_pop_neq.
  - destruct (String.eqb_spec repo' repo) as [->|]; congruence.
Qed.

Lemma lookup_clear_route (st : plugin) (repo room repo' : string) :
  repo' <> repo ->
  lookup repo' (repositories (cfg (clear_route st repo room)))
  = lookup repo' (repositories (cfg st)).
Proof.
  intros Hne. unfold clear_route, with_cfg.
  destruct (lookup repo (repositories (cfg st))) as [rc|]; [|reflexivity].
  destruct (lookup room (routes rc)); [|reflexivity].
  cbn [cfg repositories]. now apply lookup_set_other.
Qed.

Lemma NoDup_repos_clear_route (st : plugin) (repo room : string) :
  NoDup (keys (repositories (cfg st))) ->
  NoDup (keys (repositories (cfg (clear_route st repo room)))).
Proof.
  intros Hnd. unfold clear_route, with_cfg.
  destruct (lookup repo (repositories (cfg st))) as [rc|]; [|assumption].
  destruct (lookup room (routes rc)); [|assumption].
  cbn [cfg repositories]. now apply NoDup_keys_set.
Qed.

Lemma NoDup_repos_clear_repo (st : plugin) (repo : string) :
  NoDup (keys (repositories (cfg st))) ->
  NoDup (keys (repositories (cfg (clear_repo st repo)))).
Proof.
  intros Hnd. unfold clear_repo, with_cfg.
  destruct (lookup repo (repositories (cfg st))); [|assumption].
  cbn [cfg repositories]. now apply NoDup_keys_pop.
Qed.

Lemma keys_nil_lookup {V} (d : odict V) (k : string) :
  keys d = [] -> lookup k d = None.
Proof. destruct d; [reflexivity | discriminate]. Qed.

(** The state [github_remove] leaves for [repo room]. *)
Lemma github_remove_route_state (st : plugin) (repo room : string) :
  exists out st',
    github_remove st [repo; room] = Ok (out, st')
    /\ let st1 := clear_route st repo room in
       (st' = st1
        /\ (exists rc, lookup repo (repositories (cfg st1)) = Some rc
                       /\ routes rc <> [])
        \/ st' = clear_repo st1 repo
           /\ forall room', route_entry st1 repo room' = None).
Proof.
  unfold github_remove. cbv zeta.
  unfold get_routes, routes_of, dict_get. cbn [bind].
  destruct (lookup repo (repositories (cfg (clear_route st repo room))))
    as [rc|] eqn:E.
  - destruct (keys (routes rc)) as [|k ks] eqn:Ek.
    + do 2 eexists. split; [reflexivity|]. right. split; [reflexivity|].
      intros room'. unfold route_entry. rewrite E.
      now apply keys_nil_lookup.
    + do 2 eexists. split; [reflexivity|]. left. split; [reflexivity|].
      exists rc. split; [reflexivity|]. intros Hnil. now rewrite Hnil in Ek.
  - cbn [keys map]. do 2 eexists. split; [reflexivity|]. right.
    split; [reflexivity|]. intros room'. unfold route_entry. now rewrite E.
Qed.

Lemma route_entry_clear_repo (st : plugin) (repo repo' room' : string) :
  NoDup (keys (repositories (cfg st))) ->
  route_entry (clear_repo st repo) repo' room'
  = if String.eqb repo' repo then None else route_entry st repo' room'.
Proof.
  intros Hnd. unfold route_entry. rewrite lookup_clear_repo by assumption.
  destruct (String.eqb repo' repo); reflexivity.
Qed.

(** What [github_remove repo room] does to the table. *)
Lemma github_remove_route_table (st : plugin) (repo room : string) :
  NoDup (keys (repositories (cfg st))) ->
  routes_distinct st ->
  exists out st',
    github_remove st [repo; room] = Ok (out, st')
    /\ (forall repo' room',
          route_entry st' repo' room'
          = if String.eqb repo' repo && String.eqb room' room then None
            else route_entry st repo' room')
    /\ (get_repo st' (JStr repo) = Ok None
        <-> forall room', room' <> room -> route_entry st repo room' = None)
    /\ heap st' = heap st
    /\ get_defaults st' = get_defaults st
    /\ global_route st' = global_route st.
Proof.
  intros Hnd Hwf.
  destruct (github_remove_route_state st repo room)
    as (out & st' & Hrun & Hst). cbv zeta in Hst.
  exists out, st'. split; [assumption|].
  assert (Hnd1 := NoDup_repos_clear_route st repo room Hnd).
  assert (Heq := fun repo' room' =>
                   route_entry_clear_route st repo room repo' room' Hwf).
  assert (Hother : forall room', room' <> room ->
            route_entry (clear_route st repo room) repo room'
            = route_entry st repo room').
  { intros room' Hne. rewrite Heq, String.eqb_refl. cbn [andb].
    now destruct (String.eqb_spec room' room). }
  assert (Hframe : heap (clear_route st repo room) = heap st
                   /\ get_defaults (clear_route st repo room) = get_defaults st
                   /\ global_route (clear_route st repo room) = global_route st).
  { unfold clear_route.
    destruct (lookup repo (repositories (cfg st))) as [rc|]; [|now repeat split].
    destruct (lookup room (routes rc)); now repeat split. }
  destruct Hst as [[-> (rc & Hrc & Hne)] | [-> Hnone]].
  - split; [exact Heq|]. split; [|exact Hframe].
    unfold get_repo, dict_get. rewrite Hrc. split; [discriminate|].
    intros Hall. exfalso.
    destruct (routes rc) as [|[k v] rs] eqn:Ers; [now apply Hne|].
    assert (Hk : route_entry (clear_route st repo room) repo k = Some v).
    { unfold route_entry. rewrite Hrc, Ers. cbn. now rewrite String.eqb_refl. }
    destruct (String.eqb_spec k room) as [->|Hkr].
    + rewrite Heq, !String.eqb_refl in Hk. discriminate.
    + rewrite (Hother k Hkr), (Hall k Hkr) in Hk. discriminate.
  - split.
    { intros repo' room'. rewrite route_entry_clear_repo by assumption.
      destruct (String.eqb_spec repo' repo) as [->|Hrepo]; cbn [andb].
      - destruct (String.eqb_spec room' room) as [->|Hroom]; [reflexivity|].
        now rewrite <- (Hother room' Hroom), Hnone.
      - rewrite Heq. destruct (String.eqb_spec repo' repo);
          [contradiction|reflexivity]. }
    split.
    { unfold get_repo, dict_get. rewrite lookup_clear_repo by assumption.
      rewrite String.eqb_refl. split; [|reflexivity].
      intros _ room' Hroom. now rewrite <- (Hother room' Hroom), Hnone. }
    unfold clear_repo.
    destruct (lookup repo (repositories (cfg (clear_route st repo room))));
      exact Hframe.
Qed.

(** X12. [github_remove repo room] deletes exactly that route: afterwards
    the route is gone, every other route of every repository is as it
    was, and the repository itself is gone exactly when it had no other
    route.  The defaults, the stored lists and the global route are
    untouched. *)
Theorem github_remove_route_exact (st : plugin) (repo room : string) :
  NoDup (keys (repositories (cfg st))) ->
  routes_distinct st ->
  exists out st',
    github_remove st [repo; room] = Ok (out, st')
    /\ (forall repo' room',
          route_entry st' repo' room'
          = if String.eqb repo' repo && String.eqb room' room then None
            else route_entry st repo' room')
    /\ (get_repo st' (JStr repo) = Ok None
        <-> forall room', room' <> room -> route_entry st repo room' = None)
    /\ heap st' = heap st
    /\ get_defaults st' = get_defaults st
    /\ global_route st' = global_route st.
Proof. exact (github_remove_route_table st repo room). Qed.

Lemma github_remove_route_exact_witness :
  exists out st',
    github_remove three_rooms_plugin ["octo/widgets"; "#all"] = Ok (out, st')
    /\ (forall repo' room',
          route_entry st' repo' room'
          = if String.eqb repo' "octo/widgets" && String.eqb room' "#all"
            then None
            else route_entry three_rooms_plugin repo' room')
    /\ (get_repo st' (JStr "octo/widgets") = Ok None
        <-> forall room', room' <> "#all" ->
                          route_entry three_rooms_plugin "octo/widgets" room'
                          = None)
    /\ heap st' = heap three_rooms_plugin
    /\ get_defaults st' = get_defaults three_rooms_plugin
    /\ global_route st' = global_route three_rooms_plugin.
Proof.
  apply (github_remove_route_exact three_rooms_plugin "octo/widgets" "#all").
  - simpl. repeat constructor. simpl. tauto.
  - intros repo rc. simpl. destruct (String.eqb repo "octo/widgets").
    + intros E. injection E as <-. simpl.
      repeat constructor; simpl; intuition discriminate.
    + discriminate.
Defined.

(** What [github_remove repo] does to the table. *)
Lemma github_remove_repo_table (st : plugin) (repo : string) :
  NoDup (keys (repositories (cfg st))) ->
  github_remove st [repo]
  = Ok (["Removed all configuration for " ++ repo ++ "."], clear_repo st repo)
  /\ (forall repo' room',
        route_entry (clear_repo st repo) repo' room'
        = if String.eqb repo' repo then None else route_entry st repo' room')
  /\ get_repo (clear_repo st repo) (JStr repo) = Ok None
  /\ (get_repo st (JStr repo) = Ok None -> clear_repo st repo = st)
  /\ heap (clear_repo st repo) = heap st
  /\ get_defaults (clear_repo st repo) = get_defaults st
  /\ global_route (clear_repo st repo) = global_route st.
Proof.
  intros Hnd. split; [reflexivity|].
  split; [intros; now apply route_entry_clear_repo|].
  split.
  { unfold get_repo, dict_get. rewrite lookup_clear_repo by assumption.
    now rewrite String.eqb_refl. }
  unfold get_repo, dict_get, clear_repo.
  destruct (lookup repo (repositories (cfg st))); repeat split.
  intros H. discriminate H.
Qed.

(** X13. [github_remove repo] deletes the repository with all its routes
    and nothing else, and answers that it did whether or not the
    repository was known; an unknown repository leaves the state as it
    is. *)
Theorem github_remove_repo_exact (st : plugin) (repo : string) :
  NoDup (keys (repositories (cfg st))) ->
  github_remove st [repo]
  = Ok (["Removed all configuration for " ++ repo ++ "."], clear_repo st repo)
  /\ (forall repo' room',
        route_entry (clear_repo st repo) repo' room'
        = if String.eqb repo' repo then None else route_entry st repo' room')
  /\ get_repo (clear_repo st repo) (JStr repo) = Ok None
  /\ (get_repo st (JStr repo) = Ok None -> clear_repo st repo = st)
  /\ heap (clear_repo st repo) = heap st
  /\ get_defaults (clear_repo st repo) = get_defaults st
  /\ global_route (clear_repo st repo) = global_route st.
Proof. exact (github_remove_repo_table st repo). Qed.

Lemma github_remove_repo_exact_witness :
  github_remove three_rooms_plugin ["octo/widgets"]
  = Ok (["Removed all configuration for octo/widgets."],
        clear_repo three_rooms_plugin "octo/widgets")
  /\ (forall repo' room',
        route_entry (clear_repo three_rooms_plugin "octo/widgets") repo' room'
        = if String.eqb repo' "octo/widgets" then None
          else route_entry three_rooms_plugin repo' room')
  /\ get_repo (clear_repo three_rooms_plugin "octo/widgets")
       (JStr "octo/widgets") = Ok None
  /\ (get_repo three_rooms_plugin (JStr "octo/widgets") = Ok None ->
      clear_repo three_rooms_plugin "octo/widgets" = three_rooms_plugin)
  /\ heap (clear_repo three_rooms_plugin "octo/widgets")
     = heap three_rooms_plugin
  /\ get_defaults (clear_repo three_rooms_plugin "octo/widgets")
     = get_defaults three_rooms_plugin
  /\ global_route (clear_repo three_rooms_plugin "octo/widgets")
     = global_route three_rooms_plugin.
Proof.
  apply (github_remove_repo_exact three_rooms_plugin "octo/widgets").
  simpl. repeat constructor. simpl. tauto.
Defined.

(** ** The defaults command *)

Lemma github_defaults_set (st : plugin) (a : string) (args : list string) :
  github_defaults st (a :: args)
  = ((map EVENT_UNKNOWN (filter unknown (a :: args))
      ++ [done_defaults (filter known (a :: args))])%list,
     mkPlugin (heap st ++ [filter known (a :: args)])
       (mkConfig (List.length (heap st)) (repositories (cfg st)))
       (global_route st)).
Proof.
  unfold github_defaults. rewrite defaults_loop_filter. reflexivity.
Qed.

(** X14. The [defaults] command with arguments keeps the known events, in
    order, and reports the others; from then on a route created without an
    event list receives exactly those events, and routes that exist keep
    theirs.  With unknown events only, new routes get the empty list. *)
Theorem github_defaults_then_route (st : plugin) (a repo room : string)
    (args : list string) :
  exists st1 out st2 r,
    github_defaults st (a :: args)
    = ((map EVENT_UNKNOWN (filter unknown (a :: args))
        ++ [done_defaults (filter known (a :: args))])%list, st1)
    /\ deref st1 (get_defaults st1) = filter known (a :: args)
    /\ (forall repo' room',
          get_events st1 (JStr repo') room' = get_events st (JStr repo') room')
    /\ github_route st1 [repo; room] = Ok (out, st2)
    /\ get_events st2 (JStr repo) room = Ok (Some r)
    /\ deref st2 r = filter known (a :: args).
Proof.
  rewrite github_defaults_set. eexists.
  set (st1 := mkPlugin _ _ _).
  destruct (github_route_default st1 repo room)
    as (st2 & Hrun & Hheap & _ & _ & Hev).
  assert (Hd : deref st1 (get_defaults st1) = filter known (a :: args))
    by (unfold deref; apply nth_middle).
  exists [done_route repo room (deref st1 (default_events (cfg st1)))], st2,
         (default_events (cfg st1)).
  split; [reflexivity|]. split; [exact Hd|]. split; [reflexivity|].
  split; [exact Hrun|]. split; [exact Hev|].
  unfold deref in *. now rewrite Hheap.
Qed.

(** ** The shape of the configuration is kept by every command *)

Lemma set_not_nil {V} (k : string) (v : V) (d : odict V) : set k v d <> [].
Proof.
  destruct d as [|[k' v'] d]; simpl; [discriminate|].
  destruct (String.eqb k k'); discriminate.
Qed.

Lemma set_events_repositories (st st' : plugin) (repo room : string) (r : ref) :
  set_events st repo room r = Ok st' ->
  exists rc,
    lookup repo (repositories (cfg st)) = Some rc
    /\ repositories (cfg st')
       = set repo (mkRepo (set room (mkRoute (Some r)) (routes rc)))
           (repositories (cfg st)).
Proof.
  unfold set_events, with_cfg.
  destruct (lookup repo (repositories (cfg st))) as [rc|]; [|discriminate].
  destruct (lookup room (routes rc)); [|discriminate].
  intros H. apply Ok_inj in H. subst st'. now exists rc.
Qed.

Lemma set_route_repositories (st : plugin) (repo room : string) :
  (NoDup (keys (repositories (cfg st))) ->
   NoDup (keys (repositories (cfg (set_route st repo room)))))
  /\ forall repo', repo' <> repo ->
       lookup repo' (repositories (cfg (set_route st repo room)))
       = lookup repo' (repositories (cfg st)).
Proof.
  unfold set_route, with_cfg. cbn [cfg repositories]. split.
  - intros Hnd. apply NoDup_keys_set.
    destruct (lookup repo (repositories (cfg st)));
      [assumption | now apply NoDup_keys_set].
  - intros repo' Hne. rewrite lookup_set_other by assumption.
    destruct (lookup repo (repositories (cfg st)));
      [reflexivity | now apply lookup_set_other].
Qed.

Lemma ensure_route_repositories (st : plugin) (repo room : string) :
  (NoDup (keys (repositories (cfg st))) ->
   NoDup (keys (repositories (cfg (ensure_route st repo room)))))
  /\ forall repo', repo' <> repo ->
       lookup repo' (repositories (cfg (ensure_route st repo room)))
       = lookup repo' (repositories (cfg st)).
Proof.
  unfold ensure_route.
  destruct (has_route st (JStr repo) room) as [[|]|];
    try apply set_route_repositories.
  split; [trivial | reflexivity].
Qed.

Lemma github_route_steps (st st' : plugin) (repo room : string)
    (evs out : list string) :
  github_route st (repo :: room :: evs) = Ok (out, st') ->
  exists st2 r,
    cfg st2 = cfg (ensure_route st repo room)
    /\ set_events st2 repo room r = Ok st'.
Proof.
  rewrite github_route_unfold. cbv zeta. destruct evs as [|e evs].
  - destruct (set_events (ensure_route st repo room) repo room _) as [st3|]
      eqn:E; [|discriminate].
    cbn [bind]. intros H. apply Ok_inj in H. injection H as _ <-. eauto.
  - destruct (route_loop (e :: evs) (e :: evs) []) as [evs' out'].
    unfold alloc.
    match goal with
    | |- context [set_events ?s repo room ?r] =>
        destruct (set_events s repo room r) as [st3|] eqn:E; [|discriminate];
        cbn [bind]; intros H; apply Ok_inj in H; injection H as _ <-;
        exists s, r; split; [reflexivity | exact E]
    end.
Qed.

Lemma Forall_known_filter (evs : list string) :
  Forall (fun e => In e GITHUB_EVENTS) (filter known evs).
Proof.
  apply Forall_forall. intros x Hx. apply filter_In in Hx as [_ Hx].
  now apply mem_In.
Qed.

Lemma well_formed_github_route (st st' : plugin) (args out : list string) :
  well_formed st -> github_route st args = Ok (out, st') -> well_formed st'.
Proof.
  intros Hwf Hrun.
  destruct args as [|repo [|room evs]];
    try (apply Ok_inj in Hrun; injection Hrun as _ <-; assumption).
  destruct Hwf as (Hnd & Hrooms & Hne & Hev & Hdef & Hknown).
  destruct (github_route_steps _ _ _ _ _ _ Hrun) as (st2 & r2 & Hcfg & Hset).
  destruct (set_events_repositories _ _ _ _ _ Hset) as (rc & Hrc & Hrepos).
  rewrite Hcfg in Hrc, Hrepos.
  destruct (ensure_route_repositories st repo room) as [Hnd1 Hother].
  destruct (github_route_table st repo room evs)
    as (out' & st'' & r & ext & Hrun' & Hheap & Hd & Hg & Hext & Hentry).
  rewrite Hrun in Hrun'. apply Ok_inj in Hrun'. injection Hrun' as -> <-.
  unfold well_formed, defaults_allocated in *.
  assert (Hr : r < List.length (heap st')).
  { rewrite Hheap, length_app.
    destruct Hext as [(-> & _ & ->) | (-> & _ & ->)]; cbn; lia. }
  repeat split.
  - rewrite Hrepos. now apply NoDup_keys_set, Hnd1.
  - eapply github_route_distinct; eauto.
  - intros repo' rc'. rewrite Hrepos.
    destruct (String.eqb_spec repo' repo) as [->|Hrepo].
    + rewrite lookup_set_same. intros E. injection E as <-. apply set_not_nil.
    + rewrite lookup_set_other, Hother by assumption. apply Hne.
  - intros repo' room' rt. rewrite Hentry.
    destruct (String.eqb repo' repo && String.eqb room' room).
    + intros E. injection E as <-. now exists r.
    + intros E. destruct (Hev _ _ _ E) as (r' & Hr' & Hlt).
      exists r'. split; [assumption|]. rewrite Hheap, length_app. lia.
  - rewrite Hd, Hheap, length_app. lia.
  - rewrite Hheap. apply Forall_app. split; [assumption|].
    destruct Hext as [(-> & _) | (-> & _)]; repeat constructor.
    apply Forall_known_filter.
Qed.

Lemma well_formed_github_defaults (st : plugin) (args : list string) :
  well_formed st -> well_formed (snd (github_defaults st args)).
Proof.
  intros Hwf. destruct args as [|a args]; [assumption|].
  rewrite github_defaults_set. cbn [snd].
  destruct Hwf as (Hnd & Hrooms & Hne & Hev & Hdef & Hknown).
  unfold well_formed, defaults_allocated, route_entry, routes_distinct in *.
  cbn [cfg repositories heap default_events].
  repeat split; try assumption.
  - intros repo room rt E. destruct (Hev _ _ _ E) as (r & Hr & Hlt).
    exists r. split; [assumption|]. rewrite length_app. lia.
  - rewrite length_app. cbn. lia.
  - apply Forall_app. split; [assumption|]. repeat constructor.
    apply Forall_known_filter.
Qed.

Lemma well_formed_github_global (st : plugin) (args : list string) :
  well_formed st -> well_formed (snd (github_global st args)).
Proof.
  intros Hwf. unfold github_global.
  destruct args as [|a [|b [|x l]]]; assumption.
Qed.

Lemma well_formed_github_remove (st st' : plugin) (args out : list string) :
  well_formed st -> github_remove st args = Ok (out, st') -> well_formed st'.
Proof.
  intros Hwf Hrun.
  destruct Hwf as (Hnd & Hrooms & Hne & Hev & Hdef & Hknown).
  destruct args as [|repo [|room [|x l]]];
    try (apply Ok_inj in Hrun; injection Hrun as _ <-; repeat split; assumption).
  - destruct (github_remove_repo_table st repo Hnd)
      as (Hrun' & Hentry & _ & _ & Hheap & Hd & Hg).
    rewrite Hrun in Hrun'. apply Ok_inj in Hrun'. injection Hrun' as _ ->.
    unfold well_formed, defaults_allocated, get_defaults in *. repeat split.
    + now apply NoDup_repos_clear_repo.
    + now apply clear_repo_distinct.
    + intros repo' rc. rewrite lookup_clear_repo by assumption.
      destruct (String.eqb repo' repo); [discriminate | apply Hne].
    + intros repo' room' rt. rewrite Hentry, Hheap.
      destruct (String.eqb repo' repo); [discriminate | apply Hev].
    + now rewrite Hd, Hheap.
    + now rewrite Hheap.
  - destruct (github_remove_route_table st repo room Hnd Hrooms)
      as (out' & st'' & Hrun' & Hentry & _ & Hheap & Hd & Hg).
    rewrite Hrun in Hrun'. apply Ok_inj in Hrun'. injection Hrun' as -> <-.
    destruct (github_remove_route_state st repo room)
      as (out'' & st'' & Hrun'' & Hst). cbv zeta in Hst.
    rewrite Hrun in Hrun''. apply Ok_inj in Hrun''. injection Hrun'' as _ <-.
    assert (Hnd1 := NoDup_repos_clear_route st repo room Hnd).
    assert (Hrooms1 := clear_route_distinct st repo room Hrooms).
    unfold well_formed, defaults_allocated, get_defaults in *.
    assert (Hrest : (forall repo' room' rt,
                       route_entry st' repo' room' = Some rt ->
                       exists r, events rt = Some r
                                 /\ r < List.length (heap st'))
                    /\ default_events (cfg st') < List.length (heap st')
                    /\ Forall (Forall (fun e => In e GITHUB_EVENTS)) (heap st')).
    { rewrite Hheap, Hd. repeat split; try assumption.
      intros repo' room' rt. rewrite Hentry.
      destruct (String.eqb repo' repo && String.eqb room' room);
        [discriminate | apply Hev]. }
    destruct Hst as [[-> (rc & Hrc & Hnonempty)] | [-> Hnone]].
    + split; [assumption|]. split; [assumption|]. split; [|exact Hrest].
      intros repo' rc'. destruct (String.eqb_spec repo' repo) as [->|Hrepo].
      * rewrite Hrc. intros E. now injection E as <-.
      * rewrite lookup_clear_route by assumption. apply Hne.
    + split; [now apply NoDup_repos_clear_repo|].
      split; [now apply clear_repo_distinct|]. split; [|exact Hrest].
      intros repo' rc'. rewrite lookup_clear_repo by assumption.
      destruct (String.eqb_spec repo' repo) as [->|Hrepo]; [discriminate|].
      rewrite lookup_clear_route by assumption. apply Hne.
Qed.

Lemma well_formed_fresh : well_formed fresh_plugin.
Proof.
  unfold well_formed, defaults_allocated, routes_distinct, route_entry.
  cbn [fresh_plugin cfg repositories heap default_events lookup keys map].
  repeat split; try discriminate; try constructor; try (cbn; lia).
  - apply Forall_forall. intros x Hx. apply mem_In.
    repeat (destruct Hx as [<-|Hx]; [reflexivity|]). destruct Hx.
  - constructor.
Qed.

Lemma run_well_formed (st st' : plugin) (cmd : command) (out : list string) :
  well_formed st -> run st cmd = Ok (out, st') -> well_formed st'.
Proof.
  intros Hwf. destruct cmd as [args|args|args|args]; cbn [run]; intros Hrun.
  - eapply well_formed_github_route; eauto.
  - apply Ok_inj in Hrun.
    replace st' with (snd (github_defaults st args)) by now rewrite Hrun.
    now apply well_formed_github_defaults.
  - apply Ok_inj in Hrun.
    replace st' with (snd (github_global st args)) by now rewrite Hrun.
    now apply well_formed_github_global.
  - eapply well_formed_github_remove; eauto.
Qed.

Lemma reachable_well_formed (st : plugin) : reachable st -> well_formed st.
Proof.
  induction 1 as [|st st' cmd out _ IH Hrun].
  - exact well_formed_fresh.
  - eapply run_well_formed; eauto.
Qed.

(** No command raises, in any state. *)
Lemma run_total (st : plugin) (cmd : command) :
  exists out st', run st cmd = Ok (out, st').
Proof.
  destruct cmd as [args|args|args|args]; cbn [run].
  - destruct args as [|repo [|room evs]]; try (do 2 eexists; reflexivity).
    destruct (github_route_table st repo room evs)
      as (out & st' & _ & _ & Hrun & _). eauto.
  - destruct (github_defaults st args). eauto.
  - destruct (github_global st args). eauto.
  - destruct args as [|repo [|room [|x l]]]; try (do 2 eexists; reflexivity).
    destruct (github_remove_route_state st repo room) as (out & st' & H & _).
    eauto.
Qed.

(** X15. Whatever sequence of [route], [defaults], [global] and [remove]
    commands a fresh plugin is given, none of them raises, and the
    configuration keeps its shape: repositories and rooms are distinct,
    no repository is left without a route, every route has an event
    list, and every stored list, the defaults included, holds only known
    event names. *)
Theorem commands_keep_configuration_well_formed (st : plugin) :
  reachable st ->
  well_formed st
  /\ routes_complete st
  /\ (forall x, In x (deref st (get_defaults st)) -> In x GITHUB_EVENTS)
  /\ forall cmd, exists out st', run st cmd = Ok (out, st') /\ reachable st'.
Proof.
  intros Hreach. assert (Hwf := reachable_well_formed st Hreach).
  split; [exact Hwf|].
  destruct Hwf as (_ & _ & _ & Hev & Hdef & Hknown).
  split; [|split].
  - intros repo room rt E. destruct (Hev _ _ _ E) as (r & Hr & _). eauto.
  - intros x Hx. unfold deref, get_defaults in Hx.
    rewrite Forall_forall in Hknown.
    assert (Hl := Hknown _ (nth_In _ [] Hdef)).
    rewrite Forall_forall in Hl. now apply Hl.
  - intros cmd. destruct (run_total st cmd) as (out & st' & Hrun).
    exists out, st'. split; [assumption|]. econstructor; eauto.
Qed.

Lemma commands_keep_configuration_well_formed_witness :
  well_formed routed_plugin
  /\ routes_complete routed_plugin
  /\ (forall x, In x (deref routed_plugin (get_defaults routed_plugin)) ->
                In x GITHUB_EVENTS)
  /\ forall cmd, exists out st',
       run routed_plugin cmd = Ok (out, st') /\ reachable st'.
Proof.
  apply (commands_keep_configuration_well_formed routed_plugin).
  apply (reach_run fresh_plugin routed_plugin
           (CmdRoute ["octo/widgets"; "#dev"; "fork"])
           ["Done. Relaying messages from octo/widgets to #dev for events: fork"]).
  - exact reach_fresh.
  - reflexivity.
Defined.

(** ** Resetting the configuration *)

Lemma store_own_config (p : process) (st : plugin) :
  own_config p = None -> own_config (store p st) = None.
Proof. unfold store. now intros ->. Qed.

Lemma plugin_of_store (p : process) (st : plugin) :
  plugin_of (store p st) = st.
Proof.
  unfold store, plugin_of, self_config.
  destruct (own_config p); destruct st; reflexivity.
Qed.

Lemma process_runs_own_config (p p' : process) (cmds : list command) :
  own_config p = None -> process_runs p cmds = Ok p' -> own_config p' = None.
Proof.
  revert p. induction cmds as [|cmd cmds IH]; intros p Hown; cbn [process_runs].
  - intros H. apply Ok_inj in H. now subst p'.
  - unfold process_run.
    destruct (run (plugin_of p) cmd) as [[out st]|e]; [|discriminate].
    cbn [bind fst snd]. apply IH. now apply store_own_config.
Qed.

(** X16. Once [self.config] is [DEFAULT_CONFIG] (after a first
    [github_reset], or after [configure(None)]), the routes and defaults set
    by later commands are written into [DEFAULT_CONFIG] itself, so a
    [github_reset] restores nothing: it answers that all configuration has
    been expunged and leaves every route, the defaults and the global
    route exactly as they were. *)
Theorem github_reset_restores_nothing (p p' : process) (cmds : list command) :
  own_config p = None ->
  process_runs p cmds = Ok p' ->
  github_reset p' = (["Done. All configuration has been expunged."], p')
  /\ plugin_of (snd (github_reset p')) = plugin_of p'.
Proof.
  intros Hown Hruns.
  assert (Hown' := process_runs_own_config p p' cmds Hown Hruns).
  unfold github_reset. destruct p' as [d o h g]. cbn in Hown'. subst o.
  split; reflexivity.
Qed.

Lemma github_reset_restores_nothing_witness :
  process_runs once_reset
    [CmdRoute ["octo/widgets"; "#dev"; "push"]; CmdGlobal ["route"; "#ops"]]
  = Ok routed_after_reset
  /\ github_reset routed_after_reset
     = (["Done. All configuration has been expunged."], routed_after_reset)
  /\ plugin_of (snd (github_reset routed_after_reset))
     = plugin_of routed_after_reset.
Proof.
  assert (Hruns :
    process_runs once_reset
      [CmdRoute ["octo/widgets"; "#dev"; "push"]; CmdGlobal ["route"; "#ops"]]
    = Ok routed_after_reset) by reflexivity.
  split; [exact Hruns|].
  exact (github_reset_restores_nothing once_reset routed_after_reset
           [CmdRoute ["octo/widgets"; "#dev"; "push"];
            CmdGlobal ["route"; "#ops"]] eq_refl Hruns).
Defined.

(** X17. While [self.config] is a dict of its own (a stored
    configuration), no command changes [DEFAULT_CONFIG], and a
    [github_reset] replaces the configuration by the contents of
    [DEFAULT_CONFIG]. *)
Theorem github_reset_of_stored_configuration (p p' : process)
    (c : config) (cmds : list command) :
  own_config p = Some c ->
  process_runs p cmds = Ok p' ->
  DEFAULT_CONFIG p' = DEFAULT_CONFIG p
  /\ cfg (plugin_of (snd (github_reset p'))) = DEFAULT_CONFIG p.
Proof.
  intros Hown Hruns.
  assert (H : DEFAULT_CONFIG p' = DEFAULT_CONFIG p).
  { revert p c Hown Hruns.
    induction cmds as [|cmd cmds IH]; intros p c Hown; cbn [process_runs].
    - intros H. apply Ok_inj in H. now subst p'.
    - unfold process_run.
      destruct (run (plugin_of p) cmd) as [[out st]|e]; [|discriminate].
      cbn [bind fst snd]. intros Hruns.
      rewrite (IH (store p st) (cfg st)); [| |assumption];
        unfold store; rewrite Hown; reflexivity. }
  split; [exact H|]. now rewrite <- H.
Qed.

Lemma github_reset_of_stored_configuration_witness :
  DEFAULT_CONFIG
    (mkProcess (mkConfig 0 [])
       (Some (mkConfig 0 [("octo/widgets", mkRepo [("#dev", mkRoute (Some 1))])]))
       [DEFAULT_EVENTS; ["push"]] None)
  = DEFAULT_CONFIG (configure imported (Some (mkConfig 0 [])))
  /\ cfg (plugin_of (snd (github_reset
       (mkProcess (mkConfig 0 [])
          (Some (mkConfig 0
                   [("octo/widgets", mkRepo [("#dev", mkRoute (Some 1))])]))
          [DEFAULT_EVENTS; ["push"]] None))))
     = DEFAULT_CONFIG (configure imported (Some (mkConfig 0 []))).
Proof.
  apply (github_reset_of_stored_configuration
           (configure imported (Some (mkConfig 0 [])))
           _ (mkConfig 0 []) [CmdRoute ["octo/widgets"; "#dev"; "push"]]);
    reflexivity.
Defined.

(** ** Message builders of [providers.py] and of the plugin *)

Lemma map_result_length {A B} (f : A -> result B) (l : list A) (ys : list B) :
  Providers.map_result f l = Ok ys -> List.length ys = List.length l.
Proof.
  revert ys. induction l as [|x l IH]; intros ys; cbn [Providers.map_result].
  - intros H. apply Ok_inj in H. now subst ys.
  - destruct (f x) as [y|e]; [|discriminate]. cbn [bind].
    destruct (Providers.map_result f l) as [ys'|e]; [|discriminate].
    cbn [bind]. intros H. apply Ok_inj in H. subst ys. cbn. now rewrite (IH ys').
Qed.

Lemma prefix_exact (n : nat) (s : string) :
  exists tail,
    s = Providers.prefix n s ++ tail
    /\ String.length (Providers.prefix n s) = Nat.min n (String.length s).
Proof.
  revert s. induction n as [|n IH]; intros s; [now exists s|].
  destruct s as [|c s]; [now exists ""|].
  destruct (IH s) as (tail & Hs & Hl). exists tail.
  cbn [Providers.prefix append String.length Nat.min].
  split; [now rewrite <- Hs | now rewrite Hl].
Qed.

(** The first field of [split]: what precedes the first separator, or the
    whole string when it has none. *)
Lemma split_first_field (sep : ascii) (s : string) :
  exists rest,
    s = hd "" (split sep s) ++ rest
    /\ all_chars (fun c => negb (Ascii.eqb c sep)) (hd "" (split sep s)) = true
    /\ (rest = "" \/ exists r, rest = String sep r).
Proof.
  induction s as [|c s (rest & IHs & IHc & IHr)];
    [exists ""; repeat split; now left|].
  cbn [split]. destruct (Ascii.eqb c sep) eqn:E.
  - apply Ascii.eqb_eq in E. subst c. exists (String sep s). cbn [hd append].
    repeat split. right. now exists s.
  - destruct (split sep s) as [|f fs] eqn:Es; [now apply split_nonempty in Es|].
    cbn [hd] in *. exists rest. cbn [append all_chars].
    rewrite E, IHc. split; [now rewrite <- IHs|]. split; [reflexivity|exact IHr].
Qed.

Lemma append_assoc (a b c : string) : (a ++ b) ++ c = a ++ b ++ c.
Proof. induction a as [|x a IH]; cbn; [reflexivity | now rewrite IH]. Qed.

(** X18. What GitLab's push message shows of a commit.  The shown text is
    the first line of the first 80 characters of the commit message: the
    message is [msg ++ rest ++ tail] where [msg ++ rest] are its first 80
    characters (all of it when it is shorter), [msg] has no line break,
    and [rest] is empty or begins with the line break that ends [msg].
    The shown hash is the first 8 characters of the commit id (all of it
    when it is shorter). *)
Theorem gitlab_commit_message_first_line (c u : json) (m i : string) :
  c.["message"] = Ok (JStr m) ->
  c.["id"] = Ok (JStr i) ->
  c.["url"] = Ok u ->
  exists msg rest tail h itail,
    Providers.GitLabHandlers.commit_message c
    = Ok (JObj [("msg", JStr msg); ("hash", JStr h); ("url", u)])
    /\ m = msg ++ rest ++ tail
    /\ String.length (msg ++ rest) = Nat.min 80 (String.length m)
    /\ all_chars (fun ch => negb (Ascii.eqb ch newline)) msg = true
    /\ (rest = "" \/ exists r, rest = String newline r)
    /\ i = h ++ itail
    /\ String.length h = Nat.min 8 (String.length i).
Proof.
  intros Hm Hi Hu.
  destruct (prefix_exact 80 m) as (tail & Hcut & Hlen).
  destruct (split_first_field newline (Providers.prefix 80 m))
    as (rest & Hline & Hchars & Hrest).
  destruct (prefix_exact 8 i) as (itail & Hid & Hidlen).
  exists (hd "" (split newline (Providers.prefix 80 m))), rest, tail,
         (Providers.prefix 8 i), itail.
  unfold Providers.GitLabHandlers.commit_message.
  rewrite Hm, Hi, Hu. cbn [bind Providers.slice_to Providers.str_split].
  split; [reflexivity|].
  split; [rewrite <- append_assoc, <- Hline; exact Hcut|].
  split; [rewrite <- Hline; exact Hlen|].
  split; [exact Hchars|]. split; [exact Hrest|]. split; [exact Hid|exact Hidlen].
Qed.

Lemma gitlab_commit_message_first_line_witness :
  exists msg rest tail h itail,
    Providers.GitLabHandlers.commit_message
      (JObj [("id", JStr "b6568db1bc1dcd7f8b4d5a946b0b91f9dacd7327");
             ("message", JStr ("Update Catalan translation"
                               ++ String newline "" ++ "Signed-off-by: J"));
             ("url", JStr "http://example.com/c/b6568db1")])
    = Ok (JObj [("msg", JStr msg); ("hash", JStr h);
                ("url", JStr "http://example.com/c/b6568db1")])
    /\ "Update Catalan translation" ++ String newline "" ++ "Signed-off-by: J"
       = msg ++ rest ++ tail
    /\ String.length (msg ++ rest)
       = Nat.min 80 (String.length
                      ("Update Catalan translation"
                       ++ String newline "" ++ "Signed-off-by: J"))
    /\ all_chars (fun ch => negb (Ascii.eqb ch newline)) msg = true
    /\ (rest = "" \/ exists r, rest = String newline r)
    /\ "b6568db1bc1dcd7f8b4d5a946b0b91f9dacd7327" = h ++ itail
    /\ String.length h
       = Nat.min 8 (String.length "b6568db1bc1dcd7f8b4d5a946b0b91f9dacd7327").
Proof.
  apply (gitlab_commit_message_first_line
           (JObj [("id", JStr "b6568db1bc1dcd7f8b4d5a946b0b91f9dacd7327");
                  ("message", JStr ("Update Catalan translation"
                                    ++ String newline "" ++ "Signed-off-by: J"));
                  ("url", JStr "http://example.com/c/b6568db1")]));
    reflexivity.
Defined.

Lemma gitlab_branch (b : string) :
  join "/" (skipn 2 (split "/" ("refs/heads/" ++ b))) = b.
Proof.
  cbn [append split Ascii.eqb Bool.eqb skipn]. apply (join_split "/").
Qed.

(** X19. GitLab's push message.  The branch is everything after
    [refs/heads/], slashes included; the link is the URL of the last
    commit, or the project page when the push has no commits; the number
    of commits is the length of the list. *)
Theorem gitlab_msg_push_fields (body repo user u : json) (b : string)
    (cs ms : list json) :
  body.["commits"] = Ok (JArr cs) ->
  match cs with
  | [] => getitem2 body "project" "web_url"
  | c :: cs' => (last cs' c).["url"]
  end = Ok u ->
  Providers.map_result Providers.GitLabHandlers.commit_message cs = Ok ms ->
  body.["user_name"] = Ok user ->
  body.["ref"] = Ok (JStr ("refs/heads/" ++ b)) ->
  Providers.GitLabHandlers.msg_push body repo
  = Ok (Some (Providers.render_template "GitLab" "push"
       [("body", body); ("repo", repo); ("user", user);
        ("commits", JNum (Z.of_nat (List.length cs)));
        ("branch", JStr b); ("url", u);
        ("commit_messages", JArr ms)])).
Proof.
  intros Hcs Hu Hms Huser Href.
  unfold Providers.GitLabHandlers.msg_push.
  rewrite Hcs. cbn [bind]. destruct cs as [|c cs'].
  - cbn [truthy]. rewrite Hu. cbn [bind]. cbn in Hms. apply Ok_inj in Hms.
    subst ms. rewrite Huser, Href. cbn [bind len Providers.str_split].
    now rewrite gitlab_branch.
  - cbn [truthy Providers.index_last bind]. rewrite Hu.
    cbn [bind Providers.iter]. rewrite Hms. cbn [bind].
    rewrite Huser, Href. cbn [bind len Providers.str_split].
    now rewrite gitlab_branch.
Qed.

Lemma gitlab_msg_push_fields_witness :
  Providers.GitLabHandlers.msg_push
    (JObj [("user_name", JStr "alice"); ("ref", JStr "refs/heads/feature/x");
           ("commits", JArr []);
           ("project", JObj [("web_url", JStr "http://example.com/widgets")])])
    (JStr "widgets")
  = Ok (Some (Providers.render_template "GitLab" "push"
       [("body", JObj [("user_name", JStr "alice");
                       ("ref", JStr "refs/heads/feature/x");
                       ("commits", JArr []);
                       ("project",
                        JObj [("web_url", JStr "http://example.com/widgets")])]);
        ("repo", JStr "widgets"); ("user", JStr "alice");
        ("commits", JNum 0); ("branch", JStr "feature/x");
        ("url", JStr "http://example.com/widgets");
        ("commit_messages", JArr [])])).
Proof.
  apply (gitlab_msg_push_fields _ (JStr "widgets") (JStr "alice")
           (JStr "http://example.com/widgets") "feature/x" [] []);
    reflexivity.
Defined.

(** X20. GitLab issue events: only the actions [reopen], [close] and
    [open] produce a message; for any other action the builder returns
    nothing, before it reads any other field of the payload. *)
Theorem gitlab_msg_issue_other_action (body repo k : json) :
  getitem2 body "object_attributes" "action" = Ok k ->
  (forall s, k = JStr s -> s <> "reopen" /\ s <> "close" /\ s <> "open") ->
  (forall l, k <> JArr l) -> (forall o, k <> JObj o) ->
  Providers.GitLabHandlers.msg_issue body repo = Ok None.
Proof.
  intros Hk Hs Harr Hobj. unfold Providers.GitLabHandlers.msg_issue.
  rewrite Hk. cbn [bind].
  destruct k as [| | |s|l|o]; try reflexivity.
  - destruct (Hs s eq_refl) as (H1 & H2 & H3).
    unfold Providers.GitLabHandlers.issue_action. cbn [lookup].
    destruct (String.eqb_spec s "reopen"); [contradiction|].
    destruct (String.eqb_spec s "close"); [contradiction|].
    destruct (String.eqb_spec s "open"); [contradiction|].
    reflexivity.
  - now contradiction (Harr l).
  - now contradiction (Hobj o).
Qed.

Lemma gitlab_msg_issue_other_action_witness :
  Providers.GitLabHandlers.msg_issue
    (JObj [("object_attributes", JObj [("action", JStr "update")])]) JNull
  = Ok None.
Proof.
  apply (gitlab_msg_issue_other_action _ JNull (JStr "update")).
  - reflexivity.
  - intros s E. injection E as <-. repeat split; discriminate.
  - discriminate.
  - discriminate.
Defined.

(** X21. GitLab comments: the noteable type is compared without regard to
    case; a type other than issue, commit and merge request produces no
    message, before any other field is read. *)
Theorem gitlab_msg_comment_other_type (body repo : json) (s : string) :
  getitem2 body "object_attributes" "noteable_type" = Ok (JStr s) ->
  lower s <> "issue" -> lower s <> "commit" -> lower s <> "mergerequest" ->
  Providers.GitLabHandlers.msg_comment body repo = Ok None.
Proof.
  intros Hs H1 H2 H3. unfold Providers.GitLabHandlers.msg_comment.
  rewrite Hs. cbn [bind].
  destruct (String.eqb_spec (lower s) "issue"); [contradiction|].
  destruct (String.eqb_spec (lower s) "commit"); [contradiction|].
  destruct (String.eqb_spec (lower s) "mergerequest"); [contradiction|].
  reflexivity.
Qed.

Lemma gitlab_msg_comment_other_type_witness :
  Providers.GitLabHandlers.msg_comment
    (JObj [("object_attributes", JObj [("noteable_type", JStr "Snippet")])])
    JNull
  = Ok None.
Proof.
  apply (gitlab_msg_comment_other_type _ JNull "Snippet");
    [reflexivity | discriminate | discriminate | discriminate].
Defined.

(** X22. The plugin's push message counts all commits but quotes the
    messages of the first five only: later commits are not read, so they
    may lack a message.  The branch is the last segment of the ref. *)
Theorem plugin_msg_push_first_five (tenv : render_call -> string)
    (body repo user url : json) (ref : string) (cs ms : list json) :
  getitem2 body "pusher" "name" = Ok user ->
  body.["commits"] = Ok (JArr cs) ->
  body.["ref"] = Ok (JStr ref) ->
  body.["compare"] = Ok url ->
  Providers.map_result (fun c => c.["message"]) (firstn 5 cs) = Ok ms ->
  msg_push tenv body repo
  = Ok (Some (tenv (mkRender "push.html"
       [("body", body); ("repo", repo); ("user", user);
        ("commits", JNum (Z.of_nat (List.length cs)));
        ("branch", JStr (last (split "/" ref) ""));
        ("url", url); ("messages", JArr ms)])))
  /\ List.length ms = Nat.min 5 (List.length cs).
Proof.
  intros Huser Hcs Href Hurl Hms. split.
  - unfold msg_push. rewrite Huser, Hcs, Href, Hurl.
    cbn [bind len Providers.str_split Providers.slice_to Providers.iter].
    rewrite Hms. reflexivity.
  - rewrite (map_result_length _ _ _ Hms). apply length_firstn.
Qed.

Lemma plugin_msg_push_first_five_witness :
  msg_push tenv_name push_payload (JStr "octo/widgets")
  = Ok (Some (tenv_name (mkRender "push.html"
       [("body", push_payload); ("repo", JStr "octo/widgets");
        ("user", JStr "alice"); ("commits", JNum 2);
        ("branch", JStr "main");
        ("url", JStr "https://github.com/octo/widgets/compare/a...b");
        ("messages", JArr [JStr "Fix crash"; JStr "Add test"])])))
  /\ List.length [JStr "Fix crash"; JStr "Add test"] = Nat.min 5 2.
Proof.
  apply (plugin_msg_push_first_five tenv_name push_payload (JStr "octo/widgets")
           (JStr "alice")
           (JStr "https://github.com/octo/widgets/compare/a...b")
           "refs/heads/main"
           [JObj [("message", JStr "Fix crash")];
            JObj [("message", JStr "Add test")]]
           [JStr "Fix crash"; JStr "Add test"]);
    reflexivity.
Defined.

(** X23. The issues builder of [providers.py] reads the assignee from the
    payload itself: on a well-formed payload it never raises on account
    of the assignee; it reports the assignee's login, or none when the
    assignee is null. *)
Theorem providers_msg_issues_assignee (body repo a : json) :
  well_formed_issues body ->
  getitem2 body "issue" "assignee" = Ok a ->
  (truthy a = false ->
   exists kw,
     Providers.GithubHandlers.msg_issues body repo
     = Ok (Some (Providers.render_template "Github" "issues" kw))
     /\ lookup "assignee" kw = Some JNull)
  /\ (forall l,
        truthy a = true -> a.["login"] = Ok l ->
        exists kw,
          Providers.GithubHandlers.msg_issues body repo
          = Ok (Some (Providers.render_template "Github" "issues" kw))
          /\ lookup "assignee" kw = Some l).
Proof.
  intros (Hact & Hnum & Htitle & Huser & Hurl & _ & _) Ha.
  destruct Hact as [action Hact], Hnum as [number Hnum],
    Htitle as [title Htitle], Huser as [user Huser], Hurl as [url Hurl].
  unfold Providers.GithubHandlers.msg_issues.
  rewrite Hact, Hnum, Htitle, Huser, Hurl, Ha. cbn [bind].
  split.
  - intros ->. cbn [bind]. eexists. split; reflexivity.
  - intros l -> Hl. unfold getitem3. rewrite Ha. cbn [bind]. rewrite Hl.
    cbn [bind]. eexists. split; reflexivity.
Qed.

Lemma providers_msg_issues_assignee_witness :
  exists kw,
    Providers.GithubHandlers.msg_issues
      (issues_payload (JObj [("login", JStr "bob")])) (JStr "octo/widgets")
    = Ok (Some (Providers.render_template "Github" "issues" kw))
    /\ lookup "assignee" kw = Some (JStr "bob").
Proof.
  assert (Hwf : well_formed_issues
                  (issues_payload (JObj [("login", JStr "bob")]))).
  { unfold well_formed_issues, text_or_null.
    repeat split; eexists; try reflexivity.
    split; [reflexivity|]. right. eexists. reflexivity. }
  exact (proj2 (providers_msg_issues_assignee
                  (issues_payload (JObj [("login", JStr "bob")]))
                  (JStr "octo/widgets") (JObj [("login", JStr "bob")])
                  Hwf eq_refl) (JStr "bob") eq_refl eq_refl).
Defined.
